(** * Data profiling and cleaning engine: a shallow embedding

    This development embeds the profiling and cleaning core of the
    application ([src/data_profiler.py], [src/data_cleaner.py]) and settles
    the properties its specification states about it.  Two helpers that
    stand beside the core are embedded too: the grade bands of
    [src/utils.py] and the separator detection of [src/data_loader.py].

    The program is written against pandas.  The embedding keeps the
    structure of the Python functions and gives each pandas call it uses a
    definition of its own (module [Pandas]), so that a source function and
    its embedding can be read side by side.

    Conventions of the model.
    - A cell is a null marker, a number, a boolean or a string.  Numbers are
      exact rationals ([Qc]); floating-point rounding is not modelled, and
      the examples only use values that are exact in binary floating point.
      A quotient, a mean or a rounding to two decimals is therefore the
      exact one: where the program computes with doubles, it can differ
      from the embedding by a rounding error, which shows at the ties of
      [round] and at comparisons between numbers that are equal in exact
      arithmetic.
    - A column carries its storage type next to its cells: an integer or
      floating type of numpy, [object] or [bool]; dates, categories and the
      nullable extension types are left out.  The program inspects a
      storage type in two ways only: membership in the list
      [int64, float64, int32, float32] and equality with [object].
    - The profiler and the clipping action raise [TypeError] on a column
      of booleans: the [quantile] of pandas does, on a column of storage
      type [bool] and on an [object] column of booleans only.  The
      embedding has no exception there and computes with the booleans as 0
      and 1; what it states of a profile or of a cleaned table is stated
      of the calls that return.
    - Text is a string of bytes; case mapping, whitespace and digits are the
      ASCII ones, other bytes are left alone.
    - How pandas reads a number out of a text cell, and how Python prints a
      number held in a cell, belong to the libraries and not to this
      repository: they are the two fields of the class [Coercions], and every
      statement holds for every instance. *)

From stdpp Require Import base list strings gmap numbers pretty sorting.
From Stdlib Require Import QArith Qcanon Qround Ascii Lqa.

Local Open Scope Qc_scope.

(** Closes a decidable goal by evaluation. *)
Ltac by_compute :=
  lazymatch goal with
  | |- ?P => apply (@bool_decide_unpack P _); vm_compute; exact I
  end.

(** Evaluates the comparisons of two literal names. *)
Ltac decide_names :=
  repeat match goal with
         | |- context [@bool_decide (?x = ?y) ?d] =>
             let b := eval vm_compute in (@bool_decide (x = y) d) in
             lazymatch b with
             | true => change (@bool_decide (x = y) d) with true
             | false => change (@bool_decide (x = y) d) with false
             end
         end;
  cbv iota.

(** ** Python text operations *)

Module PyStr.

Definition code (c : ascii) : nat := nat_of_ascii c.

Definition is_upper (c : ascii) : bool :=
  (65 <=? code c)%nat && (code c <=? 90)%nat.

Definition is_lower (c : ascii) : bool :=
  (97 <=? code c)%nat && (code c <=? 122)%nat.

Definition is_digit (c : ascii) : bool :=
  (48 <=? code c)%nat && (code c <=? 57)%nat.

(** [str.isspace] on the ASCII range: tab, line feed, vertical tab, form
    feed, carriage return, the four separators 28..31 and the space. *)
Definition is_space (c : ascii) : bool :=
  ((9 <=? code c)%nat && (code c <=? 13)%nat)
  || ((28 <=? code c)%nat && (code c <=? 32)%nat).

Definition to_lower (c : ascii) : ascii :=
  if is_upper c then ascii_of_nat (code c + 32) else c.

Definition to_upper (c : ascii) : ascii :=
  if is_lower c then ascii_of_nat (code c - 32) else c.

(** [s.lower()] *)
Fixpoint lower (s : string) : string :=
  match s with
  | EmptyString => EmptyString
  | String c s' => String (to_lower c) (lower s')
  end.

Fixpoint lstrip (s : string) : string :=
  match s with
  | EmptyString => EmptyString
  | String c s' => if is_space c then lstrip s' else s
  end.

Fixpoint rstrip (s : string) : string :=
  match s with
  | EmptyString => EmptyString
  | String c s' =>
      match rstrip s' with
      | EmptyString => if is_space c then EmptyString else String c EmptyString
      | r => String c r
      end
  end.

(** [s.strip()] *)
Definition strip (s : string) : string := rstrip (lstrip s).

(** [s.title()]: a cased character is upper-cased when the previous
    character is not cased and lower-cased when it is. *)
Fixpoint title_go (prev_cased : bool) (s : string) : string :=
  match s with
  | EmptyString => EmptyString
  | String c s' =>
      if is_lower c then
        String (if prev_cased then c else to_upper c) (title_go true s')
      else if is_upper c then
        String (if prev_cased then to_lower c else c) (title_go true s')
      else String c (title_go false s')
  end.

Definition title (s : string) : string := title_go false s.

(** [s.replace(old, new)] for one-character [old] and [new]. *)
Fixpoint replace_char (old new : ascii) (s : string) : string :=
  match s with
  | EmptyString => EmptyString
  | String c s' =>
      String (if bool_decide (c = old) then new else c) (replace_char old new s')
  end.

Fixpoint starts_with (p s : string) : bool :=
  match p, s with
  | EmptyString, _ => true
  | String a p', String b s' => bool_decide (a = b) && starts_with p' s'
  | String _ _, EmptyString => false
  end.

(** [sub in s] *)
Fixpoint contains (sub s : string) : bool :=
  starts_with sub s ||
  match s with
  | EmptyString => false
  | String _ s' => contains sub s'
  end.

(** [any(kw in s for kw in kws)] *)
Definition contains_any (kws : list string) (s : string) : bool :=
  existsb (fun kw => contains kw s) kws.

Definition is_date_sep (c : ascii) : bool :=
  bool_decide (c = "-"%char) || bool_decide (c = "/"%char).

(** One or two digits, as [\d{1,2}] takes them when the pattern goes on
    with [rest]: two digits first, one digit if that fails. *)
Definition digits_1_2 (rest : string -> bool) (s : string) : bool :=
  match s with
  | String a s1 =>
      is_digit a &&
      ((match s1 with
        | String b s2 => is_digit b && rest s2
        | EmptyString => false
        end) || rest s1)
  | EmptyString => false
  end.

Definition sep_then (rest : string -> bool) (s : string) : bool :=
  match s with
  | String c s' => is_date_sep c && rest s'
  | EmptyString => false
  end.

(** [re.match(r"\d{4}[-/]\d{1,2}[-/]\d{1,2}", s)]: the pattern is anchored
    at the start of the text only. *)
Definition match_date (s : string) : bool :=
  match s with
  | String a (String b (String c (String d s'))) =>
      is_digit a && is_digit b && is_digit c && is_digit d &&
      sep_then (digits_1_2 (sep_then (digits_1_2 (fun _ => true)))) s'
  | _ => false
  end.

(** Whether a text holds a decimal digit. *)
Fixpoint has_digit (s : string) : bool :=
  match s with
  | EmptyString => false
  | String c s' => is_digit c || has_digit s'
  end.

End PyStr.

(** ** Cells, storage types and columns *)

Inductive value : Type :=
  | VNull                (* None or NaN *)
  | VNum (q : Qc)
  | VBool (b : bool)
  | VStr (s : string).

Global Instance value_eq_dec : EqDecision value.
Proof. solve_decision. Defined.

(** The storage types: the integer and floating types of numpy, [object]
    and [bool]. *)
Inductive dtype : Type :=
  | int8 | int16 | int32 | int64
  | uint8 | uint16 | uint32 | uint64
  | float16 | float32 | float64
  | object | bool_.

Global Instance dtype_eq_dec : EqDecision dtype.
Proof. solve_decision. Defined.

(** The storage types of integer kind and of floating kind. *)
Definition is_integer_dtype (d : dtype) : bool :=
  match d with
  | int8 | int16 | int32 | int64 | uint8 | uint16 | uint32 | uint64 => true
  | _ => false
  end.

Definition is_float_dtype (d : dtype) : bool :=
  match d with
  | float16 | float32 | float64 => true
  | _ => false
  end.

(** Whether a number has no fractional part. *)
Definition is_integral (x : Qc) : bool := bool_decide (Qden x = 1%positive).

Record series : Type := Series { s_dtype : dtype; s_values : list value }.

Global Instance series_eq_dec : EqDecision series.
Proof. solve_decision. Defined.

(** The two library behaviours the model leaves open. *)
Class Coercions : Type := {
  (** the number [pd.to_numeric] reads from a text cell, if any *)
  parse_number : string -> option Qc;
  (** [str(x)] for a number held in a cell *)
  str_number : Qc -> string
}.

(** A storage type is consistent with the cells when a numeric column holds
    numbers and nulls only and a boolean column holds booleans only. *)
Definition value_fits (d : dtype) (v : value) : bool :=
  match d, v with
  | object, _ => true
  | bool_, VBool _ => true
  | bool_, _ => false
  | _, (VNull | VNum _) => true
  | _, _ => false
  end.

Definition wf_series (s : series) : bool :=
  forallb (value_fits (s_dtype s)) (s_values s).

(** ** The pandas operations the program calls *)

Module Pandas.
Section WithCoercions.
Context `{Coercions}.

Definition is_null (v : value) : bool :=
  match v with VNull => true | _ => false end.

Definition notna_value (v : value) : bool := negb (is_null v).

(** [s.isnull()] and [s.notna()] *)
Definition isnull (s : series) : list bool := is_null <$> s_values s.
Definition notna (s : series) : list bool := notna_value <$> s_values s.

(** [len(s)] *)
Definition len (s : series) : nat := length (s_values s).

(** [s.dropna()] *)
Definition dropna (s : series) : series :=
  Series (s_dtype s) (List.filter notna_value (s_values s)).

(** [s.count()]: the cells that are not null *)
Definition count (s : series) : nat := len (dropna s).

(** [mask.sum()] *)
Definition sum_mask (m : list bool) : nat := length (List.filter id m).

Definition Qc_of_nat (n : nat) : Qc := Qc_of_Z (Z.of_nat n).

(** [mask.mean()]: NaN ([None]) on the empty mask. *)
Definition mean_mask (m : list bool) : option Qc :=
  match m with
  | [] => None
  | _ => Some (Qc_of_nat (sum_mask m) / Qc_of_nat (length m))
  end.

(** A boolean column with missing entries: the mean skips them. *)
Definition mean_skipna (m : list (option bool)) : option Qc :=
  mean_mask (omap id m).

(** [x > c] where [x] may be NaN: a comparison with NaN is false. *)
Definition gt_nan (x : option Qc) (c : Qc) : bool :=
  match x with
  | Some q => bool_decide (c < q)
  | None => false
  end.

(** The number [pd.to_numeric(..., errors="coerce")] makes of one cell. *)
Definition to_numeric_value (v : value) : value :=
  match v with
  | VNull => VNull
  | VNum q => VNum q
  | VBool b => VNum (if b then 1 else 0)
  | VStr s => match parse_number s with
              | Some q => VNum q
              | None => VNull
              end
  end.

(** [pd.to_numeric(s, errors="coerce")]: a column that already has a
    numeric or boolean storage type is returned as it is; the cells of an
    [object] column are converted one by one.  The result of a conversion
    is given the storage type [float64] (pandas picks [int64] when every
    cell is integral and none is missing; the program does not tell the
    two apart).  One case is not followed: an [object] column whose cells
    are all booleans comes out of pandas as a column of storage type
    [bool], on which [quantile] raises; here it comes out as the numbers 0
    and 1. *)
Definition to_numeric (s : series) : series :=
  match s_dtype s with
  | object => Series float64 (to_numeric_value <$> s_values s)
  | _ => s
  end.

(** The number a cell of a numeric or boolean column stands for. *)
Definition as_number (v : value) : option Qc :=
  match v with
  | VNum q => Some q
  | VBool b => Some (if b then 1 else 0)
  | _ => None
  end.

Definition numbers (s : series) : list Qc := omap as_number (s_values s).

Fixpoint insert_sorted (x : Qc) (l : list Qc) : list Qc :=
  match l with
  | [] => [x]
  | y :: l' => if bool_decide (x ≤ y) then x :: l else y :: insert_sorted x l'
  end.

Definition sort (l : list Qc) : list Qc := foldr insert_sorted [] l.

(** [s.quantile(q)], linear interpolation between the two order statistics
    around position [q * (n - 1)]; nulls are skipped and the empty column
    gives NaN. *)
Definition quantile (q : Qc) (s : series) : option Qc :=
  match sort (numbers s) with
  | [] => None
  | (x0 :: _) as xs =>
      let pos := q * Qc_of_nat (length xs - 1) in
      let lo := Qfloor pos in
      let a := nth (Z.to_nat lo) xs x0 in
      let b := nth (S (Z.to_nat lo)) xs a in
      Some (a + (pos - Qc_of_Z lo) * (b - a))
  end.

Definition quarter : Qc := Q2Qc (1 # 4).
Definition half : Qc := Q2Qc (1 # 2).
Definition three_quarters : Qc := Q2Qc (3 # 4).

(** [s.median()] *)
Definition median (s : series) : option Qc := quantile half s.

Definition Qc_sum (l : list Qc) : Qc := foldr Qcplus 0 l.

(** [s.mean()], the exact quotient of the sum by the count; the mean
    pandas computes in doubles can differ from it by a rounding error. *)
Definition mean (s : series) : option Qc :=
  match numbers s with
  | [] => None
  | xs => Some (Qc_sum xs / Qc_of_nat (length xs))
  end.

Definition Qc_min (x y : Qc) : Qc := if bool_decide (x ≤ y) then x else y.
Definition Qc_max (x y : Qc) : Qc := if bool_decide (x ≤ y) then y else x.

(** [s.min()] and [s.max()] *)
Definition smin (s : series) : option Qc :=
  match numbers s with
  | [] => None
  | x :: xs => Some (foldr Qc_min x xs)
  end.

Definition smax (s : series) : option Qc :=
  match numbers s with
  | [] => None
  | x :: xs => Some (foldr Qc_max x xs)
  end.

Definition clip_number (lower upper : option Qc) (x : Qc) : Qc :=
  let y := match lower with Some l => Qc_max x l | None => x end in
  match upper with Some u => Qc_min y u | None => y end.

(** [s.clip(lower, upper)]: a NaN bound does not bound.  The bounds are
    floats: a column of integer storage type into which a bound with a
    fractional part is written comes out as [float64], and keeps its
    storage type when no cell moves or the bounds written are whole
    numbers.  (A [float16] or [float32] column is widened in the same way
    by a bound that its type cannot hold, which the exact numbers of the
    embedding cannot tell; such a column keeps its type here.) *)
Definition clip (lower upper : option Qc) (s : series) : series :=
  let clipped :=
    (fun v => match v with
              | VNum x => VNum (clip_number lower upper x)
              | _ => v
              end) <$> s_values s in
  let written :=
    omap (fun '(v, v') => if bool_decide (v = v') then None else as_number v')
         (zip (s_values s) clipped) in
  Series (if is_integer_dtype (s_dtype s) && negb (forallb is_integral written)
          then float64 else s_dtype s)
         clipped.

(** [s.fillna(v)]; filling with NaN changes nothing. *)
Definition fillna (fill : value) (s : series) : series :=
  Series (s_dtype s)
    ((fun v => if is_null v then fill else v) <$> s_values s).

(** [(a != b).sum()] for two columns of one length; NaN differs from NaN. *)
Definition count_changed (a b : series) : nat :=
  length (List.filter
    (fun '(x, y) => is_null x || is_null y || negb (bool_decide (x = y)))
    (zip (s_values a) (s_values b))).

(** [str(v)] for a cell, as [s.astype(str)] applies it. *)
Definition str_value (v : value) : string :=
  match v with
  | VNull => "nan"
  | VNum q => str_number q
  | VBool b => if b then "True" else "False"
  | VStr s => s
  end.

(** [s.astype(str)] *)
Definition astype_str (s : series) : series :=
  Series object ((fun v => VStr (str_value v)) <$> s_values s).

(** The [.str] accessor: a method is applied to the text cells; a cell
    that is not a text gives NaN. *)
Definition str_map (f : string -> string) (s : series) : series :=
  Series object
    ((fun v => match v with VStr x => VStr (f x) | _ => VNull end)
       <$> s_values s).

Definition str_strip : series -> series := str_map PyStr.strip.
Definition str_lower : series -> series := str_map PyStr.lower.
Definition str_title : series -> series := str_map PyStr.title.

(** [s.str.match(pattern)] for the date pattern. *)
Definition str_match_date (s : series) : list (option bool) :=
  (fun v => match v with VStr x => Some (PyStr.match_date x) | _ => None end)
    <$> s_values s.

(** Values in order of first occurrence. *)
Fixpoint unique_go {A} `{EqDecision A} (seen l : list A) : list A :=
  match l with
  | [] => []
  | x :: l' =>
      if bool_decide (x ∈ seen) then unique_go seen l'
      else x :: unique_go (x :: seen) l'
  end.

(** [s.unique()] on a column without nulls, [s.nunique()] on any. *)
Definition unique (s : series) : list value := unique_go [] (s_values s).
Definition nunique (s : series) : nat := length (unique (dropna s)).

(** [s.head(n).tolist()] *)
Definition head (n : nat) (s : series) : list value := take n (s_values s).

Definition occurrences (v : value) (l : list value) : nat :=
  length (List.filter (fun x => bool_decide (x = v)) l).

(** [s.value_counts()] on a column without nulls: most frequent first,
    ties in order of first occurrence. *)
Fixpoint insert_by_count (p : value * nat) (l : list (value * nat))
  : list (value * nat) :=
  match l with
  | [] => [p]
  | q :: l' =>
      if (snd q <? snd p)%nat then p :: l else q :: insert_by_count p l'
  end.

Definition value_counts (s : series) : list (value * nat) :=
  foldr insert_by_count []
    (rev ((fun v => (v, occurrences v (s_values s))) <$> unique s)).

(** The order [sort] puts on the modes: numbers and booleans by value,
    texts byte by byte; a number and a text do not compare. *)
Definition value_leb (a b : value) : option bool :=
  match a, b with
  | VStr x, VStr y => Some (String.leb x y)
  | VStr _, _ | _, VStr _ => None
  | _, _ =>
      match as_number a, as_number b with
      | Some x, Some y => Some (bool_decide (x ≤ y))
      | _, _ => None
      end
  end.

Definition comparable (l : list value) : bool :=
  forallb (fun a => forallb (fun b => bool_decide (is_Some (value_leb a b))) l) l.

Definition least (x : value) (l : list value) : value :=
  foldl (fun m v => if value_leb v m is Some true then
                      (if value_leb m v is Some true then m else v)
                    else m) x l.

(** [s.mode()] followed by [iloc[0]]: among the most frequent values that
    are not null the least one; when they do not compare, pandas leaves
    them unsorted and the first in order of occurrence comes out.  [None]
    when the column has no value. *)
Definition mode_first (s : series) : option value :=
  match value_counts (dropna s) with
  | [] => None
  | (v, n) :: rest =>
      let modes := v :: (fst <$> List.filter (fun p => (snd p =? n)%nat) rest) in
      Some (if comparable modes then least v modes else v)
  end.

End WithCoercions.
End Pandas.

(** ** Tables *)

(** A table: its columns in order, each under its name, and the number of
    rows (the length of the index, which a table keeps when it has no column
    left).  Column names are unique within a table. *)
Record DataFrame : Type := Frame {
  df_len : nat;
  df_data : list (string * series)
}.

Global Instance DataFrame_eq_dec : EqDecision DataFrame.
Proof. solve_decision. Defined.

Module Frames.

(** [df.columns] *)
Definition columns (df : DataFrame) : list string := fst <$> df_data df.

(** [col in df.columns] *)
Definition has_column (col : string) (df : DataFrame) : bool :=
  bool_decide (col ∈ columns df).

(** [df[col]]; [None] stands for the [KeyError] of a missing name. *)
Definition get (df : DataFrame) (col : string) : option series :=
  snd <$> List.find (fun p => bool_decide (fst p = col)) (df_data df).

Fixpoint replace_column (col : string) (s : series)
    (l : list (string * series)) : list (string * series) :=
  match l with
  | [] => [(col, s)]
  | (c, x) :: l' =>
      if bool_decide (c = col) then (c, s) :: l'
      else (c, x) :: replace_column col s l'
  end.

(** [df[col] = s]: in place for a column of the table, at the end for a
    new name. *)
Definition set (df : DataFrame) (col : string) (s : series) : DataFrame :=
  Frame (df_len df) (replace_column col s (df_data df)).

(** [df.drop(columns=[col])] *)
Definition drop (df : DataFrame) (col : string) : DataFrame :=
  Frame (df_len df)
    (List.filter (fun p => negb (bool_decide (fst p = col))) (df_data df)).

(** [df.empty]: no row or no column. *)
Definition empty (df : DataFrame) : bool :=
  bool_decide (df_len df = 0%nat) || bool_decide (df_data df = []).

(** The cells of row [i], column by column. *)
Definition row (df : DataFrame) (i : nat) : list (option value) :=
  (fun p => s_values (snd p) !! i) <$> df_data df.

Definition rows (df : DataFrame) : list (list (option value)) :=
  row df <$> seq 0 (df_len df).

(** Marks every element that equals an earlier one. *)
Fixpoint duplicated_go {A} `{EqDecision A} (seen l : list A) : list bool :=
  match l with
  | [] => []
  | x :: l' =>
      if bool_decide (x ∈ seen) then true :: duplicated_go seen l'
      else false :: duplicated_go (x :: seen) l'
  end.

(** [df.duplicated()]: a row is a duplicate when an earlier row has the same
    cells, nulls being equal to nulls; empty on an empty table. *)
Definition duplicated (df : DataFrame) : list bool :=
  if empty df then [] else duplicated_go [] (rows df).

(** [l[mask]] *)
Definition mask_filter {A} (mask : list bool) (l : list A) : list A :=
  fst <$> List.filter snd (zip l mask).

(** The positions a mask keeps. *)
Definition kept (mask : list bool) : list nat :=
  mask_filter mask (seq 0 (length mask)).

(** [df[mask]]: the rows the mask keeps, every column keeping its storage
    type. *)
Definition select (mask : list bool) (df : DataFrame) : DataFrame :=
  Frame (length (mask_filter mask (seq 0 (df_len df))))
    ((fun p => (fst p, Series (s_dtype (snd p))
                        (mask_filter mask (s_values (snd p)))))
       <$> df_data df).

(** [df.drop_duplicates()]: the first of equal rows is kept; an empty table
    is returned as it is. *)
Definition drop_duplicates (df : DataFrame) : DataFrame :=
  if empty df then df else select (negb <$> duplicated df) df.

(** [df.dropna(subset=[col])] for a column of the table. *)
Definition dropna_subset (df : DataFrame) (col : string) : DataFrame :=
  match get df col with
  | Some s => select (Pandas.notna s) df
  | None => df
  end.

(** A table as pandas builds it: every column has one cell per row and a
    storage type consistent with its cells. *)
Definition wf (df : DataFrame) : bool :=
  forallb (fun p => bool_decide (Pandas.len (snd p) = df_len df)
                    && wf_series (snd p))
          (df_data df).

End Frames.

(** ** Python number formatting *)

Module PyFmt.

(** The nearest integer, ties going to the even one. *)
Definition round_half_even (x : Qc) : Z :=
  let fl := Qfloor x in
  let frac := x - Qc_of_Z fl in
  if bool_decide (frac < Pandas.half) then fl
  else if bool_decide (Pandas.half < frac) then (fl + 1)%Z
  else if Z.even fl then fl else (fl + 1)%Z.

Definition pow10 (d : nat) : Z := (10 ^ Z.of_nat d)%Z.

(** [round(x, d)] of the exact number [x], a tie going to the even
    neighbour.  The program rounds a double: a number that is a tie in
    exact arithmetic (0.005, 14.375) is a double just below or just above
    the tie, and goes the way the double lies. *)
Definition round (d : nat) (x : Qc) : Qc :=
  Qc_of_Z (round_half_even (x * Qc_of_Z (pow10 d))) / Qc_of_Z (pow10 d).

Definition Qc_abs (x : Qc) : Qc := if bool_decide (x < 0) then - x else x.

(** The last [w] decimal digits of [n]. *)
Fixpoint fixed_digits (w : nat) (n : Z) : string :=
  match w with
  | O => ""
  | S w' =>
      fixed_digits w' (n / 10)
        +:+ String (pretty_N_char (Z.to_N (n mod 10))) ""
  end.

(** [f"{x:.df}"]: sign, integer part, and [d] decimals after a point. *)
Definition format_fixed (d : nat) (x : Qc) : string :=
  let r := round_half_even (Qc_abs x * Qc_of_Z (pow10 d)) in
  (if bool_decide (x < 0) then "-" else "")
    +:+ pretty (r / pow10 d)%Z
    +:+ (match d with
         | O => ""
         | S _ => "." +:+ fixed_digits d (r mod pow10 d)
         end).

(** [f"{n}"] for an integer *)
Definition format_nat (n : nat) : string := pretty n.

End PyFmt.

(** ** The profiler ([src/data_profiler.py]) *)

Module Profiler.

Inductive semantic_type : Type := Numeric | Datetime | Boolean | Categorical.

Global Instance semantic_type_eq_dec : EqDecision semantic_type.
Proof. solve_decision. Defined.

Inductive issue_type : Type :=
  | missing_values | outliers | negative_values | high_cardinality
  | whitespace | case_inconsistency | constant.

Global Instance issue_type_eq_dec : EqDecision issue_type.
Proof. solve_decision. Defined.

Inductive severity_level : Type := low | medium | high.

Global Instance severity_level_eq_dec : EqDecision severity_level.
Proof. solve_decision. Defined.

(** One entry of [info["issues"]]. *)
Record issue : Type := Issue {
  type : issue_type;
  severity : severity_level;
  description : string;
  fix_ : string
}.

(** [info["stats"]]; the sample standard deviation is left out: it is a
    square root, has no exact rational value, and nothing reads it. *)
Record stats_info : Type := Stats {
  st_mean : option Qc;
  st_median : option Qc;
  st_min : option Qc;
  st_max : option Qc;
  st_q1 : option Qc;
  st_q3 : option Qc;
  outlier_count : option nat
}.

(** The dictionary [_profile_column] returns. *)
Record column_info : Type := Info {
  dtype_name : dtype;
  non_null : nat;
  null_count : nat;
  null_pct : option Qc;
  unique_count : nat;
  unique_pct : Qc;
  sample_values : list value;
  issues : list issue;
  inferred_type : semantic_type;
  stats : option stats_info;
  top_values : option (list (value * nat))
}.

(** The dictionary [profile_dataset] returns, without the memory figure. *)
Record profile : Type := Profile {
  shape_rows : nat;
  shape_columns : nat;
  total_cells : nat;
  total_missing : nat;
  missing_pct : Qc;
  duplicate_rows : nat;
  duplicate_pct : Qc;
  p_columns : list (string * column_info);
  p_issues : list (string * issue)
}.

(** The dictionary [suggest_column_mapping] returns. *)
Record suggestions : Type := Suggestions {
  id_column : option string;
  target_column : option string;
  numeric_columns : list string;
  categorical_columns : list string;
  date_column : option string
}.

(** One entry of the cleaning plan; [column] and [method] are absent from
    the entries that do not set them. *)
Record action : Type := Action {
  act : string;
  column : option string;
  method : option string;
  act_description : string;
  impact : string;
  auto_ : bool
}.

Definition eight_tenths : Qc := Q2Qc (8 # 10).
Definition hundred : Qc := Qc_of_Z 100.

(** [series.dtype in ["int64", "float64", "int32", "float32"]] *)
Definition is_native_numeric (d : dtype) : bool :=
  match d with
  | int64 | float64 | int32 | float32 => true
  | _ => false
  end.

Definition boolean_tokens : list string :=
  ["true"; "false"; "0"; "1"; "yes"; "no"; "y"; "n"].

Definition id_keywords : list string := ["id"; "identifier"; "key"; "index"].

Definition target_keywords : list string :=
  ["pass"; "fail"; "target"; "outcome"; "result"; "label"; "grade"; "score";
   "status"].

Definition date_keywords : list string :=
  ["date"; "time"; "year"; "semester"; "quarter"; "month"; "period"].

Section WithCoercions.
Context `{Coercions}.

(** [set(values).issubset(tokens)] for a column of texts. *)
Definition all_in (tokens : list string) (l : list value) : bool :=
  forallb (fun v => match v with
                    | VStr x => bool_decide (x ∈ tokens)
                    | _ => false
                    end) l.

(** [_infer_semantic_type(series)] *)
Definition _infer_semantic_type (s : series) : semantic_type :=
  if is_native_numeric (s_dtype s) then Numeric
  else
    let numeric := Pandas.to_numeric (Pandas.dropna s) in
    if Pandas.gt_nan (Pandas.mean_mask (Pandas.notna numeric)) eight_tenths
    then Numeric
    else if Pandas.gt_nan
              (Pandas.mean_skipna
                 (Pandas.str_match_date (Pandas.astype_str (Pandas.dropna s))))
              eight_tenths
    then Datetime
    else
      let unique_lower :=
        Pandas.unique (Pandas.str_lower (Pandas.astype_str (Pandas.dropna s))) in
      if all_in boolean_tokens unique_lower then Boolean
      else Categorical.

(** Arithmetic and comparisons where an operand may be NaN. *)
Definition nan_map2 (f : Qc -> Qc -> Qc) (a b : option Qc) : option Qc :=
  match a, b with
  | Some x, Some y => Some (f x y)
  | _, _ => None
  end.

Definition lt_nan (x : Qc) (bound : option Qc) : bool :=
  match bound with Some b => bool_decide (x < b) | None => false end.

Definition gt_num (x : Qc) (bound : option Qc) : bool :=
  match bound with Some b => bool_decide (b < x) | None => false end.

Definition format_fixed_nan (d : nat) (x : option Qc) : string :=
  match x with Some q => PyFmt.format_fixed d q | None => "nan" end.

Definition str_float_nan (x : option Qc) : string :=
  match x with Some q => str_number q | None => "nan" end.

Definition one_and_half : Qc := Q2Qc (3 # 2).
Definition five_percent : Qc := Q2Qc (5 # 100).

(** The block under [# Numeric-specific checks]: the statistics, the
    outlier issue and the negative-values issue, appended to [issues].
    On a column of storage type [bool] that has a row the source does not
    get through this block: [numeric_series.quantile] raises [TypeError]
    on booleans.  The embedding goes on with the booleans as 0 and 1. *)
Definition numeric_checks (s : series) (issues : list issue)
  : option stats_info * list issue :=
  let numeric_series := Pandas.dropna (Pandas.to_numeric s) in
  if (0 <? Pandas.len numeric_series)%nat then
    let st := Stats
      (PyFmt.round 2 <$> Pandas.mean numeric_series)
      (PyFmt.round 2 <$> Pandas.median numeric_series)
      (PyFmt.round 2 <$> Pandas.smin numeric_series)
      (PyFmt.round 2 <$> Pandas.smax numeric_series)
      (PyFmt.round 2 <$> Pandas.quantile Pandas.quarter numeric_series)
      (PyFmt.round 2 <$> Pandas.quantile Pandas.three_quarters numeric_series)
      None in
    (* Outlier detection (IQR method), binary columns skipped *)
    let q1 := Pandas.quantile Pandas.quarter numeric_series in
    let q3 := Pandas.quantile Pandas.three_quarters numeric_series in
    let iqr := nan_map2 Qcminus q3 q1 in
    let is_binary :=
      forallb (fun x => bool_decide (x = 0) || bool_decide (x = 1))
        (Pandas.numbers numeric_series) in
    let lower := nan_map2 Qcminus q1 (Qcmult one_and_half <$> iqr) in
    let upper := nan_map2 Qcplus q3 (Qcmult one_and_half <$> iqr) in
    let n_outliers :=
      length (List.filter (fun x => lt_nan x lower || gt_num x upper)
                (Pandas.numbers numeric_series)) in
    let '(st, issues) :=
      if (0 <? n_outliers)%nat && negb is_binary && Pandas.gt_nan iqr 0 then
        (Stats (st_mean st) (st_median st) (st_min st) (st_max st)
               (st_q1 st) (st_q3 st) (Some n_outliers),
         issues ++ [Issue outliers
           (if bool_decide
                 (Pandas.Qc_of_nat n_outliers
                    / Pandas.Qc_of_nat (Pandas.len numeric_series)
                  < five_percent)
            then medium else high)
           (PyFmt.format_nat n_outliers
              +:+ " potential outliers detected (IQR method, range: "
              +:+ format_fixed_nan 1 lower +:+ " to "
              +:+ format_fixed_nan 1 upper +:+ ")")
           "Clip to IQR bounds or investigate individually"])
      else (st, issues) in
    (* Negative values check *)
    let issues :=
      if match Pandas.smin numeric_series with
         | Some m => bool_decide (m < 0)
         | None => false
         end
      then issues ++ [Issue negative_values low
             ("Contains negative values (min: "
                +:+ format_fixed_nan 2 (Pandas.smin numeric_series) +:+ ")")
             "Verify if negative values are expected for this column"]
      else issues in
    (Some st, issues)
  else (None, issues).

(** The block under [# Categorical-specific checks]. *)
Definition categorical_checks (s : series) (unique_count : nat)
    (unique_pct : Qc) (issues : list issue)
  : list (value * nat) * list issue :=
  let value_counts := Pandas.value_counts (Pandas.dropna s) in
  let top := take 10 value_counts in
  (* High cardinality warning *)
  let issues :=
    if (50 <? unique_count)%nat && bool_decide (Qc_of_Z 50 < unique_pct) then
      issues ++ [Issue high_cardinality medium
        (PyFmt.format_nat unique_count
           +:+ " unique values - may be an ID column or need grouping")
        "Consider if this is an identifier column or if values should be grouped"]
    else issues in
  (* Whitespace inconsistencies *)
  let str_values := Pandas.astype_str (Pandas.dropna s) in
  let stripped := Pandas.str_strip str_values in
  let whitespace_issues := Pandas.count_changed str_values stripped in
  let issues :=
    if (0 <? whitespace_issues)%nat then
      issues ++ [Issue whitespace low
        (PyFmt.format_nat whitespace_issues
           +:+ " values have leading/trailing whitespace")
        "Strip whitespace from values"]
    else issues in
  (* Case inconsistencies *)
  let lowered := Pandas.str_lower stripped in
  let issues :=
    if (Pandas.nunique lowered <? Pandas.nunique stripped)%nat then
      issues ++ [Issue case_inconsistency medium
        "Possible case inconsistencies (e.g., 'Male' vs 'male')"
        "Standardize text casing"]
    else issues in
  (top, issues).

(** [_profile_column(df, col)], given the column [df[col]]. *)
Definition _profile_column (s : series) : column_info :=
  let non_null := Pandas.count s in
  let null_count := Pandas.sum_mask (Pandas.isnull s) in
  let null_pct :=
    (fun m => PyFmt.round 2 (m * hundred))
      <$> Pandas.mean_mask (Pandas.isnull s) in
  let unique_count := Pandas.nunique s in
  let unique_pct :=
    if (0 <? Pandas.len s)%nat then
      PyFmt.round 2
        (Pandas.Qc_of_nat (Pandas.nunique s) / Pandas.Qc_of_nat (Pandas.len s)
           * hundred)
    else 0 in
  let sample_values := Pandas.head 5 (Pandas.dropna s) in
  let issues : list issue := [] in
  (* Detect data type *)
  let inferred_type := _infer_semantic_type s in
  (* Missing values issue *)
  let issues :=
    if Pandas.gt_nan null_pct 0 then
      issues ++ [Issue missing_values
        (if Pandas.gt_nan null_pct (Qc_of_Z 20) then high
         else if Pandas.gt_nan null_pct (Qc_of_Z 5) then medium
         else low)
        (PyFmt.format_nat null_count +:+ " missing values ("
           +:+ str_float_nan null_pct +:+ "%)")
        ("Impute with "
           +:+ (if bool_decide (inferred_type = Numeric)
                then "median" else "mode")
           +:+ " or drop rows")]
    else issues in
  let '(stats, top_values, issues) :=
    if bool_decide (inferred_type = Numeric) then
      let '(st, issues) := numeric_checks s issues in
      (st, None, issues)
    else if bool_decide (inferred_type = Categorical) then
      let '(top, issues) :=
        categorical_checks s unique_count unique_pct issues in
      (None, Some top, issues)
    else (None, None, issues) in
  (* Constant column *)
  let issues :=
    if (unique_count <=? 1)%nat && (0 <? non_null)%nat then
      issues ++ [Issue constant medium
        "Column has only one unique value - provides no analytical value"
        "Consider removing this column"]
    else issues in
  Info (s_dtype s) non_null null_count null_pct unique_count unique_pct
       sample_values issues inferred_type stats top_values.

(** [profile_dataset(df)]: the loop profiles the columns in order, files
    each profile under the column's name and appends its issues, tagged
    with that name, to the flat list. *)
Definition profile_dataset (df : DataFrame) : profile :=
  let rows := df_len df in
  let ncols := length (Frames.columns df) in
  (* Overall stats *)
  let total_cells := (rows * ncols)%nat in
  let total_missing :=
    foldr Nat.add 0%nat
      ((fun p => Pandas.sum_mask (Pandas.isnull (snd p))) <$> df_data df) in
  let total_duplicates := Pandas.sum_mask (Frames.duplicated df) in
  let missing_pct :=
    if (0 <? total_cells)%nat then
      PyFmt.round 2
        (Pandas.Qc_of_nat total_missing / Pandas.Qc_of_nat total_cells * hundred)
    else 0 in
  let duplicate_pct :=
    if (0 <? rows)%nat then
      PyFmt.round 2
        (Pandas.Qc_of_nat total_duplicates / Pandas.Qc_of_nat rows * hundred)
    else 0 in
  let '(cols, all_issues) :=
    foldl (fun '(cols, all_issues) '(col, s) =>
             let col_info := _profile_column s in
             (cols ++ [(col, col_info)],
              foldl (fun acc issue => acc ++ [(col, issue)])
                    all_issues (issues col_info)))
          ([], []) (df_data df) in
  Profile rows ncols total_cells total_missing missing_pct total_duplicates
          duplicate_pct cols all_issues.

(** [col.lower().replace("_", " ").replace("-", " ")] *)
Definition normalize_name (col : string) : string :=
  PyStr.replace_char "-" " " (PyStr.replace_char "_" " " (PyStr.lower col)).

(** The body of the loop of [suggest_column_mapping] for one column; the
    first branch ends with [continue]. *)
Definition suggest_step (sug : suggestions) (col : string) (s : series)
  : suggestions :=
  let col_lower := normalize_name col in
  let inferred := _infer_semantic_type s in
  (* ID detection *)
  if PyStr.contains_any id_keywords col_lower
     && bool_decide (id_column sug = None)
  then Suggestions (Some col) (target_column sug) (numeric_columns sug)
                   (categorical_columns sug) (date_column sug)
  else
    (* Target/outcome detection *)
    let sug :=
      if PyStr.contains_any target_keywords col_lower
         && bool_decide (target_column sug = None)
      then Suggestions (id_column sug) (Some col) (numeric_columns sug)
                       (categorical_columns sug) (date_column sug)
      else sug in
    (* Date detection *)
    let sug :=
      if (bool_decide (inferred = Datetime)
          || PyStr.contains_any date_keywords col_lower)
         && bool_decide (date_column sug = None)
      then Suggestions (id_column sug) (target_column sug)
                       (numeric_columns sug) (categorical_columns sug)
                       (Some col)
      else sug in
    (* Numeric vs categorical *)
    if bool_decide (inferred = Numeric) then
      Suggestions (id_column sug) (target_column sug)
                  (numeric_columns sug ++ [col]) (categorical_columns sug)
                  (date_column sug)
    else if bool_decide (inferred = Categorical)
            || bool_decide (inferred = Boolean) then
      Suggestions (id_column sug) (target_column sug)
                  (numeric_columns sug) (categorical_columns sug ++ [col])
                  (date_column sug)
    else sug.

(** [suggest_column_mapping(df)]: column names being unique, [df[col]] is
    the column stored under [col]. *)
Definition suggest_column_mapping (df : DataFrame) : suggestions :=
  foldl (fun sug '(col, s) => suggest_step sug col s)
        (Suggestions None None [] [] None) (df_data df).

Definition quoted (col : string) : string := "'" +:+ col +:+ "'".

(** The [if]/[elif] chain of [generate_cleaning_plan] for one issue of the
    column [col]; an issue type without a branch appends nothing. *)
Definition plan_issue (col : string) (info : column_info)
    (actions : list action) (i : issue) : list action :=
  match type i with
  | whitespace =>
      actions ++ [Action "strip_whitespace" (Some col) None
                    ("Strip whitespace from " +:+ quoted col)
                    (description i) true]
  | case_inconsistency =>
      actions ++ [Action "standardize_case" (Some col) None
                    ("Standardize casing in " +:+ quoted col +:+ " (title case)")
                    (description i) true]
  | missing_values =>
      let fill_method :=
        if bool_decide (inferred_type info = Numeric) then "median" else "mode" in
      actions ++ [Action "impute_missing" (Some col) (Some fill_method)
                    ("Fill " +:+ PyFmt.format_nat (null_count info)
                       +:+ " missing values in " +:+ quoted col +:+ " with "
                       +:+ fill_method)
                    (description i) true]
  | outliers =>
      actions ++ [Action "clip_outliers" (Some col) None
                    ("Clip outliers in " +:+ quoted col +:+ " to IQR bounds")
                    (description i) false]
  | constant =>
      actions ++ [Action "drop_column" (Some col) None
                    ("Drop constant column " +:+ quoted col)
                    (description i) false]
  | negative_values | high_cardinality => actions
  end.

(** [generate_cleaning_plan(profile)] *)
Definition generate_cleaning_plan (p : profile) : list action :=
  let actions : list action := [] in
  (* Duplicates first *)
  let actions :=
    if (0 <? duplicate_rows p)%nat then
      actions ++ [Action "remove_duplicates" None None
        ("Remove " +:+ PyFmt.format_nat (duplicate_rows p) +:+ " duplicate rows")
        ("Reduces dataset from " +:+ PyFmt.format_nat (shape_rows p) +:+ " to "
           +:+ pretty (Z.of_nat (shape_rows p) - Z.of_nat (duplicate_rows p))%Z
           +:+ " rows")
        true]
    else actions in
  (* Column-level fixes *)
  foldl (fun actions '(col, info) =>
           foldl (plan_issue col info) actions (issues info))
        actions (p_columns p).

End WithCoercions.
End Profiler.

(** ** The cleaning executor and the filters ([src/data_cleaner.py]) *)

Module Cleaner.
Import Profiler.

(** What a call can raise. *)
Inductive exception : Type :=
  | KeyError (key : string)
  | ValueError
  | TypeError.

Inductive result (A : Type) : Type :=
  | Ok (a : A)
  | Raise (e : exception).
Global Arguments Ok {A} a.
Global Arguments Raise {A} e.

Definition bind {A B} (r : result A) (k : A -> result B) : result B :=
  match r with
  | Ok a => k a
  | Raise e => Raise e
  end.

(** A value of the dictionary of filter options: the sorted categories of
    a column, or the least and the greatest number of a column. *)
Inductive filter_option : Type :=
  | Choices (l : list value)
  | MinMax (lo hi : option Qc).

Section WithCoercions.
Context `{Coercions}.

Definition nan_value (x : option Qc) : value :=
  match x with Some q => VNum q | None => VNull end.

(** [s.fillna(v)] with the storage type it leaves: a fill value the storage
    type cannot hold turns the column into an [object] column. *)
Definition fillna (fill : value) (s : series) : series :=
  let filled := Pandas.fillna fill s in
  if existsb Pandas.is_null (s_values s) && negb (value_fits (s_dtype s) fill)
  then Series object (s_values filled)
  else filled.

(** The [impute_missing] branch, entered with [col in df.columns]. *)
Definition impute_missing (df : DataFrame) (log : list string)
    (col : string) (s : series) (a : action) : DataFrame * list string :=
  let method := default "median" (method a) in
  let null_count := Pandas.sum_mask (Pandas.isnull s) in
  if (0 <? null_count)%nat then
    let '(df, fill_val) :=
      if bool_decide (method = "median") then
        let fill_val := nan_value (Pandas.median (Pandas.to_numeric s)) in
        (Frames.set df col (fillna fill_val (Pandas.to_numeric s)), fill_val)
      else if bool_decide (method = "mean") then
        let fill_val := nan_value (Pandas.mean (Pandas.to_numeric s)) in
        (Frames.set df col (fillna fill_val (Pandas.to_numeric s)), fill_val)
      else if bool_decide (method = "mode") then
        let fill_val := default (VStr "Unknown") (Pandas.mode_first s) in
        (Frames.set df col (fillna fill_val s), fill_val)
      else if bool_decide (method = "drop") then
        (Frames.dropna_subset df col, VStr "N/A (rows dropped)")
      else
        let fill_val := VStr method in  (* custom value *)
        (Frames.set df col (fillna fill_val s), fill_val) in
    (df, log ++ ["Filled " +:+ PyFmt.format_nat null_count
                   +:+ " missing values in " +:+ quoted col +:+ " with "
                   +:+ method +:+ " (" +:+ Pandas.str_value fill_val +:+ ")"])
  else (df, log).

(** The [clip_outliers] branch, entered with [col in df.columns].  On a
    column of storage type [bool] the source raises [TypeError] at the
    first [quantile]; the embedding goes on with the booleans as 0 and
    1. *)
Definition clip_outliers (df : DataFrame) (log : list string)
    (col : string) (s : series) : DataFrame * list string :=
  let numeric_col := Pandas.to_numeric s in
  let q1 := Pandas.quantile Pandas.quarter numeric_col in
  let q3 := Pandas.quantile Pandas.three_quarters numeric_col in
  let iqr := nan_map2 Qcminus q3 q1 in
  let lower := nan_map2 Qcminus q1 (Qcmult one_and_half <$> iqr) in
  let upper := nan_map2 Qcplus q3 (Qcmult one_and_half <$> iqr) in
  let clipped := Pandas.clip lower upper numeric_col in
  let changed := Pandas.count_changed numeric_col clipped in
  (Frames.set df col clipped,
   log ++ ["Clipped " +:+ PyFmt.format_nat changed +:+ " outlier values in "
             +:+ quoted col +:+ " to [" +:+ format_fixed_nan 2 lower +:+ ", "
             +:+ format_fixed_nan 2 upper +:+ "]"]).

(** [action.get("column")] together with [df[col]] when
    [col in df.columns]. *)
Definition column_of (df : DataFrame) (a : action) : option (string * series) :=
  match column a with
  | Some col => (fun s => (col, s)) <$> Frames.get df col
  | None => None
  end.

(** The body of the loop of [apply_cleaning_actions].  Every branch of the
    chain but the first is guarded by [col in df.columns]; an action whose
    column is not in the table, and an action of an unknown type, leave
    the table and the log as they are. *)
Definition apply_action (st : DataFrame * list string) (a : action)
  : DataFrame * list string :=
  let '(df, log) := st in
  let act_type := act a in
  if bool_decide (act_type = "remove_duplicates") then
    let before := df_len df in
    let df := Frames.drop_duplicates df in
    let removed := (before - df_len df)%nat in
    (df, log ++ ["Removed " +:+ PyFmt.format_nat removed +:+ " duplicate rows"])
  else
    match column_of df a with
    | None => (df, log)
    | Some (col, s) =>
        if bool_decide (act_type = "strip_whitespace") then
          if bool_decide (s_dtype s = object) then
            (Frames.set df col (Pandas.str_strip (Pandas.astype_str s)),
             log ++ ["Stripped whitespace from " +:+ quoted col])
          else (df, log)
        else if bool_decide (act_type = "standardize_case") then
          if bool_decide (s_dtype s = object) then
            (Frames.set df col
               (Pandas.str_title (Pandas.str_strip (Pandas.astype_str s))),
             log ++ ["Standardized casing in " +:+ quoted col
                       +:+ " to title case"])
          else (df, log)
        else if bool_decide (act_type = "impute_missing") then
          impute_missing df log col s a
        else if bool_decide (act_type = "clip_outliers") then
          clip_outliers df log col s
        else if bool_decide (act_type = "drop_column") then
          (Frames.drop df col, log ++ ["Dropped column " +:+ quoted col])
        else if bool_decide (act_type = "convert_numeric") then
          (Frames.set df col (Pandas.to_numeric s),
           log ++ ["Converted " +:+ quoted col +:+ " to numeric type"])
        else (df, log)
    end.

(** [apply_cleaning_actions(df, actions)]: the copy of the table and the
    empty log are threaded through the actions in order. *)
Definition apply_cleaning_actions (df : DataFrame) (actions : list action)
  : DataFrame * list string :=
  foldl apply_action (df, []) actions.

Fixpoint insert_value (x : value) (l : list value) : list value :=
  match l with
  | [] => [x]
  | y :: l' =>
      if Pandas.value_leb x y is Some true then x :: l
      else y :: insert_value x l'
  end.

(** [sorted(values)]: values that do not compare raise [TypeError]. *)
Definition sorted (l : list value) : result (list value) :=
  if Pandas.comparable l then Ok (foldr insert_value [] l)
  else Raise TypeError.

(** [get_dynamic_filter_options(df, categorical_columns, numeric_columns)] *)
Definition get_dynamic_filter_options (df : DataFrame)
    (categorical_columns numeric_columns : list string)
  : result (gmap string filter_option) :=
  let options : result (gmap string filter_option) := Ok ∅ in
  let options :=
    foldl (fun options col =>
             bind options (fun options =>
               match Frames.get df col with
               | Some s =>
                   bind (sorted (Pandas.unique (Pandas.dropna s)))
                     (fun unique_vals => Ok (<[col := Choices unique_vals]> options))
               | None => Ok options
               end))
          options categorical_columns in
  foldl (fun options col =>
           bind options (fun options =>
             match Frames.get df col with
             | Some s =>
                 let numeric_series := Pandas.dropna (Pandas.to_numeric s) in
                 if (0 <? Pandas.len numeric_series)%nat then
                   Ok (<[col := MinMax (Pandas.smin numeric_series)
                                       (Pandas.smax numeric_series)]> options)
                 else Ok options
             | None => Ok options
             end))
        options numeric_columns.

(** [s.isin(values)] *)
Definition isin (selected : list value) (s : series) : list bool :=
  (fun v => bool_decide (v ∈ selected)) <$> s_values s.

(** [(numeric_col >= low) & (numeric_col <= high)]; a NaN cell is in no
    range. *)
Definition between (lo hi : Qc) (s : series) : list bool :=
  (fun v => match Pandas.as_number v with
            | Some x => bool_decide (lo ≤ x) && bool_decide (x ≤ hi)
            | None => false
            end) <$> s_values s.

(** [apply_dynamic_filters(df, filters, categorical_columns,
    numeric_columns)].  The dictionary [filters] holds, under a column's
    name, the selected categories and, under the name followed by
    [_range], the two ends of a range.  The guards of the two loops look
    the key up in [filters]; the column itself is then read from the
    table without a test, and [filtered[col]] raises [KeyError] for a name
    the table does not have. *)
Definition apply_dynamic_filters (df : DataFrame)
    (filters : gmap string (list value))
    (categorical_columns numeric_columns : list string)
  : result DataFrame :=
  let filtered : result DataFrame := Ok df in
  let filtered :=
    foldl (fun filtered col =>
             bind filtered (fun filtered =>
               match filters !! col with
               | Some ((_ :: _) as selected) =>
                   match Frames.get filtered col with
                   | Some s => Ok (Frames.select (isin selected s) filtered)
                   | None => Raise (KeyError col)
                   end
               | _ => Ok filtered
               end))
          filtered categorical_columns in
  foldl (fun filtered col =>
           bind filtered (fun filtered =>
             let key := col +:+ "_range" in
             match filters !! key with
             | Some bounds =>
                 match bounds with
                 | [lo; hi] =>
                     match Frames.get filtered col with
                     | Some s =>
                         match lo, hi with
                         | VNum lo, VNum hi =>
                             Ok (Frames.select
                                   (between lo hi (Pandas.to_numeric s))
                                   filtered)
                         | _, _ => Raise TypeError
                         end
                     | None => Raise (KeyError col)
                     end
                 | _ => Raise ValueError
                 end
             | None => Ok filtered
             end))
        filtered numeric_columns.

End WithCoercions.
End Cleaner.

(** ** Notions the statements use *)

Module Spec.
Section WithCoercions.
Context `{Coercions}.

(** A cell coerces to a number when [pd.to_numeric] does not turn it into
    NaN. *)
Definition coerces (v : value) : bool :=
  Pandas.notna_value (Pandas.to_numeric_value v).

(** The number of cells of a column that are not null and coerce. *)
Definition coerced_count (s : series) : nat :=
  length (List.filter coerces (s_values (Pandas.dropna s))).

(** A column all of whose cells are null; the column without rows is one. *)
Definition all_null (s : series) : Prop :=
  Forall (fun v => v = VNull) (s_values s).

(** A column that has a row and whose cells are all booleans.  Its
    numeric coercion is a column of booleans in pandas. *)
Definition booleans_only (s : series) : bool :=
  match s_values s with
  | [] => false
  | vs => forallb (fun v => match v with VBool _ => true | _ => false end) vs
  end.

(** A storage type of a native numeric kind: integer or floating. *)
Definition numeric_kind (d : dtype) : bool :=
  is_integer_dtype d || is_float_dtype d.

(** A name that holds one of the identifier keywords. *)
Definition is_id_name (col : string) : bool :=
  PyStr.contains_any Profiler.id_keywords (Profiler.normalize_name col).

(** The column the mapping pass takes as identifier: the first one with an
    identifier name. *)
Fixpoint chosen_id (data : list (string * series)) : option string :=
  match data with
  | [] => None
  | (col, _) :: rest => if is_id_name col then Some col else chosen_id rest
  end.

(** The columns of the wanted semantic types, in order, without the column
    taken as identifier ([id_free] tells whether the identifier is still to
    be taken). *)
Fixpoint features (want : Profiler.semantic_type -> bool) (id_free : bool)
    (data : list (string * series)) : list string :=
  match data with
  | [] => []
  | (col, s) :: rest =>
      if is_id_name col && id_free then features want false rest
      else (if want (Profiler._infer_semantic_type s) then [col] else [])
             ++ features want id_free rest
  end.

(** The loop of the mapping pass, from any state. *)
Definition suggest_fold (sug : Profiler.suggestions)
    (data : list (string * series)) : Profiler.suggestions :=
  foldl (fun sug '(col, s) => Profiler.suggest_step sug col s) sug data.

Definition wants_numeric (t : Profiler.semantic_type) : bool :=
  bool_decide (t = Profiler.Numeric).

Definition wants_categorical (t : Profiler.semantic_type) : bool :=
  bool_decide (t = Profiler.Categorical) || bool_decide (t = Profiler.Boolean).

(** What the plan says of one action: its kind, its column, its method
    and whether it is selected by default. *)
Definition plan_entry : Type := string * option string * option string * bool.

Definition entry_of (a : Profiler.action) : plan_entry :=
  (Profiler.act a, Profiler.column a, Profiler.method a, Profiler.auto_ a).

(** The action an issue of a column maps to, if any. *)
Definition planned (col : string) (info : Profiler.column_info)
    (i : Profiler.issue) : option plan_entry :=
  match Profiler.type i with
  | Profiler.whitespace => Some ("strip_whitespace", Some col, None, true)
  | Profiler.case_inconsistency => Some ("standardize_case", Some col, None, true)
  | Profiler.missing_values =>
      Some ("impute_missing", Some col,
            Some (if bool_decide (Profiler.inferred_type info = Profiler.Numeric)
                  then "median" else "mode"),
            true)
  | Profiler.outliers => Some ("clip_outliers", Some col, None, false)
  | Profiler.constant => Some ("drop_column", Some col, None, false)
  | Profiler.negative_values | Profiler.high_cardinality => None
  end.

(** The plan of a profile: the removal of duplicates first when there are
    any, then the actions of the issues, column by column in the order of
    the profile and issue by issue in the order of the column. *)
Definition plan_of (p : Profiler.profile) : list plan_entry :=
  (if (0 <? Profiler.duplicate_rows p)%nat
   then [("remove_duplicates", None, None, true)] else [])
  ++ mjoin ((fun '(col, info) => omap (planned col info) (Profiler.issues info))
              <$> Profiler.p_columns p).

(** The numbers of a column: what is left of its numeric coercion once
    the nulls are dropped. *)
Definition numeric_series (s : series) : series :=
  Pandas.dropna (Pandas.to_numeric s).

Definition q1 (s : series) : option Qc :=
  Pandas.quantile Pandas.quarter (numeric_series s).

Definition q3 (s : series) : option Qc :=
  Pandas.quantile Pandas.three_quarters (numeric_series s).

(** The interquartile range and the two whiskers [Q1 - 1.5 IQR] and
    [Q3 + 1.5 IQR]. *)
Definition iqr (s : series) : option Qc :=
  Profiler.nan_map2 Qcminus (q3 s) (q1 s).

Definition lower_bound (s : series) : option Qc :=
  Profiler.nan_map2 Qcminus (q1 s) (Qcmult Profiler.one_and_half <$> iqr s).

Definition upper_bound (s : series) : option Qc :=
  Profiler.nan_map2 Qcplus (q3 s) (Qcmult Profiler.one_and_half <$> iqr s).

(** The numbers of the column outside the whiskers. *)
Definition outlier_total (s : series) : nat :=
  length (List.filter
            (fun x => Profiler.lt_nan x (lower_bound s)
                      || Profiler.gt_num x (upper_bound s))
            (Pandas.numbers (numeric_series s))).

(** A binary column: every number is 0 or 1. *)
Definition is_binary (s : series) : bool :=
  forallb (fun x => bool_decide (x = 0) || bool_decide (x = 1))
    (Pandas.numbers (numeric_series s)).

(** The issues of type [outliers] of a column profile, and the outlier
    count its statistics hold, if any. *)
Definition is_outlier_issue (i : Profiler.issue) : bool :=
  bool_decide (Profiler.type i = Profiler.outliers).

Definition outlier_issues (info : Profiler.column_info) : list Profiler.issue :=
  List.filter is_outlier_issue (Profiler.issues info).

Definition reported_outliers (info : Profiler.column_info) : option nat :=
  Profiler.stats info ≫= Profiler.outlier_count.

(** The value the [median] and [mean] methods fill with. *)
Definition numeric_fill (method : string) (s : series) : value :=
  Cleaner.nan_value (if bool_decide (method = "median")
                     then Pandas.median (Pandas.to_numeric s)
                     else Pandas.mean (Pandas.to_numeric s)).


(** An action that keeps the rows of the table and is safe to repeat: any
    action but the removal of duplicates, the clipping of outliers and the
    imputation that drops rows. *)
Definition keeps_rows (a : Profiler.action) : bool :=
  negb (bool_decide (Profiler.act a = "remove_duplicates"))
  && negb (bool_decide (Profiler.act a = "clip_outliers"))
  && negb (bool_decide (Profiler.act a = "impute_missing")
           && bool_decide (default "median" (Profiler.method a) = "drop")).





(** A description embeds a number when it holds a decimal digit. *)
Definition embeds_number (i : Profiler.issue) : Prop :=
  PyStr.has_digit (Profiler.description i) = true.

(** What the profiler writes into a description: a measured number for
    five of the issue types, one fixed text for each of the other two. *)
Definition described (i : Profiler.issue) : Prop :=
  match Profiler.type i with
  | Profiler.case_inconsistency =>
      Profiler.description i
      = "Possible case inconsistencies (e.g., 'Male' vs 'male')"
  | Profiler.constant =>
      Profiler.description i
      = "Column has only one unique value - provides no analytical value"
  | _ => embeds_number i
  end.

End WithCoercions.
End Spec.

(** ** An instance of the coercions for the examples *)

Module Sample.

Fixpoint digits_value (acc : Z) (s : string) : option Z :=
  match s with
  | EmptyString => Some acc
  | String c s' =>
      match Ascii.is_nat c with
      | Some d => digits_value (acc * 10 + Z.of_nat d) s'
      | None => None
      end
  end.

(** Reads an integer literal: an optional minus sign and decimal digits. *)
Definition parse_integer (s : string) : option Qc :=
  match s with
  | EmptyString => None
  | String "-" (String _ _ as s') => Qc_of_Z <$> (Z.opp <$> digits_value 0 s')
  | _ => Qc_of_Z <$> digits_value 0 s
  end.

(** The decimals a number needs: the least [d], counted up from [d] for at
    most [fuel] steps, such that [q * 10^d] is a whole number. *)
Fixpoint decimals (fuel d : nat) (q : Qc) : nat :=
  match fuel with
  | O => d
  | S fuel' =>
      if is_integral (q * Qc_of_Z (PyFmt.pow10 d)) then d
      else decimals fuel' (S d) q
  end.

(** Prints a number the way Python prints a float whose decimal expansion
    is short: a whole number with one zero after the point ([3.0]), any
    other number with the decimals it needs ([12.5], [33.33]). *)
Definition show_number (q : Qc) : string :=
  if is_integral q then pretty (Qnum q) +:+ ".0"
  else PyFmt.format_fixed (decimals 15 1 q) q.

Definition integer_cells : Coercions :=
  {| parse_number := parse_integer; str_number := show_number |}.

Definition num (z : Z) : value := VNum (Qc_of_Z z).

(** Five texts of which four are numbers. *)
Definition four_of_five : series :=
  Series object [VStr "1"; VStr "2"; VStr "3"; VStr "4"; VStr "x"].

(** Six texts of which five are numbers. *)
Definition five_of_six : series :=
  Series object [VStr "1"; VStr "2"; VStr "3"; VStr "4"; VStr "5"; VStr "x"].

(** The table of the mapping scenario: an identifier and a 0/1 outcome. *)
Definition students : DataFrame :=
  Frame 2 [("student_id", Series int64 [num 1; num 2]);
           ("passed", Series int64 [num 0; num 1])].


(** The column of the outlier scenario. *)
Definition one_far_out : series :=
  Series int64 (num <$> [1; 2; 3; 4; 100]%Z).

(** A skewed binary column. *)
Definition skewed_binary : series :=
  Series int64 (num <$> [0; 0; 0; 0; 0; 0; 0; 0; 0; 1]%Z).

(** Three equal numbers and one far from them. *)
Definition lopsided : DataFrame :=
  Frame 4 [("c", Series float64 (num <$> [0; 0; 0; 100]%Z))].

Definition clip_c : Profiler.action :=
  Profiler.Action "clip_outliers" (Some "c") None
    "Clip outliers in 'c' to IQR bounds" "" false.


Definition dedup : Profiler.action :=
  Profiler.Action "remove_duplicates" None None "Remove 0 duplicate rows" "" true.

Definition strip_c : Profiler.action :=
  Profiler.Action "strip_whitespace" (Some "c") None
    "Strip whitespace from 'c'" "" true.

(** A table of two columns of texts and one action for each. *)
Definition people : DataFrame :=
  Frame 2 [("name", Series object [VStr " ann "; VStr "Bob"]);
           ("age", Series object [VStr "41"; VStr "x"])].

Definition strip_name : Profiler.action :=
  Profiler.Action "strip_whitespace" (Some "name") None
    "Strip whitespace from 'name'" "" true.

Definition convert_age : Profiler.action :=
  Profiler.Action "convert_numeric" (Some "age") None "" "" false.

(** A column of texts with a gap, and the action that fills it with the
    median. *)
Definition ages : DataFrame :=
  Frame 4 [("age", Series object [VStr "10"; VNull; VStr "x"; VStr "30"])].

Definition impute_age : Profiler.action :=
  Profiler.Action "impute_missing" (Some "age") (Some "median")
    "Fill 1 missing values in 'age' with median" "" true.

(** A table with the one column [a], and a selection for a column [b] that
    the table does not have. *)
Definition one_column : DataFrame :=
  Frame 1 [("a", Series object [VStr "x"])].

Definition stale_selection : gmap string (list value) :=
  {[ "b" := [VStr "x"] ]}.

(** The table of the whitespace and case scenario. *)
Definition categories : DataFrame :=
  Frame 4 [("cat", Series object [VStr " A "; VStr "b"; VStr "B"; VStr "b"])].

(** A table whose last row repeats the first. *)
Definition repeated : DataFrame :=
  Frame 4 [("k", Series object [VStr "u"; VStr "v"; VStr "w"; VStr "u"]);
           ("n", Series int64 [num 1; num 2; num 3; num 1])].

(** A column of texts that differ by case only. *)
Definition two_cases : series := Series object [VStr "b"; VStr "B"].

End Sample.

(** ** Shared helpers ([src/utils.py]) *)

Module Utils.

(** [PERFORMANCE_BANDS]: the lowest and the highest grade of each band. *)
Definition PERFORMANCE_BANDS : list (string * (Z * Z)) :=
  [("A", (90, 100)); ("B", (80, 89)); ("C", (70, 79)); ("D", (50, 69));
   ("F", (0, 49))]%Z.

(** [x >= c] where [x] may be NaN: a comparison with NaN is false. *)
Definition ge_nan (x : option Qc) (c : Qc) : bool :=
  match x with
  | Some q => bool_decide (c ≤ q)
  | None => false
  end.

(** [assign_performance_band(grade)] *)
Definition assign_performance_band (grade : option Qc) : string :=
  if ge_nan grade (Qc_of_Z 90) then "A"
  else if ge_nan grade (Qc_of_Z 80) then "B"
  else if ge_nan grade (Qc_of_Z 70) then "C"
  else if ge_nan grade (Qc_of_Z 50) then "D"
  else "F".

(** The place of a band in [PERFORMANCE_BANDS], the best band first. *)
Definition band_place (b : string) : option nat :=
  fst <$> list_find (fun p => p.1 = b) PERFORMANCE_BANDS.

End Utils.

(** ** The loader ([src/data_loader.py]) *)

Module Loader.

Definition line_feed : ascii := "010"%char.
Definition tab : ascii := "009"%char.

(** [content.split("\n")[0]] *)
Fixpoint first_line (content : string) : string :=
  match content with
  | EmptyString => EmptyString
  | String c rest =>
      if bool_decide (c = line_feed) then EmptyString
      else String c (first_line rest)
  end.

(** The candidates, in the order the loop tries them. *)
Definition separators : list string :=
  [","; ";"; String tab EmptyString; "|"].

(** [detect_separator(uploaded_file)], given the decoded content of the
    file. *)
Definition detect_separator (content : string) : string :=
  let first_line := first_line content in
  default "," (List.find (fun sep => PyStr.contains sep first_line) separators).

End Loader.

(** ** Notions the further statements use *)

Module Shape.
Import Profiler Cleaner.

(** The issue types a column of a semantic type can get, in the order the
    column profiler tests them. *)
Definition possible_issues (t : semantic_type) : list issue_type :=
  match t with
  | Numeric => [missing_values; outliers; negative_values; constant]
  | Categorical =>
      [missing_values; high_cardinality; whitespace; case_inconsistency;
       constant]
  | Datetime | Boolean => [missing_values; constant]
  end.

(** The value at the position [pos] of a sorted list, between the two
    elements around the position; [quantile] reads it at [q * (n - 1)]. *)
Definition interpolate (xs : list Qc) (x0 pos : Qc) : Qc :=
  let lo := Qfloor pos in
  let a := nth (Z.to_nat lo) xs x0 in
  let b := nth (S (Z.to_nat lo)) xs a in
  a + (pos - Qc_of_Z lo) * (b - a).

(** What the loop of [suggest_column_mapping] keeps true of the roles it
    has given so far, [seen] being the columns it has gone through. *)
Definition roles_within (seen : list string) (sug : suggestions) : Prop :=
  (forall c, id_column sug = Some c ->
     c ∈ seen /\ target_column sug ≠ Some c /\ date_column sug ≠ Some c)
  /\ (forall c, target_column sug = Some c -> c ∈ seen)
  /\ (forall c, date_column sug = Some c -> c ∈ seen).

(** What the planner puts in an entry for the column [col]. *)
Definition planned_for (col : string) (a : action) : Prop :=
  column a = Some col
  /\ (act a, method a) ∈
       [("strip_whitespace", None); ("standardize_case", None);
        ("impute_missing", Some "median"); ("impute_missing", Some "mode");
        ("clip_outliers", None); ("drop_column", None)]
  /\ (auto_ a = false <-> act a ∈ ["clip_outliers"; "drop_column"]).

(** The column an action writes in place of the column [s]. *)
Definition rewrites (s s' : series) : Prop :=
  Pandas.len s' = Pandas.len s /\ (wf_series s = true -> wf_series s' = true).

(** The tables an action can leave. *)
Inductive outcome (df : DataFrame) : DataFrame -> Prop :=
  | Unchanged : outcome df df
  | Deduplicated : outcome df (Frames.drop_duplicates df)
  | Rewritten (col : string) (s s' : series) :
      Frames.get df col = Some s -> rewrites s s' ->
      outcome df (Frames.set df col s')
  | Dropped (col : string) : outcome df (Frames.drop df col)
  | Selected (col : string) (s : series) :
      Frames.get df col = Some s ->
      outcome df (Frames.select (Pandas.notna s) df).


(** What an entry of the dictionary of filter options holds. *)
Definition option_fits (df : DataFrame)
    (categorical_columns numeric_columns : list string)
    (col : string) (o : filter_option) : Prop :=
  col ∈ Frames.columns df
  /\ match o with
     | Choices l =>
         col ∈ categorical_columns
         /\ Forall (fun v => Pandas.is_null v = false) l
     | MinMax lo hi =>
         col ∈ numeric_columns
         /\ exists a b, lo = Some a /\ hi = Some b /\ a ≤ b
     end.

(** What the two loops keep true of the dictionary. *)
Definition options_fit (df : DataFrame) (cats nums : list string)
    (r : result (gmap string filter_option)) : Prop :=
  match r with
  | Ok opts =>
      forall col o, opts !! col = Some o -> option_fits df cats nums col o
  | Raise e => e = TypeError
  end.

(** A table with some of the rows of another. *)
Definition narrowed (df df' : DataFrame) : Prop :=
  Frames.columns df' = Frames.columns df
  /\ (df_len df' <= df_len df)%nat
  /\ (Frames.wf df = true -> Frames.wf df' = true)
  /\ (forall col s', Frames.get df' col = Some s' ->
        exists s, Frames.get df col = Some s
                  /\ sublist (s_values s') (s_values s)).

(** The categories the cells of the filtered columns come from. *)
Definition selection_holds (filters : gmap string (list value))
    (cols : list string) (df : DataFrame) : Prop :=
  forall col v selected s,
    col ∈ cols -> filters !! col = Some (v :: selected) ->
    Frames.get df col = Some s ->
    Forall (fun x => x ∈ v :: selected) (s_values s).

(** What the two loops of the filters keep true of the table. *)
Definition filtered_from (filters : gmap string (list value))
    (cols : list string) (df : DataFrame) (r : result DataFrame) : Prop :=
  match r with
  | Ok df' => narrowed df df' /\ selection_holds filters cols df'
  | Raise _ => True
  end.

End Shape.

(** * Properties *)

Import Profiler Cleaner.

(** ** Ratios of counts *)

Section Ratios.

Lemma Qc_of_nat_pos (n : nat) : (0 < n)%nat -> 0 < Pandas.Qc_of_nat n.
Proof.
  intros Hn. unfold Pandas.Qc_of_nat. rewrite <- Z2Qc_inj_0.
  rewrite <- Z2Qc_inj_lt. lia.
Qed.

Lemma Qc_div_mul_cancel (x y : Qc) : 0 < y -> x / y * y = x.
Proof.
  intros Hy. unfold Qcdiv. rewrite <- Qcmult_assoc, Qcmult_inv_l, Qcmult_1_r; [done|].
  intros ->. by apply (Qclt_not_eq 0 0).
Qed.

(** Comparing a fraction of two counts with the constant [a / b]. *)
Lemma const_lt_ratio (c : Qc) (a b : Z) (k n : nat) :
  (0 < b)%Z -> c * Qc_of_Z b = Qc_of_Z a -> (0 < n)%nat ->
  c < Pandas.Qc_of_nat k / Pandas.Qc_of_nat n <-> (a * Z.of_nat n < b * Z.of_nat k)%Z.
Proof.
  intros Hb Hc Hn.
  pose proof (Qc_of_nat_pos n Hn) as Hn'.
  assert (0 < Qc_of_Z b) as Hb' by (rewrite <- Z2Qc_inj_0; by rewrite <- Z2Qc_inj_lt).
  rewrite (Qcmult_lt_mono_pos_r _ _ (Pandas.Qc_of_nat n)) by done.
  rewrite Qc_div_mul_cancel by done.
  rewrite (Qcmult_lt_mono_pos_r _ _ (Qc_of_Z b)) by done.
  replace (c * Pandas.Qc_of_nat n * Qc_of_Z b)
    with (Qc_of_Z a * Pandas.Qc_of_nat n) by (rewrite <- Hc; ring).
  unfold Pandas.Qc_of_nat. rewrite <- !Z2Qc_inj_mul, <- Z2Qc_inj_lt. lia.
Qed.


Lemma eight_tenths_eq : eight_tenths * Qc_of_Z 5 = Qc_of_Z 4.
Proof. by_compute. Qed.

(** [mask.mean() > 0.8] says that more than four fifths of the mask are
    set. *)
Lemma mean_mask_gt_08 (m : list bool) :
  Pandas.gt_nan (Pandas.mean_mask m) eight_tenths = true
  <-> (4 * length m < 5 * Pandas.sum_mask m)%nat.
Proof.
  destruct m as [|b m].
  - simpl. split; [done|]. unfold Pandas.sum_mask. simpl. lia.
  - unfold Pandas.mean_mask, Pandas.gt_nan. rewrite bool_decide_eq_true.
    rewrite (const_lt_ratio _ 4 5); [lia|lia|apply eight_tenths_eq|simpl; lia].
Qed.
End Ratios.

(** ** The type inferencer *)

Section Inference.
Context `{Coercions}.

Lemma dropna_all_null (s : series) :
  Spec.all_null s -> Pandas.dropna s = Series (s_dtype s) [].
Proof.
  unfold Spec.all_null, Pandas.dropna. intros Hall. f_equal.
  induction Hall as [|v vs -> _ IH]; [done|]. simpl. exact IH.
Qed.

Lemma sum_mask_notna (vs : list value) :
  Pandas.sum_mask (Pandas.notna_value <$> vs)
  = length (List.filter Pandas.notna_value vs).
Proof.
  unfold Pandas.sum_mask. induction vs as [|v vs IH]; [done|].
  csimpl. destruct (Pandas.notna_value v); csimpl; by rewrite IH.
Qed.

Lemma filter_notna_idemp (vs : list value) :
  List.filter Pandas.notna_value (List.filter Pandas.notna_value vs)
  = List.filter Pandas.notna_value vs.
Proof.
  induction vs as [|v vs IH]; [done|]. simpl.
  destruct (Pandas.notna_value v) eqn:Hv; simpl; rewrite ?Hv; by rewrite IH.
Qed.

Lemma filter_length_le {A} (f : A -> bool) (l : list A) :
  (length (List.filter f l) <= length l)%nat.
Proof. induction l as [|x l IH]; simpl; [lia|]. destruct (f x); simpl; lia. Qed.

(** The cells [pd.to_numeric] leaves non-null in a column without nulls
    are at least the cells that coerce. *)
Lemma coerced_le_notna (s : series) :
  (Spec.coerced_count s
   <= Pandas.sum_mask (Pandas.notna (Pandas.to_numeric (Pandas.dropna s))))%nat.
Proof.
  unfold Spec.coerced_count, Pandas.notna, Pandas.to_numeric.
  destruct s as [d vs]. simpl.
  assert (Hobj : Pandas.sum_mask
            (Pandas.notna_value <$> (Pandas.to_numeric_value <$>
               List.filter Pandas.notna_value vs))
          = length (List.filter Spec.coerces (List.filter Pandas.notna_value vs))).
  { generalize (List.filter Pandas.notna_value vs). intros l.
    unfold Pandas.sum_mask, Spec.coerces.
    induction l as [|v l IH]; [done|]. csimpl.
    destruct (Pandas.notna_value (Pandas.to_numeric_value v)); csimpl; by rewrite IH. }
  destruct d; simpl; rewrite ?Hobj; try lia;
    rewrite sum_mask_notna, filter_notna_idemp; apply filter_length_le.
Qed.

Lemma len_to_numeric (s : series) :
  Pandas.len (Pandas.to_numeric s) = Pandas.len s.
Proof.
  unfold Pandas.to_numeric, Pandas.len. destruct s as [[] vs]; simpl;
    by rewrite ?length_fmap.
Qed.

(** The cells a column keeps once its nulls are dropped are all there for
    the ratio test: the test passes exactly when there is such a cell. *)
Lemma notna_dropna_ratio (s : series) :
  Pandas.gt_nan (Pandas.mean_mask (Pandas.notna (Pandas.dropna s))) eight_tenths
  = (0 <? Pandas.count s)%nat.
Proof.
  pose proof (mean_mask_gt_08 (Pandas.notna (Pandas.dropna s))) as Hiff.
  assert (length (Pandas.notna (Pandas.dropna s)) = Pandas.count s) as Hlen
    by apply length_fmap.
  assert (Pandas.sum_mask (Pandas.notna (Pandas.dropna s)) = Pandas.count s)
    as Hsum.
  { unfold Pandas.notna, Pandas.dropna, Pandas.count, Pandas.len.
    cbn [s_values]. by rewrite sum_mask_notna, filter_notna_idemp. }
  rewrite Hlen, Hsum in Hiff.
  destruct (0 <? Pandas.count s)%nat eqn:Hc.
  - apply Hiff. apply Nat.ltb_lt in Hc. lia.
  - apply Nat.ltb_ge in Hc. apply not_true_is_false. intros Ht.
    apply Hiff in Ht. lia.
Qed.

Lemma dropna_count_0 (s : series) :
  Pandas.count s = 0%nat -> Pandas.dropna s = Series (s_dtype s) [].
Proof.
  unfold Pandas.count, Pandas.len, Pandas.dropna. cbn [s_values].
  by intros ->%length_zero_iff_nil.
Qed.

(** C8, as the code has it.  The inferencer tests the storage type
    against the list [int64], [float64], [int32], [float32]: a column of
    one of these four types is inferred [Numeric] whatever its cells are,
    all null included.  A column of another integer or floating type
    ([int8], [int16], an unsigned type, [float16]) goes on to the tests on
    its cells: it is inferred [Numeric] when it has a cell that is not
    null, and [Boolean] when all its cells are null or it has no row. *)
Theorem infer_native_numeric (s : series) :
  Spec.numeric_kind (s_dtype s) = true ->
  _infer_semantic_type s
  = if bool_decide (s_dtype s ∈ [int64; float64; int32; float32])
       || (0 <? Pandas.count s)%nat
    then Numeric else Boolean.
Proof.
  intros Hkind. unfold _infer_semantic_type.
  destruct (is_native_numeric (s_dtype s)) eqn:Hnative.
  - rewrite bool_decide_eq_true_2; [done|].
    destruct (s_dtype s); try discriminate Hnative; by_compute.
  - rewrite bool_decide_eq_false_2
      by (destruct (s_dtype s); try discriminate Hnative; by_compute).
    assert (Pandas.to_numeric (Pandas.dropna s) = Pandas.dropna s) as ->.
    { unfold Pandas.to_numeric. cbn [Pandas.dropna s_dtype].
      by destruct (s_dtype s). }
    rewrite notna_dropna_ratio. cbn [orb].
    destruct (0 <? Pandas.count s)%nat eqn:Hc; [done|].
    apply Nat.ltb_ge in Hc.
    rewrite (dropna_count_0 s) by lia. by destruct (s_dtype s).
Qed.

(** C3, as the code has it.  A column whose storage type is not native
    numeric and whose cells are all null (the column without rows
    included) is inferred [Boolean]: the two ratio tests fail on the empty
    set of values, and the empty set of lower-cased texts is a subset of
    the boolean tokens. *)
Theorem infer_all_null_boolean (s : series) :
  is_native_numeric (s_dtype s) = false ->
  Spec.all_null s ->
  _infer_semantic_type s = Boolean.
Proof.
  intros Hd Hnull. unfold _infer_semantic_type.
  rewrite Hd, (dropna_all_null s Hnull).
  by destruct (s_dtype s).
Qed.

(** C4, as the code has it.  A column whose storage type is not native
    numeric is inferred [Numeric] when more than 80% of its non-null cells
    coerce to a number. *)
Theorem infer_numeric_above_80 (s : series) :
  is_native_numeric (s_dtype s) = false ->
  (4 * Pandas.count s < 5 * Spec.coerced_count s)%nat ->
  _infer_semantic_type s = Numeric.
Proof.
  intros Hd Hratio. unfold _infer_semantic_type. rewrite Hd.
  assert (Pandas.gt_nan
            (Pandas.mean_mask (Pandas.notna (Pandas.to_numeric (Pandas.dropna s))))
            eight_tenths = true) as ->; [|done].
  apply mean_mask_gt_08.
  pose proof (coerced_le_notna s) as Hle.
  assert (length (Pandas.notna (Pandas.to_numeric (Pandas.dropna s)))
          = Pandas.count s) as ->; [|lia].
  unfold Pandas.notna. rewrite length_fmap.
  exact (len_to_numeric (Pandas.dropna s)).
Qed.

End Inference.

Lemma infer_native_numeric_witness :
  Spec.numeric_kind float64 = true
  /\ @_infer_semantic_type Sample.integer_cells (Series float64 [VNull; VNull])
     = Numeric.
Proof.
  split; [reflexivity|].
  exact (@infer_native_numeric Sample.integer_cells
           (Series float64 [VNull; VNull]) eq_refl).
Defined.

(** A column of small integers is inferred [Numeric] by the ratio test,
    and the same column without a row is inferred [Boolean]. *)
Example infer_int8 :
  @_infer_semantic_type Sample.integer_cells
    (Series int8 [Sample.num 1; Sample.num 2]) = Numeric
  /\ @_infer_semantic_type Sample.integer_cells (Series int8 []) = Boolean.
Proof. split; vm_compute; reflexivity. Qed.

(** C8, as stated, fails: a [float16] column whose cells are all null has
    a floating storage type and is inferred [Boolean], not [Numeric]. *)
Lemma infer_float16_all_null_not_numeric :
  ~ (forall (C : Coercions) (s : series),
       Spec.numeric_kind (s_dtype s) = true ->
       _infer_semantic_type s = Numeric).
Proof.
  intros Hclaim.
  specialize (Hclaim Sample.integer_cells (Series float16 [VNull; VNull])
                eq_refl).
  discriminate Hclaim.
Qed.

Lemma infer_all_null_boolean_witness :
  @_infer_semantic_type Sample.integer_cells (Series object [VNull; VNull]) = Boolean.
Proof.
  apply (@infer_all_null_boolean Sample.integer_cells (Series object [VNull; VNull])).
  - reflexivity.
  - repeat constructor.
Defined.

(** C3, as stated, fails: an all-null [object] column is not inferred
    [Categorical]. *)
Lemma infer_all_null_not_categorical :
  ~ (forall (C : Coercions) (s : series),
       is_native_numeric (s_dtype s) = false -> Spec.all_null s ->
       _infer_semantic_type s = Categorical).
Proof.
  intros Hclaim.
  assert (Hnull : Spec.all_null (Series object [VNull; VNull]))
    by repeat constructor.
  specialize (Hclaim Sample.integer_cells (Series object [VNull; VNull]) eq_refl Hnull).
  discriminate Hclaim.
Qed.

(** C4, as stated, fails at the boundary: with exactly 80% of the cells
    coercing the column is not inferred [Numeric]. *)
Lemma infer_exactly_80_not_numeric :
  ~ (forall (C : Coercions) (s : series),
       is_native_numeric (s_dtype s) = false ->
       (4 * Pandas.count s <= 5 * Spec.coerced_count s)%nat ->
       _infer_semantic_type s = Numeric).
Proof.
  intros Hclaim.
  specialize (Hclaim Sample.integer_cells Sample.four_of_five eq_refl).
  assert (Hinfer : @_infer_semantic_type Sample.integer_cells Sample.four_of_five = Categorical)
    by (vm_compute; reflexivity).
  assert (Hratio : (4 * Pandas.count Sample.four_of_five
                    <= 5 * @Spec.coerced_count Sample.integer_cells Sample.four_of_five)%nat)
    by (vm_compute; lia).
  specialize (Hclaim Hratio). rewrite Hinfer in Hclaim. discriminate Hclaim.
Qed.

Lemma infer_numeric_above_80_witness :
  @_infer_semantic_type Sample.integer_cells Sample.five_of_six = Numeric.
Proof.
  apply (@infer_numeric_above_80 Sample.integer_cells Sample.five_of_six).
  - reflexivity.
  - vm_compute. lia.
Defined.

(** ** The mapping suggester *)

Section Mapping.
Context `{Coercions}.

Lemma suggest_step_id_taken sug col s :
  Spec.is_id_name col && bool_decide (id_column sug = None) = true ->
  id_column (suggest_step sug col s) = Some col
  /\ numeric_columns (suggest_step sug col s) = numeric_columns sug
  /\ categorical_columns (suggest_step sug col s) = categorical_columns sug.
Proof.
  intros Hid. unfold suggest_step. unfold Spec.is_id_name in Hid. by rewrite Hid.
Qed.

Lemma suggest_step_feature sug col s :
  Spec.is_id_name col && bool_decide (id_column sug = None) = false ->
  id_column (suggest_step sug col s) = id_column sug
  /\ numeric_columns (suggest_step sug col s)
     = numeric_columns sug
         ++ (if Spec.wants_numeric (_infer_semantic_type s) then [col] else [])
  /\ categorical_columns (suggest_step sug col s)
     = categorical_columns sug
         ++ (if Spec.wants_categorical (_infer_semantic_type s) then [col] else []).
Proof.
  intros Hid. unfold suggest_step. unfold Spec.is_id_name in Hid. rewrite Hid.
  unfold Spec.wants_numeric, Spec.wants_categorical.
  destruct (_infer_semantic_type s);
    repeat (case_match; simpl); simplify_eq/=;
    rewrite ?app_nil_r; done.
Qed.

(** The pass computes the identifier and the two feature lists of the
    definitions above. *)
Lemma suggest_fold_spec (data : list (string * series)) (sug : suggestions) :
  let id_free := bool_decide (id_column sug = None) in
  id_column (Spec.suggest_fold sug data)
    = (if id_free then Spec.chosen_id data else id_column sug)
  /\ numeric_columns (Spec.suggest_fold sug data)
     = numeric_columns sug ++ Spec.features Spec.wants_numeric id_free data
  /\ categorical_columns (Spec.suggest_fold sug data)
     = categorical_columns sug ++ Spec.features Spec.wants_categorical id_free data.
Proof.
  revert sug. induction data as [|[col s] rest IH]; intros sug; simpl.
  - rewrite !app_nil_r. case_bool_decide; auto.
  - destruct (Spec.is_id_name col && bool_decide (id_column sug = None)) eqn:Hid.
    + destruct (suggest_step_id_taken sug col s Hid) as (Hi & Hn & Hc).
      destruct (IH (suggest_step sug col s)) as (IHi & IHn & IHc).
      unfold Spec.suggest_fold in *. simpl. rewrite IHi, IHn, IHc, Hi, Hn, Hc.
      apply andb_true_iff in Hid as [Hname Hfree]. rewrite Hname, Hfree.
      rewrite bool_decide_eq_false_2 by done. done.
    + destruct (suggest_step_feature sug col s Hid) as (Hi & Hn & Hc).
      destruct (IH (suggest_step sug col s)) as (IHi & IHn & IHc).
      unfold Spec.suggest_fold in *. simpl. rewrite IHi, IHn, IHc, Hi, Hn, Hc.
      rewrite <- !app_assoc.
      destruct (bool_decide (id_column sug = None)) eqn:Hfree.
      * rewrite andb_true_r in Hid. rewrite Hid. done.
      * done.
Qed.

Lemma chosen_id_elem data col :
  Spec.chosen_id data = Some col -> col ∈ data.*1.
Proof.
  induction data as [|[c s] rest IH]; simpl; [done|].
  rewrite elem_of_cons.
  destruct (Spec.is_id_name c); intros Hc; simplify_eq; auto.
Qed.

Lemma features_elem want id_free data col :
  col ∈ Spec.features want id_free data -> col ∈ data.*1.
Proof.
  revert id_free. induction data as [|[c s] rest IH]; intros id_free; simpl.
  - intros Hin. by apply elem_of_nil in Hin.
  - rewrite elem_of_cons. destruct (Spec.is_id_name c && id_free).
    + intros Hin. apply IH in Hin. auto.
    + rewrite elem_of_app. intros [Hin|Hin].
      * destruct (want _); [|by apply elem_of_nil in Hin].
        apply list_elem_of_singleton in Hin. auto.
      * apply IH in Hin. auto.
Qed.

(** Membership in a feature list, for a table with unique column names. *)
Lemma features_spec want id_free data col s :
  NoDup data.*1 -> (col, s) ∈ data ->
  col ∈ Spec.features want id_free data
  <-> want (_infer_semantic_type s) = true
      /\ ~ (id_free = true /\ Spec.chosen_id data = Some col).
Proof.
  revert id_free. induction data as [|[c x] rest IH]; intros id_free Hnd Hin.
  - by apply elem_of_nil in Hin.
  - simpl in Hnd. apply NoDup_cons in Hnd as [Hc Hnd].
    apply elem_of_cons in Hin as [Heq|Hin].
    + simplify_eq. simpl.
      destruct (Spec.is_id_name c) eqn:Hname, id_free; simpl.
      * split.
        -- intros Hf%features_elem. done.
        -- intros [_ Hno]. destruct Hno. done.
      * rewrite elem_of_app. split.
        -- intros [Hf|Hf%features_elem]; [|done].
           destruct (want _); [|by apply elem_of_nil in Hf].
           split; [done|]. intros [? _]; done.
        -- intros [-> _]. left. by apply list_elem_of_singleton.
      * rewrite elem_of_app. split.
        -- intros [Hf|Hf%features_elem]; [|done].
           destruct (want _); [|by apply elem_of_nil in Hf].
           split; [done|]. intros [_ Hch%chosen_id_elem]. done.
        -- intros [-> _]. left. by apply list_elem_of_singleton.
      * rewrite elem_of_app. split.
        -- intros [Hf|Hf%features_elem]; [|done].
           destruct (want _); [|by apply elem_of_nil in Hf].
           split; [done|]. intros [? _]; done.
        -- intros [-> _]. left. by apply list_elem_of_singleton.
    + assert (col ≠ c) as Hne.
      { intros ->. apply Hc. apply list_elem_of_fmap. by exists (c, s). }
      simpl. destruct (Spec.is_id_name c) eqn:Hname, id_free; simpl.
      * rewrite (IH false Hnd Hin). split.
        -- intros [Hw _]. split; [done|]. intros [_ Hch]. simplify_eq.
        -- intros [Hw _]. split; [done|]. intros [? _]; done.
      * rewrite elem_of_app, (IH false Hnd Hin). split.
        -- intros [Hf|[Hw _]].
           ++ destruct (want (_infer_semantic_type x));
                [by apply list_elem_of_singleton in Hf|by apply elem_of_nil in Hf].
           ++ split; [done|]. intros [? _]; done.
        -- intros [Hw _]. right. split; [done|]. intros [? _]; done.
      * rewrite elem_of_app, (IH true Hnd Hin). split.
        -- intros [Hf|[Hw Hno]].
           ++ destruct (want (_infer_semantic_type x));
                [by apply list_elem_of_singleton in Hf|by apply elem_of_nil in Hf].
           ++ split; [done|]. intros [_ Hch]. apply Hno. done.
        -- intros [Hw Hno]. right. split; [done|]. intros [_ Hch].
           apply Hno. done.
      * rewrite elem_of_app, (IH false Hnd Hin). split.
        -- intros [Hf|[Hw _]].
           ++ destruct (want (_infer_semantic_type x));
                [by apply list_elem_of_singleton in Hf|by apply elem_of_nil in Hf].
           ++ split; [done|]. intros [? _]; done.
        -- intros [Hw _]. right. split; [done|]. intros [? _]; done.
Qed.

(** C7, as the code has it.  In a table with unique column names, a column
    is appended to [numeric_columns] exactly when it is inferred [Numeric]
    and to [categorical_columns] exactly when it is inferred [Categorical]
    or [Boolean], whether or not it was taken as target or date column,
    except that the column taken as [id_column] is appended to neither
    list; a [Datetime] column is appended to neither list either. *)
Theorem suggest_feature_lists (df : DataFrame) (col : string) (s : series) :
  NoDup (Frames.columns df) ->
  (col, s) ∈ df_data df ->
  let sug := suggest_column_mapping df in
  (col ∈ numeric_columns sug
     <-> id_column sug ≠ Some col /\ _infer_semantic_type s = Numeric)
  /\ (col ∈ categorical_columns sug
     <-> id_column sug ≠ Some col
         /\ (_infer_semantic_type s = Categorical
             \/ _infer_semantic_type s = Boolean)).
Proof.
  intros Hnd Hin sug. subst sug.
  change (suggest_column_mapping df)
    with (Spec.suggest_fold (Suggestions None None [] [] None) (df_data df)).
  destruct (suggest_fold_spec (df_data df) (Suggestions None None [] [] None))
    as (Hi & Hn & Hc).
  simpl in Hi, Hn, Hc. rewrite Hi, Hn, Hc.
  rewrite !(features_spec _ true (df_data df) col s Hnd Hin).
  unfold Spec.wants_numeric, Spec.wants_categorical.
  rewrite orb_true_iff, !bool_decide_eq_true. intuition congruence.
Qed.
End Mapping.

Lemma suggest_feature_lists_witness :
  NoDup (Frames.columns Sample.students)
  /\ ("passed", Series int64 [Sample.num 0; Sample.num 1]) ∈ df_data Sample.students
  /\ let sug := @suggest_column_mapping Sample.integer_cells Sample.students in
     (("passed" : string) ∈ numeric_columns sug
        <-> id_column sug ≠ Some ("passed" : string)
            /\ @_infer_semantic_type Sample.integer_cells
                 (Series int64 [Sample.num 0; Sample.num 1]) = Numeric)
     /\ (("passed" : string) ∈ categorical_columns sug
        <-> id_column sug ≠ Some ("passed" : string)
            /\ (@_infer_semantic_type Sample.integer_cells
                  (Series int64 [Sample.num 0; Sample.num 1]) = Categorical
                \/ @_infer_semantic_type Sample.integer_cells
                     (Series int64 [Sample.num 0; Sample.num 1]) = Boolean)).
Proof.
  assert (Hnd : NoDup (Frames.columns Sample.students)) by by_compute.
  assert (Hin : ("passed", Series int64 [Sample.num 0; Sample.num 1])
                ∈ df_data Sample.students) by by_compute.
  split; [exact Hnd|]. split; [exact Hin|].
  exact (@suggest_feature_lists Sample.integer_cells Sample.students _ _ Hnd Hin).
Defined.

(** C7, as stated, fails: the column taken as identifier is inferred
    [Numeric] and is appended to neither list. *)
Lemma suggest_skips_id_column :
  ~ (forall (C : Coercions) (df : DataFrame) (col : string) (s : series),
       NoDup (Frames.columns df) -> (col, s) ∈ df_data df ->
       (_infer_semantic_type s = Numeric ->
          col ∈ numeric_columns (suggest_column_mapping df))
       /\ (_infer_semantic_type s = Categorical \/ _infer_semantic_type s = Boolean ->
          col ∈ categorical_columns (suggest_column_mapping df))).
Proof.
  intros Hclaim.
  assert (Hnd : NoDup (Frames.columns Sample.students)) by by_compute.
  assert (Hin : ("student_id", Series int64 [Sample.num 1; Sample.num 2])
                ∈ df_data Sample.students) by by_compute.
  destruct (Hclaim Sample.integer_cells Sample.students _ _ Hnd Hin) as [Hnum _].
  specialize (Hnum eq_refl).
  assert (Hno : ("student_id" : string)
                ∉ numeric_columns
                    (@suggest_column_mapping Sample.integer_cells Sample.students))
    by by_compute.
  exact (Hno Hnum).
Qed.

Example suggest_students :
  @suggest_column_mapping Sample.integer_cells Sample.students
  = Suggestions (Some "student_id") (Some "passed") ["passed"] [] None.
Proof. vm_compute. reflexivity. Qed.

(** ** The cleaning plan generator *)

Section Plan.

Lemma plan_issue_entry (col : string) (info : column_info)
    (actions : list action) (i : issue) :
  Spec.entry_of <$> plan_issue col info actions i
  = (Spec.entry_of <$> actions) ++ option_list (Spec.planned col info i).
Proof.
  unfold plan_issue, Spec.planned.
  destruct (type i); rewrite ?fmap_app, ?app_nil_r; done.
Qed.

Lemma plan_issues_entries (col : string) (info : column_info)
    (l : list issue) (actions : list action) :
  Spec.entry_of <$> foldl (plan_issue col info) actions l
  = (Spec.entry_of <$> actions) ++ omap (Spec.planned col info) l.
Proof.
  revert actions. induction l as [|i l IH]; intros actions; simpl.
  - by rewrite app_nil_r.
  - rewrite IH, plan_issue_entry, <- app_assoc. f_equal.
    by destruct (Spec.planned col info i).
Qed.

Lemma plan_columns_entries (cols : list (string * column_info))
    (actions : list action) :
  Spec.entry_of <$>
    foldl (fun actions '(col, info) =>
             foldl (plan_issue col info) actions (issues info)) actions cols
  = (Spec.entry_of <$> actions)
    ++ mjoin ((fun '(col, info) => omap (Spec.planned col info) (issues info))
                <$> cols).
Proof.
  revert actions. induction cols as [|[col info] cols IH]; intros actions; simpl.
  - by rewrite app_nil_r.
  - by rewrite IH, plan_issues_entries, <- app_assoc.
Qed.

(** C6.  The plan opens with one dataset-scope [remove_duplicates] action,
    selected by default, exactly when the profile counts duplicate rows;
    then, column by column in profile order and issue by issue in column
    order, [whitespace] gives [strip_whitespace] (default),
    [case_inconsistency] gives [standardize_case] (default),
    [missing_values] gives [impute_missing] with method [median] for a
    numeric column and [mode] otherwise (default), [outliers] gives
    [clip_outliers] (not default), [constant] gives [drop_column] (not
    default), and [negative_values] and [high_cardinality] give nothing. *)
Theorem generate_cleaning_plan_entries (p : profile) :
  Spec.entry_of <$> generate_cleaning_plan p = Spec.plan_of p.
Proof.
  unfold generate_cleaning_plan, Spec.plan_of.
  rewrite plan_columns_entries. f_equal.
  by destruct (0 <? duplicate_rows p)%nat.
Qed.

End Plan.

(** ** The descriptions of the issues *)

Section Digits.

Lemma has_digit_app (a b : string) :
  PyStr.has_digit (a +:+ b) = PyStr.has_digit a || PyStr.has_digit b.
Proof.
  induction a as [|c a IH]; [done|].
  change (String c a +:+ b) with (String c (a +:+ b)).
  simpl. by rewrite IH, orb_assoc.
Qed.

Lemma is_digit_pretty_char (x : N) : PyStr.is_digit (pretty_N_char x) = true.
Proof. unfold pretty_N_char. by repeat case_match. Qed.

Lemma has_digit_pretty_go (x : N) (s : string) :
  PyStr.has_digit s = true -> PyStr.has_digit (pretty_N_go x s) = true.
Proof.
  revert s. induction (N.lt_wf_0 x) as [x _ IH]. intros s Hs.
  destruct (decide (x = 0%N)) as [->|Hx].
  - by rewrite pretty_N_go_0.
  - rewrite pretty_N_go_step by lia. apply IH.
    + apply N.div_lt; lia.
    + simpl. by rewrite Hs, orb_true_r.
Qed.

Lemma has_digit_pretty_N (x : N) : PyStr.has_digit (pretty x) = true.
Proof.
  unfold pretty, pretty_N. case_decide as Hx; [done|].
  rewrite pretty_N_go_step by lia. apply has_digit_pretty_go.
  simpl. by rewrite is_digit_pretty_char.
Qed.

Lemma has_digit_format_nat (n : nat) :
  PyStr.has_digit (PyFmt.format_nat n) = true.
Proof. apply has_digit_pretty_N. Qed.

Lemma has_digit_pretty_Z (z : Z) : PyStr.has_digit (pretty z) = true.
Proof.
  destruct z as [|p|p]; [done|apply has_digit_pretty_N|].
  unfold pretty, pretty_Z. rewrite has_digit_app.
  change (pretty p) with (pretty (Npos p)).
  by rewrite has_digit_pretty_N, orb_true_r.
Qed.

Lemma has_digit_format_fixed (d : nat) (x : Qc) :
  PyStr.has_digit (PyFmt.format_fixed d x) = true.
Proof.
  unfold PyFmt.format_fixed. rewrite !has_digit_app, has_digit_pretty_Z.
  by rewrite orb_true_r.
Qed.

End Digits.

Section Descriptions.
Context `{Coercions}.

(** Finds the number in a description put together from formatted
    counts. *)
Ltac find_digit :=
  unfold Spec.described, Spec.embeds_number;
  cbn [type description format_fixed_nan];
  rewrite ?has_digit_app, ?has_digit_format_nat, ?has_digit_format_fixed;
  repeat (rewrite orb_true_l || rewrite orb_true_r);
  reflexivity.

Lemma described_snoc (l : list issue) (i : issue) :
  Forall Spec.described l -> Spec.described i -> Forall Spec.described (l ++ [i]).
Proof. intros Hl Hi. apply Forall_app. split; [done|]. by constructor. Qed.

Lemma numeric_checks_described (s : series) (l : list issue) :
  Forall Spec.described l -> Forall Spec.described (numeric_checks s l).2.
Proof.
  intros Hl. unfold numeric_checks.
  destruct (0 <? Pandas.len _)%nat; [|done].
  destruct (_ && _ && _); cbn [snd];
    destruct (Pandas.smin _) as [m|]; try case_bool_decide; cbn [snd];
    repeat (apply described_snoc; [|find_digit]);
    done.
Qed.

Lemma categorical_checks_described (s : series) (n : nat) (pct : Qc)
    (l : list issue) :
  Forall Spec.described l ->
  Forall Spec.described (categorical_checks s n pct l).2.
Proof.
  intros Hl. unfold categorical_checks. cbn [snd].
  destruct (Pandas.nunique _ <? Pandas.nunique _)%nat;
    destruct (0 <? Pandas.count_changed _ _)%nat;
    destruct (_ && _);
    repeat (apply described_snoc; [|find_digit]);
    done.
Qed.

Lemma profile_column_described (s : series) :
  Forall Spec.described (issues (_profile_column s)).
Proof.
  unfold _profile_column.
  set (l0 := if Pandas.gt_nan _ 0 then _ else _).
  assert (Hl0 : Forall Spec.described l0).
  { unfold l0. destruct (Pandas.gt_nan _ 0); [|done].
    apply described_snoc; [done|find_digit]. }
  clearbody l0.
  destruct (bool_decide (_infer_semantic_type s = Numeric)).
  - pose proof (numeric_checks_described s l0 Hl0) as Hn.
    destruct (numeric_checks s l0) as [st l1]. cbn [snd] in Hn. cbn [issues].
    destruct (_ && _); [|done]. by apply described_snoc.
  - destruct (bool_decide (_infer_semantic_type s = Categorical)).
    + pose proof (categorical_checks_described s (Pandas.nunique s)
                    (if (0 <? Pandas.len s)%nat
                     then PyFmt.round 2
                            (Pandas.Qc_of_nat (Pandas.nunique s)
                               / Pandas.Qc_of_nat (Pandas.len s) * hundred)
                     else 0) l0 Hl0) as Hc.
      destruct (categorical_checks _ _ _ _) as [top l1]. cbn [snd] in Hc.
      cbn [issues]. destruct (_ && _); [|done]. by apply described_snoc.
    + cbn [issues]. destruct (_ && _); [|done]. by apply described_snoc.
Qed.

(** C9, as the code has it.  Every issue the column profiler emits of type
    [missing_values], [outliers], [negative_values], [high_cardinality] or
    [whitespace] has a description that embeds a number measured from the
    column; the description of a [case_inconsistency] issue and that of a
    [constant] issue are fixed texts. *)
Theorem issue_descriptions (s : series) (i : issue) :
  i ∈ issues (_profile_column s) -> Spec.described i.
Proof.
  intros Hi. pose proof (profile_column_described s) as Hall.
  rewrite Forall_forall in Hall. by apply Hall.
Qed.

End Descriptions.

Lemma issue_descriptions_witness :
  let i := Issue case_inconsistency medium
             "Possible case inconsistencies (e.g., 'Male' vs 'male')"
             "Standardize text casing" in
  i ∈ issues (@_profile_column Sample.integer_cells Sample.two_cases)
  /\ Spec.described i.
Proof.
  intros i.
  assert (Hi : i ∈ issues (@_profile_column Sample.integer_cells Sample.two_cases))
    by (vm_compute; apply list_elem_of_here).
  split; [exact Hi|].
  exact (@issue_descriptions Sample.integer_cells Sample.two_cases i Hi).
Defined.

(** C9, as stated, fails: the issue emitted for a column of texts that
    differ by case has a description without any number. *)
Lemma case_issue_embeds_no_number :
  ~ (forall (C : Coercions) (s : series) (i : issue),
       i ∈ issues (_profile_column s) -> Spec.embeds_number i).
Proof.
  intros Hclaim.
  specialize (Hclaim Sample.integer_cells Sample.two_cases
                (Issue case_inconsistency medium
                   "Possible case inconsistencies (e.g., 'Male' vs 'male')"
                   "Standardize text casing")).
  assert (Hno : PyStr.has_digit
            "Possible case inconsistencies (e.g., 'Male' vs 'male')" = false)
    by (vm_compute; reflexivity).
  unfold Spec.embeds_number in Hclaim. cbn [description] in Hclaim.
  rewrite Hno in Hclaim. discriminate Hclaim.
  vm_compute. apply list_elem_of_here.
Qed.

(** ** The outlier issue of the column profiler *)

Section Outliers.
Context `{Coercions}.







End Outliers.


(** The outlier scenario: of the five numbers 1, 2, 3, 4, 100 one lies
    outside the whiskers -1 and 7, which is 20% of them. *)
Example profile_one_far_out :
  let info := @_profile_column Sample.integer_cells Sample.one_far_out in
  Spec.reported_outliers info = Some 1%nat
  /\ Spec.outlier_issues info
     = [Issue outliers high
          "1 potential outliers detected (IQR method, range: -1.0 to 7.0)"
          "Clip to IQR bounds or investigate individually"].
Proof. split; vm_compute; reflexivity. Qed.

(** A binary column, however skewed, gets no outlier issue and no count. *)
Example profile_skewed_binary :
  let info := @_profile_column Sample.integer_cells Sample.skewed_binary in
  @Spec.outlier_total Sample.integer_cells Sample.skewed_binary = 1%nat
  /\ Spec.reported_outliers info = None
  /\ Spec.outlier_issues info = [].
Proof. repeat split; vm_compute; reflexivity. Qed.


(** ** Stripping and title-casing texts *)

Section Text.

Ltac all_chars c := destruct c as [[] [] [] [] [] [] [] []]; vm_compute; try reflexivity; try discriminate.



Lemma space_to_upper (c : ascii) :
  PyStr.is_space (PyStr.to_upper c) = PyStr.is_space c.
Proof. all_chars c. Qed.

Lemma space_to_lower (c : ascii) :
  PyStr.is_space (PyStr.to_lower c) = PyStr.is_space c.
Proof. all_chars c. Qed.




(** The head of a title-cased text is a space exactly when the head of
    the text is. *)
Lemma title_go_cons (b : bool) (c : ascii) (s : string) :
  exists c' b', PyStr.title_go b (String c s) = String c' (PyStr.title_go b' s)
                /\ PyStr.is_space c' = PyStr.is_space c.
Proof.
  simpl. destruct (PyStr.is_lower c), (PyStr.is_upper c), b;
    eexists _, _; split; try reflexivity;
    auto using space_to_upper, space_to_lower.
Qed.

Lemma title_go_empty (b : bool) (s : string) :
  PyStr.title_go b s = EmptyString -> s = EmptyString.
Proof.
  destruct s as [|c s]; [done|].
  destruct (title_go_cons b c s) as (c' & b' & -> & _). done.
Qed.











End Text.

(** ** Reading and writing the columns of a table *)

Section Tables.

Lemma get_cons (c col : string) (x : series) (l : list (string * series))
    (n : nat) :
  Frames.get (Frame n ((c, x) :: l)) col
  = if bool_decide (c = col) then Some x else Frames.get (Frame n l) col.
Proof. unfold Frames.get. simpl. by destruct (bool_decide (c = col)). Qed.

Lemma get_set (df : DataFrame) (col : string) (s : series) :
  Frames.get (Frames.set df col s) col = Some s.
Proof.
  destruct df as [n l]. unfold Frames.set. simpl.
  induction l as [|[c x] l IH]; simpl.
  - rewrite get_cons. by rewrite bool_decide_eq_true_2.
  - destruct (bool_decide (c = col)) eqn:Hc; rewrite get_cons, Hc; [done|].
    exact IH.
Qed.




Lemma get_select (mask : list bool) (df : DataFrame) (col : string) :
  Frames.get (Frames.select mask df) col
  = (fun s => Series (s_dtype s) (Frames.mask_filter mask (s_values s)))
      <$> Frames.get df col.
Proof.
  destruct df as [n l]. unfold Frames.select, Frames.get. simpl.
  induction l as [|[c x] l IH]; [done|]. simpl.
  destruct (bool_decide (c = col)); [done|]. exact IH.
Qed.

Lemma get_elem (df : DataFrame) (col : string) (s : series) :
  Frames.get df col = Some s -> (col, s) ∈ df_data df.
Proof.
  destruct df as [n l]. simpl.
  induction l as [|[c x] l IH]; [done|]. rewrite get_cons.
  case_bool_decide as Hc.
  - intros [= ->]. subst. apply list_elem_of_here.
  - intros Hget. apply list_elem_of_further. by apply IH.
Qed.

Lemma wf_get (df : DataFrame) (col : string) (s : series) :
  Frames.wf df = true -> Frames.get df col = Some s ->
  Pandas.len s = df_len df /\ wf_series s = true.
Proof.
  intros Hwf Hget%get_elem. unfold Frames.wf in Hwf.
  rewrite forallb_forall in Hwf.
  apply list_elem_of_In, Hwf in Hget. simpl in Hget.
  apply andb_true_iff in Hget as [Hlen ?]. by apply bool_decide_eq_true in Hlen.
Qed.

End Tables.

(** ** Imputation by median and mean *)

Section Imputation.
Context `{Coercions}.

Lemma null_count_pos (s : series) :
  VNull ∈ s_values s <-> (0 < Pandas.sum_mask (Pandas.isnull s))%nat.
Proof.
  unfold Pandas.sum_mask, Pandas.isnull. destruct s as [d vs]. simpl.
  induction vs as [|v vs IH]; csimpl.
  - split; [by intros ?%elem_of_nil|lia].
  - rewrite elem_of_cons. destruct v; csimpl;
      try (rewrite <- IH; split; [by intros [?|?]|by right]).
    split; [lia|auto].
Qed.

(** Entering a branch of the executor that asks for the column. *)
Lemma apply_action_column (df : DataFrame) (log : list string) (a : action)
    (col : string) (s : series) :
  act a ≠ "remove_duplicates" ->
  column a = Some col -> Frames.get df col = Some s ->
  Cleaner.column_of df a = Some (col, s).
Proof. intros _ Hcol Hget. unfold column_of. by rewrite Hcol, Hget. Qed.

Lemma impute_numeric_column (df : DataFrame) (log : list string)
    (col : string) (s : series) (a : action) :
  act a = "impute_missing" -> column a = Some col ->
  default "median" (method a) ∈ ["median"; "mean"] ->
  Frames.get df col = Some s -> VNull ∈ s_values s ->
  Frames.get (apply_action (df, log) a).1 col
  = Some (Cleaner.fillna (Spec.numeric_fill (default "median" (method a)) s)
            (Pandas.to_numeric s)).
Proof.
  intros Hact Hcol Hm Hget Hnull.
  unfold apply_action. rewrite Hact. decide_names.
  unfold column_of. rewrite Hcol, Hget. cbn [fmap option_fmap option_map].
  unfold impute_missing.
  apply null_count_pos, Nat.ltb_lt in Hnull. rewrite Hnull.
  unfold Spec.numeric_fill.
  apply elem_of_cons in Hm as [Hm|Hm].
  - rewrite Hm. decide_names. cbn [fst]. apply get_set.
  - apply list_elem_of_singleton in Hm. rewrite Hm. decide_names.
    cbn [fst]. apply get_set.
Qed.

Lemma nan_value_fits (d : dtype) (x : option Qc) :
  d ≠ bool_ -> value_fits d (nan_value x) = true.
Proof. by destruct d, x. Qed.

Lemma to_numeric_dtype (s : series) :
  s_dtype s ≠ bool_ -> Spec.numeric_kind (s_dtype (Pandas.to_numeric s)) = true.
Proof. unfold Pandas.to_numeric. by destruct s as [[] vs]. Qed.

(** The cells of a numeric coercion, for a column whose storage type is
    consistent with its cells. *)
Lemma to_numeric_values (s : series) :
  wf_series s = true -> s_dtype s ≠ bool_ ->
  s_values (Pandas.to_numeric s) = Pandas.to_numeric_value <$> s_values s.
Proof.
  unfold wf_series, Pandas.to_numeric. destruct s as [d vs]. simpl.
  intros Hwf Hd.
  destruct d; try done; simpl;
    (induction vs as [|v vs IH]; [done|]; csimpl;
     simpl in Hwf; apply andb_true_iff in Hwf as [Hv Hwf];
     rewrite <- IH by done; by destruct v).
Qed.

(** A column that is not empty has a median and a mean. *)
Lemma insert_sorted_not_nil (x : Qc) (l : list Qc) :
  Pandas.insert_sorted x l ≠ [].
Proof. destruct l; simpl; [done|]. by case_bool_decide. Qed.

Lemma median_mean_some (s : series) :
  Pandas.numbers s ≠ [] ->
  (exists q, Pandas.median s = Some q) /\ (exists q, Pandas.mean s = Some q).
Proof.
  intros Hne. unfold Pandas.median, Pandas.quantile, Pandas.mean.
  destruct (Pandas.numbers s) as [|x xs]; [done|].
  pose proof (insert_sorted_not_nil x (Pandas.sort xs)) as Hs.
  cbn [Pandas.sort foldr]. fold (Pandas.sort xs).
  destruct (Pandas.insert_sorted x (Pandas.sort xs)); [done|]. eauto.
Qed.

Lemma median_mean_none (s : series) :
  Pandas.numbers s = [] -> Pandas.median s = None /\ Pandas.mean s = None.
Proof.
  intros Hnil. unfold Pandas.median, Pandas.quantile, Pandas.mean.
  by rewrite Hnil.
Qed.

(** The numbers of a numeric coercion are the numbers of the cells that
    coerce. *)
Lemma numbers_to_numeric (s : series) :
  wf_series s = true -> s_dtype s ≠ bool_ ->
  Pandas.numbers (Pandas.to_numeric s) = []
  <-> existsb Spec.coerces (s_values s) = false.
Proof.
  intros Hwf Hd. unfold Pandas.numbers.
  rewrite (to_numeric_values s Hwf Hd). unfold Spec.coerces.
  induction (s_values s) as [|v vs IH]; [done|]. csimpl.
  destruct (Pandas.to_numeric_value v) as [|q|b|t] eqn:Hv; csimpl; try done.
  by destruct v; simpl in Hv; try case_match.
Qed.

(** The value the [median] and [mean] methods fill with: a number when a
    cell of the column coerces, NaN when none does. *)
Lemma numeric_fill_cases (m : string) (s : series) :
  wf_series s = true -> s_dtype s ≠ bool_ ->
  if existsb Spec.coerces (s_values s)
  then exists q, Spec.numeric_fill m s = VNum q
  else Spec.numeric_fill m s = VNull.
Proof.
  intros Hwf Hd. pose proof (numbers_to_numeric s Hwf Hd) as Hiff.
  unfold Spec.numeric_fill.
  destruct (existsb Spec.coerces (s_values s)).
  - assert (Pandas.numbers (Pandas.to_numeric s) ≠ []) as Hne
      by (intros Hnil; by apply Hiff in Hnil).
    destruct (median_mean_some _ Hne) as [[q1 ->] [q2 ->]].
    case_bool_decide; cbn; eauto.
  - destruct (median_mean_none (Pandas.to_numeric s)) as [-> ->];
      [by apply Hiff|]. by case_bool_decide.
Qed.

(** C10, as the code has it.  An [impute_missing] action with method
    [median] or [mean] on a column that has a null replaces the column by
    its numeric coercion filled with the median or mean: a cell that
    coerces becomes its number, every other cell, null or not, becomes the
    fill value, and no text survives.  The new column has an integer or
    floating storage type.  When some cell of the column coerces, the fill
    value is a number and the new column holds numbers only; when none
    does, the fill value is NaN and every cell of the new column is
    null. *)
Theorem impute_replaces_by_coercion (df : DataFrame) (log : list string)
    (col : string) (s : series) (a : action) :
  act a = "impute_missing" -> column a = Some col ->
  default "median" (method a) ∈ ["median"; "mean"] ->
  Frames.get df col = Some s -> wf_series s = true ->
  VNull ∈ s_values s ->
  let fill := Spec.numeric_fill (default "median" (method a)) s in
  exists s',
    Frames.get (apply_action (df, log) a).1 col = Some s'
    /\ Spec.numeric_kind (s_dtype s') = true
    /\ s_values s'
       = (fun v => if Spec.coerces v then Pandas.to_numeric_value v else fill)
           <$> s_values s
    /\ (if existsb Spec.coerces (s_values s)
        then (exists q, fill = VNum q)
             /\ Forall (fun v => exists x, v = VNum x) (s_values s')
        else fill = VNull /\ Forall (fun v => v = VNull) (s_values s')).
Proof.
  intros Hact Hcol Hm Hget Hwf Hnull fill.
  assert (Hd : s_dtype s ≠ bool_).
  { intros Hd. unfold wf_series in Hwf. rewrite Hd in Hwf.
    rewrite forallb_forall in Hwf. apply list_elem_of_In, Hwf in Hnull. done. }
  eexists. split; [by apply impute_numeric_column|].
  fold fill.
  assert (Hs' : Cleaner.fillna fill (Pandas.to_numeric s)
                = Series (s_dtype (Pandas.to_numeric s))
                    ((fun v => if Spec.coerces v
                               then Pandas.to_numeric_value v else fill)
                       <$> s_values s)).
  { unfold Cleaner.fillna.
    assert (value_fits (s_dtype (Pandas.to_numeric s)) fill = true) as ->.
    { apply nan_value_fits. unfold Pandas.to_numeric.
      clear -Hd. destruct s as [d vs]. cbn [s_dtype] in *. by destruct d. }
    rewrite andb_false_r.
    unfold Pandas.fillna. f_equal.
    rewrite (to_numeric_values s Hwf Hd), <- list_fmap_compose.
    apply list_fmap_ext. intros _ v _. simpl. unfold Spec.coerces.
    by destruct (Pandas.to_numeric_value v). }
  rewrite Hs'. simpl. split; [exact (to_numeric_dtype s Hd)|]. split; [reflexivity|].
  assert (Hcell : forall v, Spec.coerces v = true ->
                    exists x, Pandas.to_numeric_value v = VNum x).
  { intros v. unfold Spec.coerces.
    destruct (Pandas.to_numeric_value v) eqn:Hv; simpl; try done; eauto;
      by destruct v; simpl in Hv; try case_match. }
  pose proof (numeric_fill_cases (default "median" (method a)) s Hwf Hd) as Hfill.
  fold fill in Hfill.
  destruct (existsb Spec.coerces (s_values s)) eqn:Hsome.
  - split; [exact Hfill|]. destruct Hfill as [q Hq].
    apply Forall_fmap, Forall_forall. intros v _. simpl.
    destruct (Spec.coerces v) eqn:Hv; [by apply Hcell|]. eauto.
  - split; [exact Hfill|].
    apply Forall_fmap, Forall_forall. intros v Hin. simpl.
    destruct (Spec.coerces v) eqn:Hv; [|done].
    assert (existsb Spec.coerces (s_values s) = true) as Habs.
    { apply existsb_exists. exists v. split; [by apply list_elem_of_In|done]. }
    congruence.
Qed.

End Imputation.

(** ** Masks and duplicates *)

Section Masks.

Lemma mask_filter_nil_l {A} (l : list A) : Frames.mask_filter [] l = [].
Proof. unfold Frames.mask_filter. by destruct l. Qed.

Lemma mask_filter_cons {A} (b : bool) (mask : list bool) (x : A) (l : list A) :
  Frames.mask_filter (b :: mask) (x :: l)
  = (if b then [x] else []) ++ Frames.mask_filter mask l.
Proof. unfold Frames.mask_filter. simpl. by destruct b. Qed.

Lemma mask_filter_fmap {A B} (f : A -> B) (mask : list bool) (l : list A) :
  Frames.mask_filter mask (f <$> l) = f <$> Frames.mask_filter mask l.
Proof.
  revert mask. induction l as [|x l IH]; intros mask; [by destruct mask|].
  destruct mask as [|b mask]; [by rewrite !mask_filter_nil_l|].
  rewrite fmap_cons, !mask_filter_cons, fmap_app, IH. by destruct b.
Qed.

(** The length of what a mask keeps depends on the mask only. *)
Lemma mask_filter_length {A B} (mask : list bool) (l : list A) (k : list B) :
  length l = length k ->
  length (Frames.mask_filter mask l) = length (Frames.mask_filter mask k).
Proof.
  revert mask k. induction l as [|x l IH]; intros mask [|y k] Hlen; try done.
  destruct mask as [|b mask]; [by rewrite !mask_filter_nil_l|].
    rewrite !mask_filter_cons, !length_app, (IH mask k) by (simpl in Hlen; lia).
    by destruct b.
Qed.


Lemma kept_cons (b : bool) (mask : list bool) :
  Frames.kept (b :: mask) = (if b then [0%nat] else []) ++ (S <$> Frames.kept mask).
Proof.
  unfold Frames.kept. cbn [length seq]. rewrite mask_filter_cons.
  by rewrite <- fmap_S_seq, mask_filter_fmap.
Qed.

(** What a mask keeps of a list, read through the Frames.kept positions. *)
Lemma mask_filter_lookup {A} (mask : list bool) (l : list A) (j : nat) :
  length l = length mask ->
  Frames.mask_filter mask l !! j = Frames.kept mask !! j ≫= (l !!.).
Proof.
  revert l j. induction mask as [|b mask IH]; intros l j Hlen.
  - by rewrite mask_filter_nil_l.
  - destruct l as [|x l]; [done|]. simpl in Hlen.
    rewrite mask_filter_cons, kept_cons. destruct b; simpl.
    + destruct j as [|j]; [done|]. simpl.
      rewrite IH by lia. rewrite list_lookup_fmap.
      by destruct (Frames.kept mask !! j).
    + rewrite IH by lia. rewrite list_lookup_fmap.
      by destruct (Frames.kept mask !! j).
Qed.
End Masks.

Section Duplicates.
Context {A : Type} `{EqDecision A}.

(** Keeping what is not marked as duplicate gives the distinct elements in
    order of first occurrence. *)
Lemma mask_filter_duplicated (seen l : list A) :
  Frames.mask_filter (negb <$> Frames.duplicated_go seen l) l
  = Pandas.unique_go seen l.
Proof.
  revert seen. induction l as [|x l IH]; intros seen; [done|]. simpl.
  destruct (bool_decide (x ∈ seen)); rewrite fmap_cons, mask_filter_cons, IH; done.
Qed.

(** Among the distinct elements no one is a duplicate. *)
Lemma duplicated_unique (seen l : list A) :
  Frames.duplicated_go seen (Pandas.unique_go seen l)
  = repeat false (length (Pandas.unique_go seen l)).
Proof.
  revert seen. induction l as [|x l IH]; intros seen; [done|]. simpl.
  destruct (bool_decide (x ∈ seen)) eqn:Hx; [apply IH|].
  simpl. rewrite Hx. by rewrite IH.
Qed.

Lemma duplicated_length (seen l : list A) :
  length (Frames.duplicated_go seen l) = length l.
Proof.
  revert seen. induction l as [|x l IH]; intros seen; [done|]. simpl.
  destruct (bool_decide (x ∈ seen)); simpl; by rewrite IH.
Qed.
End Duplicates.

(** ** Removing duplicate rows *)

Section DropDuplicates.

Lemma wf_lengths (df : DataFrame) :
  Frames.wf df = true ->
  Forall (fun p => length (s_values p.2) = df_len df) (df_data df).
Proof.
  unfold Frames.wf. rewrite forallb_forall, Forall_forall.
  intros Hwf p Hp%list_elem_of_In. apply Hwf in Hp.
  apply andb_true_iff in Hp as [Hlen _]. by apply bool_decide_eq_true in Hlen.
Qed.

(** The rows of a selection are the selected rows. *)
Lemma rows_select (mask : list bool) (df : DataFrame) :
  Frames.wf df = true -> length mask = df_len df ->
  Frames.rows (Frames.select mask df) = Frames.mask_filter mask (Frames.rows df).
Proof.
  intros Hwf%wf_lengths Hmask.
  unfold Frames.rows at 2. rewrite mask_filter_fmap.
  rewrite <- Hmask. fold (Frames.kept mask).
  unfold Frames.rows, Frames.select. cbn [df_len df_data].
  rewrite <- Hmask. fold (Frames.kept mask).
  apply list_eq. intros j. rewrite !list_lookup_fmap.
  destruct (Frames.kept mask !! j) as [i|] eqn:Hj.
  - rewrite lookup_seq_lt by (by apply lookup_lt_Some in Hj). simpl. f_equal.
    unfold Frames.row. cbn [df_data]. rewrite <- list_fmap_compose.
    apply Forall_fmap_ext_1. eapply Forall_impl; [exact Hwf|].
    intros [c s] Hlen. simpl in *.
    rewrite mask_filter_lookup by lia. by rewrite Hj.
  - rewrite lookup_seq_ge by (by apply lookup_ge_None in Hj). done.
Qed.


Lemma wf_select (mask : list bool) (df : DataFrame) :
  Frames.wf df = true -> length mask = df_len df ->
  Frames.wf (Frames.select mask df) = true.
Proof.
  intros Hwf Hmask. unfold Frames.wf, Frames.select in *. cbn [df_len df_data].
  rewrite forallb_forall in *. intros p Hp.
  apply list_elem_of_In, list_elem_of_fmap in Hp as ([c s] & -> & Hp).
  apply list_elem_of_In, Hwf in Hp. simpl in *.
  apply andb_true_iff in Hp as [Hlen%bool_decide_eq_true Hs].
  apply andb_true_iff. split.
  - apply bool_decide_eq_true. unfold Pandas.len in *. simpl.
    apply mask_filter_length. by rewrite length_seq.
  - unfold wf_series in *. simpl. rewrite forallb_forall in *.
    intros v Hv. apply Hs. unfold Frames.mask_filter in Hv.
    apply list_elem_of_In, list_elem_of_fmap in Hv as ([v' b] & -> & Hv).
    apply list_elem_of_In, filter_In in Hv as [Hv _].
    apply list_elem_of_In, elem_of_zip_l in Hv. by apply list_elem_of_In.
Qed.


End DropDuplicates.

(** ** Modes and fills *)

Section Modes.

Lemma unique_go_Forall {A} `{EqDecision A} (P : A -> Prop) (seen l : list A) :
  Forall P l -> Forall P (Pandas.unique_go seen l).
Proof.
  intros Hl. revert seen. induction Hl as [|x l Hx _ IH]; intros seen; [done|].
  simpl. destruct (bool_decide (x ∈ seen)); [apply IH|].
  constructor; [done|apply IH].
Qed.

Lemma insert_by_count_Forall (P : value * nat -> Prop) (p : value * nat)
    (l : list (value * nat)) :
  P p -> Forall P l -> Forall P (Pandas.insert_by_count p l).
Proof.
  intros Hp Hl. induction Hl as [|q l Hq Hl IH]; simpl.
  - by constructor.
  - destruct (q.2 <? p.2)%nat; repeat constructor; done.
Qed.

Lemma value_counts_Forall (P : value -> Prop) (s : series) :
  Forall P (s_values s) -> Forall (fun p => P p.1) (Pandas.value_counts s).
Proof.
  intros Hs. unfold Pandas.value_counts, Pandas.unique.
  pose proof (unique_go_Forall P [] (s_values s) Hs) as Hu.
  assert (HL : Forall (fun p : value * nat => P p.1)
            (rev ((fun v => (v, Pandas.occurrences v (s_values s)))
                    <$> Pandas.unique_go [] (s_values s)))).
  { apply Forall_rev, Forall_fmap. eapply Forall_impl; [exact Hu|]. done. }
  induction HL as [|p l Hp _ IH]; [done|]. simpl.
  by apply insert_by_count_Forall.
Qed.

Lemma least_Forall (P : value -> Prop) (x : value) (l : list value) :
  P x -> Forall P l -> P (Pandas.least x l).
Proof.
  unfold Pandas.least. intros Hx Hl. revert x Hx.
  induction Hl as [|v l Hv _ IH]; intros x Hx; [done|]. simpl.
  apply IH. by repeat case_match.
Qed.

Lemma dropna_notna (s : series) :
  Forall (fun v => Pandas.is_null v = false) (s_values (Pandas.dropna s)).
Proof.
  unfold Pandas.dropna. simpl. apply Forall_forall.
  intros v Hv%list_elem_of_In%filter_In. destruct Hv as [_ Hv].
  by destruct v.
Qed.

(** A mode is not null. *)
Lemma mode_first_notna (s : series) (v : value) :
  Pandas.mode_first s = Some v -> Pandas.is_null v = false.
Proof.
  unfold Pandas.mode_first.
  pose proof (value_counts_Forall _ _ (dropna_notna s)) as Hc.
  destruct (Pandas.value_counts (Pandas.dropna s)) as [|[m n] rest]; [done|].
  apply Forall_cons in Hc as [Hm Hrest]. simpl in Hm.
  assert (Hmodes : Forall (fun v => Pandas.is_null v = false)
            (m :: (fst <$> List.filter (fun p => (p.2 =? n)%nat) rest))).
  { constructor; [done|]. apply Forall_fmap, Forall_forall.
    intros p Hp%list_elem_of_In%filter_In. destruct Hp as [Hp _].
    rewrite Forall_forall in Hrest. by apply Hrest, list_elem_of_In. }
  intros [= <-]. destruct (Pandas.comparable _); [|done].
  apply Forall_cons in Hmodes as [_ Hmodes].
  apply (least_Forall (fun v => Pandas.is_null v = false)); [|done].
  by repeat case_match.
Qed.

End Modes.

Section Filling.

Lemma fillna_values (fill : value) (s : series) :
  s_values (Cleaner.fillna fill s) = s_values (Pandas.fillna fill s).
Proof. unfold Cleaner.fillna. by destruct (_ && _). Qed.

Lemma no_null_count (s : series) :
  Forall (fun v => Pandas.is_null v = false) (s_values s) ->
  Pandas.sum_mask (Pandas.isnull s) = 0%nat.
Proof.
  unfold Pandas.sum_mask, Pandas.isnull. intros Hs.
  induction Hs as [|v l Hv _ IH]; [done|]. csimpl. by rewrite Hv.
Qed.

(** After a fill with a value that is not null no null is left. *)
Lemma fillna_no_null (fill : value) (s : series) :
  Pandas.is_null fill = false ->
  Pandas.sum_mask (Pandas.isnull (Cleaner.fillna fill s)) = 0%nat.
Proof.
  intros Hfill. apply no_null_count. rewrite fillna_values. simpl.
  apply Forall_fmap, Forall_forall. intros v _. simpl.
  by destruct (Pandas.is_null v) eqn:Hv.
Qed.


Lemma select_notna_no_null (s : series) :
  Pandas.sum_mask
    (Pandas.isnull
       (Series (s_dtype s) (Frames.mask_filter (Pandas.notna s) (s_values s))))
  = 0%nat.
Proof.
  apply no_null_count. simpl. unfold Pandas.notna.
  induction (s_values s) as [|v vs IH]; [done|].
  rewrite fmap_cons, mask_filter_cons. apply Forall_app. split; [|done].
  destruct v; simpl; by repeat constructor.
Qed.

End Filling.

(** ** Running an action again *)

Section Idempotence.
Context `{Coercions}.











Lemma column_of_spec (df : DataFrame) (a : action) (col : string) (s : series) :
  column_of df a = Some (col, s) <->
  column a = Some col /\ Frames.get df col = Some s.
Proof.
  unfold column_of. destruct (column a) as [c|]; [|by split; [|intros []]].
  destruct (Frames.get df c) as [x|] eqn:Hget; simpl; split.
  - by intros [= -> ->].
  - intros [[= ->] Hs]. rewrite Hs in Hget. by simplify_eq.
  - done.
  - intros [[= ->] Hs]. by rewrite Hs in Hget.
Qed.

Lemma column_of_none (df : DataFrame) (a : action) (col : string) :
  column a = Some col -> Frames.get df col = None -> column_of df a = None.
Proof. intros Hcol Hget. unfold column_of. by rewrite Hcol, Hget. Qed.











End Idempotence.

Lemma impute_replaces_by_coercion_witness :
  act Sample.impute_age = "impute_missing"
  /\ column Sample.impute_age = Some "age"
  /\ default "median" (method Sample.impute_age) ∈ ["median"; "mean"]
  /\ Frames.get Sample.ages "age"
     = Some (Series object [VStr "10"; VNull; VStr "x"; VStr "30"])
  /\ wf_series (Series object [VStr "10"; VNull; VStr "x"; VStr "30"]) = true
  /\ VNull ∈ [VStr "10"; VNull; VStr "x"; VStr "30"]
  /\ exists s',
       Frames.get (@apply_action Sample.integer_cells (Sample.ages, [])
                     Sample.impute_age).1 "age" = Some s'
       /\ Spec.numeric_kind (s_dtype s') = true
       /\ (exists q,
             @Spec.numeric_fill Sample.integer_cells "median"
               (Series object [VStr "10"; VNull; VStr "x"; VStr "30"])
             = VNum q)
       /\ Forall (fun v => exists x, v = VNum x) (s_values s').
Proof.
  assert (Hm : default "median" (method Sample.impute_age) ∈ ["median"; "mean"])
    by by_compute.
  assert (Hnull : VNull ∈ [VStr "10"; VNull; VStr "x"; VStr "30"]) by by_compute.
  repeat (split; [first [reflexivity | exact Hm | exact Hnull]|]).
  destruct (@impute_replaces_by_coercion Sample.integer_cells Sample.ages []
              "age" (Series object [VStr "10"; VNull; VStr "x"; VStr "30"])
              Sample.impute_age eq_refl eq_refl Hm eq_refl eq_refl Hnull)
    as (s' & Hget & Hd & _ & Hall).
  assert (Hsome : existsb (@Spec.coerces Sample.integer_cells)
                    [VStr "10"; VNull; VStr "x"; VStr "30"] = true)
    by reflexivity.
  cbn [s_values] in Hall. rewrite Hsome in Hall.
  exists s'. destruct Hall as [Hfill Hnums]. auto.
Defined.

(** A column in which no cell coerces is left without a number: the
    median of no number is NaN, and filling with NaN fills nothing. *)
Example impute_no_number :
  (@apply_cleaning_actions Sample.integer_cells
     (Frame 2 [("age", Series object [VStr "x"; VNull])])
     [Sample.impute_age]).1
  = Frame 2 [("age", Series float64 [VNull; VNull])].
Proof. by_compute. Qed.

(** C10, as stated, fails: the column that the imputation leaves does not
    always hold numbers only.  In a column with a null in which no cell
    coerces, the text is replaced, and every cell of the new column is
    null. *)
Lemma impute_leaves_nulls :
  ~ (forall (C : Coercions) (df : DataFrame) (log : list string)
            (col : string) (s : series) (a : action),
       act a = "impute_missing" -> column a = Some col ->
       default "median" (method a) ∈ ["median"; "mean"] ->
       Frames.get df col = Some s -> wf_series s = true ->
       VNull ∈ s_values s ->
       exists s',
         Frames.get (apply_action (df, log) a).1 col = Some s'
         /\ Forall (fun v => exists x, v = VNum x) (s_values s')).
Proof.
  intros Hclaim.
  assert (Hm : default "median" (method Sample.impute_age) ∈ ["median"; "mean"])
    by by_compute.
  assert (Hnull : VNull ∈ [VStr "x"; VNull]) by by_compute.
  destruct (Hclaim Sample.integer_cells
              (Frame 2 [("age", Series object [VStr "x"; VNull])]) []
              "age" (Series object [VStr "x"; VNull]) Sample.impute_age
              eq_refl eq_refl Hm eq_refl eq_refl Hnull)
    as (s' & Hget & Hall).
  assert (Hs' : s' = Series float64 [VNull; VNull]).
  { vm_compute in Hget. congruence. }
  subst s'. apply Forall_cons_1 in Hall as [[x Hx] _]. discriminate Hx.
Qed.

(** The median of 10 and 30 fills the gap and replaces the text. *)
Example impute_ages :
  (@apply_cleaning_actions Sample.integer_cells Sample.ages [Sample.impute_age]).1
  = Frame 4 [("age", Series float64 (Sample.num <$> [10; 20; 20; 30]%Z))].
Proof. by_compute. Qed.



(** Clipping a column of integers to a whisker that is no whole number
    leaves a column of floats. *)
Example clip_widens_integers :
  (@apply_cleaning_actions Sample.integer_cells
     (Frame 4 [("c", Series int64 (Sample.num <$> [0; 0; 0; 100]%Z))])
     [Sample.clip_c]).1
  = Frame 4 [("c", Series float64
                     [Sample.num 0; Sample.num 0; Sample.num 0;
                      VNum (Q2Qc (125 # 2))])].
Proof. by_compute. Qed.

(** What the log of that action prints. *)
Example clip_log :
  (@apply_cleaning_actions Sample.integer_cells Sample.lopsided
     [Sample.clip_c]).2
  = ["Clipped 1 outlier values in 'c' to [-37.50, 62.50]"].
Proof. vm_compute. reflexivity. Qed.

(** The printer of the examples on a whole number, on a half and on a
    number of two decimals. *)
Example show_number_samples :
  Sample.show_number (Qc_of_Z 3) = "3.0"
  /\ Sample.show_number (Q2Qc (25 # 2)) = "12.5"
  /\ Sample.show_number (Q2Qc (3333 # 100)) = "33.33".
Proof. repeat split; vm_compute; reflexivity. Qed.




(** ** Running a list of actions again *)

Section Updates.

Lemma get_set_ne (df : DataFrame) (c c' : string) (s : series) :
  c ≠ c' -> is_Some (Frames.get df c) ->
  Frames.get (Frames.set df c s) c' = Frames.get df c'.
Proof.
  intros Hne Hc. destruct df as [n l]. unfold Frames.set. simpl.
  induction l as [|[d x] l IH]; simpl.
  - by destruct Hc.
  - rewrite get_cons in Hc. destruct (bool_decide (d = c)) eqn:Hd.
    + apply bool_decide_eq_true in Hd as ->. rewrite !get_cons.
      by rewrite bool_decide_eq_false_2.
    + rewrite !get_cons. destruct (bool_decide (d = c')); [done|]. by apply IH.
Qed.

Lemma get_drop_ne (df : DataFrame) (c c' : string) :
  c ≠ c' -> Frames.get (Frames.drop df c) c' = Frames.get df c'.
Proof.
  intros Hne. destruct df as [n l]. unfold Frames.drop. simpl.
  induction l as [|[d x] l IH]; [done|]. simpl.
  destruct (bool_decide (d = c)) eqn:Hd; simpl.
  - apply bool_decide_eq_true in Hd as ->. rewrite get_cons.
    by rewrite bool_decide_eq_false_2.
  - rewrite !get_cons. by destruct (bool_decide (d = c')).
Qed.




End Updates.

Section Lists.
Context `{Coercions}.









End Lists.

Section WellFormed.
Context `{Coercions}.

Lemma wf_cons (n : nat) (c : string) (x : series) (l : list (string * series)) :
  Frames.wf (Frame n ((c, x) :: l))
  = bool_decide (Pandas.len x = n) && wf_series x && Frames.wf (Frame n l).
Proof. reflexivity. Qed.

Lemma wf_set (df : DataFrame) (col : string) (s' : series) :
  Frames.wf df = true -> is_Some (Frames.get df col) ->
  Pandas.len s' = df_len df -> wf_series s' = true ->
  Frames.wf (Frames.set df col s') = true.
Proof.
  destruct df as [n l]. unfold Frames.set. simpl. intros Hwf Hget Hlen Hs'.
  induction l as [|[c x] l IH]; [by destruct Hget|].
  rewrite wf_cons in Hwf. apply andb_true_iff in Hwf as [Hx Hl].
  rewrite get_cons in Hget. simpl.
  destruct (bool_decide (c = col)) eqn:Hc; rewrite wf_cons.
  - rewrite Hl, Hs', !andb_true_r. by apply bool_decide_eq_true.
  - rewrite Hx. by apply IH.
Qed.

Lemma wf_drop (df : DataFrame) (col : string) :
  Frames.wf df = true -> Frames.wf (Frames.drop df col) = true.
Proof.
  destruct df as [n l]. unfold Frames.drop. simpl. intros Hwf.
  induction l as [|[c x] l IH]; [done|].
  rewrite wf_cons in Hwf. apply andb_true_iff in Hwf as [Hx Hl]. simpl.
  destruct (bool_decide (c = col)); simpl; [by apply IH|].
  rewrite wf_cons, Hx. by apply IH.
Qed.

Lemma wf_to_numeric (s : series) :
  wf_series s = true -> wf_series (Pandas.to_numeric s) = true.
Proof.
  unfold Pandas.to_numeric. destruct s as [d vs]. destruct d; try done.
  intros _. unfold wf_series. simpl. apply forallb_forall.
  intros v Hv%list_elem_of_In%list_elem_of_fmap. destruct Hv as (x & -> & _).
  destruct x as [|q|b|t]; simpl; try done. by destruct (parse_number t).
Qed.

Lemma wf_fillna (fill : value) (s : series) :
  wf_series s = true -> wf_series (Cleaner.fillna fill s) = true.
Proof.
  intros Hwf. unfold Cleaner.fillna.
  destruct (existsb Pandas.is_null (s_values s)) eqn:Hnull; simpl.
  - destruct (value_fits (s_dtype s) fill) eqn:Hfit; simpl.
    + unfold wf_series in *. simpl. rewrite forallb_forall in *.
      intros v Hv%list_elem_of_In%list_elem_of_fmap. destruct Hv as (x & -> & Hx).
      destruct (Pandas.is_null x); [done|]. by apply Hwf, list_elem_of_In.
    + unfold wf_series. simpl. by apply forallb_forall.
  - unfold wf_series in *. simpl. rewrite forallb_forall in *.
    intros v Hv%list_elem_of_In%list_elem_of_fmap. destruct Hv as (x & -> & Hx).
    destruct (Pandas.is_null x) eqn:Hxn; [|by apply Hwf, list_elem_of_In].
    assert (existsb Pandas.is_null (s_values s) = true); [|congruence].
    apply existsb_exists. exists x. split; [by apply list_elem_of_In|done].
Qed.

Lemma len_fillna (fill : value) (s : series) :
  Pandas.len (Cleaner.fillna fill s) = Pandas.len s.
Proof.
  unfold Pandas.len. rewrite fillna_values. simpl. by rewrite length_fmap.
Qed.

Lemma wf_str_map (f : string -> string) (s : series) :
  wf_series (Pandas.str_map f s) = true.
Proof. unfold wf_series. simpl. by apply forallb_forall. Qed.

Lemma len_str_map (f : string -> string) (s : series) :
  Pandas.len (Pandas.str_map f s) = Pandas.len s.
Proof. unfold Pandas.len. simpl. by rewrite length_fmap. Qed.

Lemma len_astype_str (s : series) :
  Pandas.len (Pandas.astype_str s) = Pandas.len s.
Proof. unfold Pandas.len. simpl. by rewrite length_fmap. Qed.



End WellFormed.

Section Rerun.
Context `{Coercions}.


End Rerun.



(** The two actions on the two columns of the sample table, run once and
    run again. *)
Example people_cleaned :
  let actions := [Sample.strip_name; Sample.convert_age] in
  Forall (fun a => Spec.keeps_rows a = true) actions
  /\ NoDup (omap column actions)
  /\ (@apply_cleaning_actions Sample.integer_cells Sample.people actions).1
     = Frame 2 [("name", Series object [VStr "ann"; VStr "Bob"]);
                ("age", Series float64 [Sample.num 41; VNull])].
Proof.
  split; [by repeat constructor|]. split; by_compute.
Qed.

(** ** References to columns a table does not have *)

Section StaleReferences.
Context `{Coercions}.

Lemma get_none (df : DataFrame) (col : string) :
  Frames.get df col = None <-> col ∉ Frames.columns df.
Proof.
  destruct df as [n l]. unfold Frames.columns. simpl.
  induction l as [|[c x] l IH]; simpl.
  - split; [intros _; apply not_elem_of_nil|done].
  - rewrite get_cons, not_elem_of_cons. case_bool_decide as Hc.
    + split; [done|]. intros [Hne _]. by destruct Hne.
    + rewrite IH. split; [by split|by intros [_ ?]].
Qed.

(** The executor skips an action on a column the table does not have:
    table and log stay as they are. *)
Lemma apply_action_stale_column (df : DataFrame) (log : list string)
    (a : action) (col : string) :
  act a ≠ "remove_duplicates" -> column a = Some col ->
  col ∉ Frames.columns df ->
  apply_action (df, log) a = (df, log).
Proof.
  intros Hact Hcol Hstale%get_none. unfold apply_action.
  rewrite (bool_decide_eq_false_2 _ Hact).
  by rewrite (column_of_none df a col Hcol Hstale).
Qed.

(** Once a loop has raised, the exception goes through the rest of it. *)
Lemma foldl_bind_raise {A B} (f : A -> B -> result A) (e : exception)
    (l : list B) :
  foldl (fun acc x => bind acc (fun a => f a x)) (Raise e) l = Raise e.
Proof. induction l as [|x l IH]; [done|]. exact IH. Qed.

(** The filter options skip a column the table does not have. *)
Lemma filter_options_stale_column (df : DataFrame) (col : string)
    (categorical_columns numeric_columns : list string) :
  col ∉ Frames.columns df ->
  get_dynamic_filter_options df (col :: categorical_columns) numeric_columns
  = get_dynamic_filter_options df categorical_columns numeric_columns.
Proof.
  intros Hstale%get_none. unfold get_dynamic_filter_options.
  cbn [foldl bind]. by rewrite Hstale.
Qed.

(** The filters do not: a non-empty selection for a column the table does
    not have makes [filtered[col]] raise [KeyError]. *)
Lemma apply_filters_stale_column (df : DataFrame)
    (filters : gmap string (list value)) (col : string)
    (v : value) (selected : list value)
    (categorical_columns numeric_columns : list string) :
  col ∉ Frames.columns df ->
  filters !! col = Some (v :: selected) ->
  apply_dynamic_filters df filters (col :: categorical_columns) numeric_columns
  = Raise (KeyError col).
Proof.
  intros Hstale%get_none Hsel. unfold apply_dynamic_filters.
  cbn [foldl bind]. rewrite Hsel, Hstale.
  by rewrite !foldl_bind_raise.
Qed.

End StaleReferences.

(** C2, at the failing input: the table has the one column [a], the
    selection names the categorical column [b], and the call raises
    [KeyError] instead of skipping the column. *)
Theorem apply_filters_key_error :
  ("b" ∉ Frames.columns Sample.one_column)
  /\ @apply_dynamic_filters Sample.integer_cells Sample.one_column
       Sample.stale_selection ["b"] []
     = Raise (KeyError "b").
Proof. split; [by_compute|]. vm_compute. reflexivity. Qed.

(** ** Scenarios *)

(** The whitespace and case scenario, from the profile to the cleaned
    table: the two issues are found, the plan strips before it standardizes
    the case, and the values come out as [A] and [B].  The last row repeats
    the second, so the plan opens with the removal of duplicates. *)
Example categories_issues :
  (fun p => (p.1, type p.2))
    <$> p_issues (@profile_dataset Sample.integer_cells Sample.categories)
  = [("cat", whitespace); ("cat", case_inconsistency)].
Proof. vm_compute. reflexivity. Qed.

Example categories_plan :
  Spec.entry_of
    <$> generate_cleaning_plan
          (@profile_dataset Sample.integer_cells Sample.categories)
  = [("remove_duplicates", None, None, true);
     ("strip_whitespace", Some "cat", None, true);
     ("standardize_case", Some "cat", None, true)].
Proof. vm_compute. reflexivity. Qed.

Example categories_cleaned :
  @apply_cleaning_actions Sample.integer_cells Sample.categories
    (generate_cleaning_plan
       (@profile_dataset Sample.integer_cells Sample.categories))
  = (Frame 3 [("cat", Series object [VStr "A"; VStr "B"; VStr "B"])],
     ["Removed 1 duplicate rows"; "Stripped whitespace from 'cat'";
      "Standardized casing in 'cat' to title case"]).
Proof. vm_compute. reflexivity. Qed.

(** The duplicate scenario on four rows: one duplicate row, a quarter of
    the rows; the plan is the removal of duplicates, selected by default,
    and three rows are left. *)
Example repeated_profile :
  let p := @profile_dataset Sample.integer_cells Sample.repeated in
  duplicate_rows p = 1%nat
  /\ duplicate_pct p = Qc_of_Z 25
  /\ generate_cleaning_plan p
     = [Action "remove_duplicates" None None "Remove 1 duplicate rows"
          "Reduces dataset from 4 to 3 rows" true].
Proof. repeat split; by_compute || (vm_compute; reflexivity). Qed.

Example repeated_cleaned :
  let cleaned :=
    @apply_cleaning_actions Sample.integer_cells Sample.repeated
      (generate_cleaning_plan
         (@profile_dataset Sample.integer_cells Sample.repeated)) in
  df_len cleaned.1 = 3%nat /\ cleaned.2 = ["Removed 1 duplicate rows"].
Proof. split; vm_compute; reflexivity. Qed.

(** An empty plan leaves the table as it is and logs nothing. *)
Example empty_plan (C : Coercions) (df : DataFrame) :
  apply_cleaning_actions df [] = (df, []).
Proof. reflexivity. Qed.

(** * Further properties *)

Import Shape.

(** ** Arithmetic on exact rationals *)

Lemma Qc_eq_iff (x y : Qc) : x = y <-> (this x == this y)%Q.
Proof. split; [by intros ->|apply Qc_is_canon]. Qed.

(** Turns a goal on [Qc] into the same goal on [Q], where [lra] works. *)
Ltac qc_to_q :=
  repeat match goal with
         | H : @eq Qc _ _ |- _ => apply Qc_eq_iff in H
         | H : ~ @eq Qc _ _ |- _ => rewrite Qc_eq_iff in H
         | |- @eq Qc _ _ => apply Qc_eq_iff
         | |- ~ @eq Qc _ _ => rewrite Qc_eq_iff
         end;
  unfold Qcdiv, Qcminus, Qcle, Qclt, Qcplus, Qcopp, Qcmult, Qcinv, Q2Qc in *;
  cbn [this] in *;
  rewrite ?Qred_correct in *.

Section Rounding.

Lemma floor_le (x : Qc) : Qc_of_Z (Qfloor x) ≤ x.
Proof. unfold Qc_of_Z. qc_to_q. apply Qfloor_le. Qed.

Lemma lt_floor (x : Qc) : x < Qc_of_Z (Qfloor x) + 1.
Proof.
  rewrite <- Z2Qc_inj_1, <- Z2Qc_inj_add.
  unfold Qc_of_Z. qc_to_q. apply Qlt_floor.
Qed.

Lemma floor_mono (x y : Qc) : x ≤ y -> (Qfloor x ≤ Qfloor y)%Z.
Proof. intros Hxy. by apply Qfloor_resp_le. Qed.

Lemma round_half_even_pos (x : Qc) :
  0 ≤ x -> (0 < PyFmt.round_half_even x)%Z <-> Pandas.half < x.
Proof.
  intros Hx. unfold PyFmt.round_half_even.
  pose proof (floor_le x) as Hlo. pose proof (lt_floor x) as Hhi.
  assert (0 ≤ Qfloor x)%Z as Hfl.
  { assert (Qc_of_Z (-1) < Qc_of_Z (Qfloor x)) as Hc.
    { replace (Qc_of_Z (-1)) with (0 - 1) by by_compute.
      revert Hx Hhi. generalize (Qc_of_Z (Qfloor x)). intros f. intros.
      qc_to_q. lra. }
    rewrite <- Z2Qc_inj_lt in Hc. lia. }
  destruct (decide (Qfloor x = 0%Z)) as [Hz|Hz].
  - rewrite Hz in *. rewrite Z2Qc_inj_0 in *. cbn [Z.even].
    unfold Pandas.half in *.
    repeat case_bool_decide; (split; [try lia|try done]); intros; qc_to_q; lra.
  - assert (1 ≤ Qc_of_Z (Qfloor x)) as Hf.
    { rewrite <- Z2Qc_inj_1, <- Z2Qc_inj_le. lia. }
    split.
    + intros _. unfold Pandas.half. revert Hlo Hf.
      generalize (Qc_of_Z (Qfloor x)). intros f. intros. qc_to_q. lra.
    + intros _. repeat case_bool_decide; try destruct (Z.even _); lia.
Qed.

Lemma round_half_even_bounds (x : Qc) :
  (Qfloor x ≤ PyFmt.round_half_even x ≤ Qfloor x + 1)%Z.
Proof.
  unfold PyFmt.round_half_even.
  repeat case_bool_decide; try destruct (Z.even _); lia.
Qed.

(** Rounding to the nearest integer keeps the order. *)
Lemma round_half_even_mono (x y : Qc) :
  x ≤ y -> (PyFmt.round_half_even x ≤ PyFmt.round_half_even y)%Z.
Proof.
  intros Hxy. pose proof (floor_mono x y Hxy) as Hfl.
  destruct (decide (Qfloor x = Qfloor y)) as [Heq|Hne].
  - unfold PyFmt.round_half_even. rewrite <- Heq.
    revert Hxy. generalize (Qc_of_Z (Qfloor x)). intros f Hxy.
    unfold Pandas.half.
    repeat case_bool_decide; try destruct (Z.even _); try lia;
      exfalso; qc_to_q; lra.
  - pose proof (round_half_even_bounds x). pose proof (round_half_even_bounds y).
    lia.
Qed.

Lemma pow10_pos (d : nat) : 0 < Qc_of_Z (PyFmt.pow10 d).
Proof.
  rewrite <- Z2Qc_inj_0, <- Z2Qc_inj_lt. unfold PyFmt.pow10.
  apply Z.pow_pos_nonneg; lia.
Qed.

Lemma Qc_div_le_mono (x y p : Qc) : 0 < p -> x ≤ y -> x / p ≤ y / p.
Proof.
  intros Hp Hxy. unfold Qcdiv. apply Qcmult_le_compat_r; [done|].
  apply Qclt_le_weak. by apply Qcinv_pos.
Qed.

(** [round(x, d)] keeps the order. *)
Lemma round_mono (d : nat) (x y : Qc) :
  x ≤ y -> PyFmt.round d x ≤ PyFmt.round d y.
Proof.
  intros Hxy. unfold PyFmt.round.
  apply Qc_div_le_mono; [apply pow10_pos|].
  rewrite <- Z2Qc_inj_le. apply round_half_even_mono.
  apply Qcmult_le_compat_r; [done|]. apply Qclt_le_weak, pow10_pos.
Qed.

Lemma Qc_div_pos (x p : Qc) : 0 < p -> 0 < x / p <-> 0 < x.
Proof.
  intros Hp.
  rewrite (Qcmult_lt_mono_pos_r 0 (x / p) p Hp).
  rewrite Qc_div_mul_cancel by done. by rewrite Qcmult_0_l.
Qed.

(** A number that is not negative rounds to a positive number of two
    decimals when it is above 0.005. *)
Lemma round2_pos (y : Qc) :
  0 ≤ y -> 0 < PyFmt.round 2 y <-> Q2Qc (1 # 200) < y.
Proof.
  intros Hy. unfold PyFmt.round.
  rewrite (Qc_div_pos _ _ (pow10_pos 2)).
  rewrite <- Z2Qc_inj_0, <- Z2Qc_inj_lt.
  rewrite round_half_even_pos.
  - change (Qc_of_Z (PyFmt.pow10 2)) with (Qc_of_Z 100). unfold Pandas.half.
    replace (Qc_of_Z 100) with (Q2Qc 100) by by_compute.
    split; intros; qc_to_q; lra.
  - change (Qc_of_Z (PyFmt.pow10 2)) with (Qc_of_Z 100).
    replace (Qc_of_Z 100) with (Q2Qc 100) by by_compute.
    qc_to_q. lra.
Qed.

End Rounding.

(** ** Grade bands and separators *)

Section Bands.

Lemma ge_nan_Z (g c : Z) :
  Utils.ge_nan (Some (Qc_of_Z g)) (Qc_of_Z c) = bool_decide (c ≤ g)%Z.
Proof.
  unfold Utils.ge_nan. apply bool_decide_ext. symmetry. apply Z2Qc_inj_le.
Qed.

Lemma band_of_Z (g : Z) :
  Utils.assign_performance_band (Some (Qc_of_Z g))
  = if bool_decide (90 ≤ g)%Z then "A"
    else if bool_decide (80 ≤ g)%Z then "B"
    else if bool_decide (70 ≤ g)%Z then "C"
    else if bool_decide (50 ≤ g)%Z then "D"
    else "F".
Proof. unfold Utils.assign_performance_band. by rewrite !ge_nan_Z. Qed.

End Bands.

(** The band function and the table of bands agree on the whole grades
    from 0 to 100: a grade is given the band [b] exactly when it lies
    between the two ends the table lists for [b]. *)
Theorem band_agrees_with_table (g : Z) (b : string) (lo hi : Z) :
  (0 ≤ g ≤ 100)%Z ->
  (b, (lo, hi)) ∈ Utils.PERFORMANCE_BANDS ->
  Utils.assign_performance_band (Some (Qc_of_Z g)) = b <-> (lo ≤ g ≤ hi)%Z.
Proof.
  intros Hg Hin. rewrite band_of_Z. unfold Utils.PERFORMANCE_BANDS in Hin.
  repeat (apply elem_of_cons in Hin as [Hin|Hin]; [simplify_eq|]);
    [..|by apply elem_of_nil in Hin];
    repeat case_bool_decide; split; intros; try lia; try done.
Qed.

Lemma band_agrees_with_table_witness :
  Utils.assign_performance_band (Some (Qc_of_Z 89)) = "B" <-> (80 ≤ 89 ≤ 89)%Z.
Proof.
  apply (band_agrees_with_table 89 "B" 80 89); [lia|].
  unfold Utils.PERFORMANCE_BANDS. apply elem_of_cons. right.
  apply elem_of_cons. by left.
Defined.

(** A higher grade never gets a worse band: the band of the higher of two
    grades stands at the same place of the table or before.  A grade that
    is NaN gets the last band. *)
Theorem band_monotone (g1 g2 : Qc) :
  g1 ≤ g2 ->
  exists n1 n2 : nat,
    Utils.band_place (Utils.assign_performance_band (Some g1)) = Some n1
    /\ Utils.band_place (Utils.assign_performance_band (Some g2)) = Some n2
    /\ (n2 <= n1)%nat
    /\ Utils.band_place (Utils.assign_performance_band None) = Some 4%nat.
Proof.
  intros Hle. unfold Utils.assign_performance_band, Utils.ge_nan.
  repeat case_bool_decide;
    try (exfalso;
         match goal with
         | H : ¬ (?c ≤ g2), H' : ?c ≤ g1 |- _ =>
             apply H; by apply (Qcle_trans _ g1)
         end);
    do 2 eexists;
    (split; [reflexivity|split; [reflexivity|split; [simpl; lia|reflexivity]]]).
Qed.

Lemma band_monotone_witness :
  exists n1 n2 : nat,
    Utils.band_place (Utils.assign_performance_band (Some (Qc_of_Z 75))) = Some n1
    /\ Utils.band_place (Utils.assign_performance_band (Some (Qc_of_Z 95))) = Some n2
    /\ (n2 <= n1)%nat
    /\ Utils.band_place (Utils.assign_performance_band None) = Some 4%nat.
Proof. apply (band_monotone (Qc_of_Z 75) (Qc_of_Z 95)). by_compute. Defined.

Section Separator.

Lemma contains_char_cons (a c : ascii) (l : string) :
  PyStr.contains (String a EmptyString) (String c l)
  = bool_decide (a = c) || PyStr.contains (String a EmptyString) l.
Proof.
  cbn [PyStr.contains PyStr.starts_with]. f_equal.
  destruct l; by rewrite andb_true_r.
Qed.

Lemma first_line_app (l rest : string) :
  PyStr.contains (String Loader.line_feed EmptyString) l = false ->
  Loader.first_line (l +:+ String Loader.line_feed rest) = l.
Proof.
  induction l as [|c l IH].
  - intros _. reflexivity.
  - rewrite contains_char_cons. intros [Hc Hl]%orb_false_iff.
    apply bool_decide_eq_false in Hc.
    change (String c l +:+ String Loader.line_feed rest)
      with (String c (l +:+ String Loader.line_feed rest)).
    cbn [Loader.first_line]. rewrite bool_decide_eq_false_2 by congruence.
    f_equal. by apply IH.
Qed.

Lemma first_line_whole (l : string) :
  PyStr.contains (String Loader.line_feed EmptyString) l = false ->
  Loader.first_line l = l.
Proof.
  induction l as [|c l IH]; [done|].
  rewrite contains_char_cons. intros [Hc Hl]%orb_false_iff.
  apply bool_decide_eq_false in Hc.
  cbn [Loader.first_line]. rewrite bool_decide_eq_false_2 by congruence.
  f_equal. by apply IH.
Qed.

End Separator.

(** Only the first line of the content is looked at: whatever follows the
    first line feed never changes the separator. *)
Theorem detect_separator_first_line (l rest : string) :
  PyStr.contains (String Loader.line_feed EmptyString) l = false ->
  Loader.detect_separator (l +:+ String Loader.line_feed rest)
  = Loader.detect_separator l.
Proof.
  intros Hl. unfold Loader.detect_separator.
  by rewrite (first_line_app l rest Hl), (first_line_whole l Hl).
Qed.

Lemma detect_separator_first_line_witness :
  Loader.detect_separator ("a;b" +:+ String Loader.line_feed "1,2;3")
  = Loader.detect_separator "a;b".
Proof. apply (detect_separator_first_line "a;b" "1,2;3"). reflexivity. Defined.

(** The separator is the first of the four candidates, tried in the order
    comma, semicolon, tab, bar, that occurs in the first line, and the
    comma when none of them occurs. *)
Theorem detect_separator_first_candidate (content : string) :
  let line := Loader.first_line content in
  let sep := Loader.detect_separator content in
  exists before after : list string,
    Loader.separators = before ++ sep :: after
    /\ Forall (fun c => PyStr.contains c line = false) before
    /\ (PyStr.contains sep line = true
        \/ (sep = "," /\ Forall (fun c => PyStr.contains c line = false)
                          Loader.separators)).
Proof.
  intros line sep. subst sep. unfold Loader.detect_separator.
  fold line. unfold Loader.separators. simpl.
  destruct (PyStr.contains "," line) eqn:E1.
  { exists [], [";"; String Loader.tab EmptyString; "|"]. simpl. auto. }
  destruct (PyStr.contains ";" line) eqn:E2.
  { exists [","], [String Loader.tab EmptyString; "|"]. simpl.
    repeat split; auto. }
  destruct (PyStr.contains (String Loader.tab EmptyString) line) eqn:E3.
  { exists [","; ";"], ["|"]. simpl. repeat split; auto. }
  destruct (PyStr.contains "|" line) eqn:E4.
  { exists [","; ";"; String Loader.tab EmptyString], []. simpl.
    repeat split; auto. }
  exists [], [";"; String Loader.tab EmptyString; "|"]. simpl.
  repeat split; auto. right. split; [done|]. repeat constructor; done.
Qed.

(** ** What the inferred type depends on *)

Section InferenceOrder.
Context `{Coercions}.

Lemma filter_Permutation {A} (f : A -> bool) (l k : list A) :
  l ≡ₚ k -> List.filter f l ≡ₚ List.filter f k.
Proof.
  induction 1 as [|x l k _ IH|x y l|l k m _ IH1 _ IH2]; simpl.
  - done.
  - destruct (f x); [by constructor|done].
  - destruct (f x), (f y); try done. apply perm_swap.
  - by etrans.
Qed.

Lemma mean_mask_Permutation (m1 m2 : list bool) :
  m1 ≡ₚ m2 -> Pandas.mean_mask m1 = Pandas.mean_mask m2.
Proof.
  intros Hp. unfold Pandas.mean_mask, Pandas.sum_mask.
  pose proof (Permutation_length Hp) as Hlen.
  pose proof (Permutation_length (filter_Permutation id _ _ Hp)) as Hsum.
  destruct m1 as [|a m1], m2 as [|b m2]; try done.
  by rewrite Hlen, Hsum.
Qed.

Lemma forallb_Permutation {A} (f : A -> bool) (l k : list A) :
  l ≡ₚ k -> forallb f l = forallb f k.
Proof.
  induction 1 as [|x l k _ IH|x y l|l k m _ IH1 _ IH2]; simpl.
  - done.
  - by rewrite IH.
  - by rewrite !andb_assoc, (andb_comm (f y)).
  - by etrans.
Qed.

(** A test that holds of the distinct elements holds of all. *)
Lemma forallb_unique_go {A} `{EqDecision A} (f : A -> bool) (seen l : list A) :
  forallb f seen = true ->
  forallb f (Pandas.unique_go seen l) = forallb f l.
Proof.
  revert seen. induction l as [|x l IH]; intros seen Hseen; [done|]. simpl.
  case_bool_decide as Hx.
  - rewrite IH by done.
    rewrite forallb_forall in Hseen.
    rewrite (Hseen x) by (by apply list_elem_of_In). done.
  - simpl. destruct (f x) eqn:Hfx; [|done]. simpl.
    apply IH. simpl. by rewrite Hfx.
Qed.

Lemma all_in_unique (tokens : list string) (s : series) :
  all_in tokens (Pandas.unique s) = all_in tokens (s_values s).
Proof. unfold all_in, Pandas.unique. by apply forallb_unique_go. Qed.

Lemma infer_of_values (s : series) :
  _infer_semantic_type s
  = let l := List.filter Pandas.notna_value (s_values s) in
    if is_native_numeric (s_dtype s) then Numeric
    else if Pandas.gt_nan
              (Pandas.mean_mask
                 (Pandas.notna_value
                    <$> s_values (Pandas.to_numeric (Series (s_dtype s) l))))
              eight_tenths
    then Numeric
    else if Pandas.gt_nan
              (Pandas.mean_mask
                 (omap id ((fun v => Some (PyStr.match_date (Pandas.str_value v)))
                             <$> l)))
              eight_tenths
    then Datetime
    else if all_in boolean_tokens
              ((fun v => VStr (PyStr.lower (Pandas.str_value v))) <$> l)
    then Boolean
    else Categorical.
Proof.
  unfold _infer_semantic_type. rewrite all_in_unique.
  unfold Pandas.mean_skipna, Pandas.str_match_date, Pandas.astype_str,
    Pandas.str_lower, Pandas.str_map, Pandas.dropna, Pandas.notna.
  cbn [s_values s_dtype]. rewrite <- !list_fmap_compose. done.
Qed.

End InferenceOrder.

(** The inferred type of a column depends on its storage type and on its
    non-null cells only, whatever their order: two columns of one storage
    type whose non-null cells are the same up to their order are inferred
    the same type. *)
Theorem infer_ignores_nulls_and_order `{Coercions} (s1 s2 : series) :
  s_dtype s1 = s_dtype s2 ->
  s_values (Pandas.dropna s1) ≡ₚ s_values (Pandas.dropna s2) ->
  _infer_semantic_type s1 = _infer_semantic_type s2.
Proof.
  intros Hd Hp. rewrite !infer_of_values. cbn zeta.
  rewrite <- Hd. unfold Pandas.dropna in Hp. cbn [s_values] in Hp.
  set (l1 := List.filter Pandas.notna_value (s_values s1)) in *.
  set (l2 := List.filter Pandas.notna_value (s_values s2)) in *.
  clearbody l1 l2.
  assert (Pandas.mean_mask
            (Pandas.notna_value
               <$> s_values (Pandas.to_numeric (Series (s_dtype s1) l1)))
          = Pandas.mean_mask
              (Pandas.notna_value
                 <$> s_values (Pandas.to_numeric (Series (s_dtype s1) l2)))) as ->.
  { apply mean_mask_Permutation. apply fmap_Permutation.
    unfold Pandas.to_numeric. cbn [s_dtype s_values].
    destruct (s_dtype s1); cbn [s_values]; try done.
    by apply fmap_Permutation. }
  assert (Pandas.mean_mask
            (omap id ((fun v => Some (PyStr.match_date (Pandas.str_value v)))
                        <$> l1))
          = Pandas.mean_mask
              (omap id ((fun v => Some (PyStr.match_date (Pandas.str_value v)))
                          <$> l2))) as ->.
  { apply mean_mask_Permutation. apply omap_Permutation.
    by apply fmap_Permutation. }
  assert (all_in boolean_tokens
            ((fun v => VStr (PyStr.lower (Pandas.str_value v))) <$> l1)
          = all_in boolean_tokens
              ((fun v => VStr (PyStr.lower (Pandas.str_value v))) <$> l2)) as ->.
  { apply forallb_Permutation. by apply fmap_Permutation. }
  done.
Qed.

Lemma infer_ignores_nulls_and_order_witness :
  @_infer_semantic_type Sample.integer_cells
    (Series object [VStr "yes"; VNull; VStr "no"])
  = @_infer_semantic_type Sample.integer_cells
      (Series object [VStr "no"; VStr "yes"]).
Proof.
  apply (@infer_ignores_nulls_and_order Sample.integer_cells
           (Series object [VStr "yes"; VNull; VStr "no"])
           (Series object [VStr "no"; VStr "yes"])); [reflexivity|].
  apply perm_swap.
Defined.

(** A column of boolean storage type that has a row is inferred [Numeric],
    not [Boolean]: its storage type is not in the list of numeric storage
    types, but [pd.to_numeric] leaves it as it is and none of its cells is
    missing. *)
Theorem infer_bool_column_numeric `{Coercions} (s : series) :
  s_dtype s = bool_ -> wf_series s = true -> s_values s ≠ [] ->
  _infer_semantic_type s = Numeric.
Proof.
  intros Hd Hwf Hne. unfold _infer_semantic_type. rewrite Hd. cbn [is_native_numeric].
  assert (Pandas.gt_nan
            (Pandas.mean_mask (Pandas.notna (Pandas.to_numeric (Pandas.dropna s))))
            eight_tenths = true) as ->; [|done].
  apply mean_mask_gt_08.
  unfold Pandas.to_numeric, Pandas.dropna, Pandas.notna. cbn [s_dtype s_values].
  rewrite Hd. cbn [s_values]. rewrite sum_mask_notna, filter_notna_idemp, length_fmap.
  unfold wf_series in Hwf. rewrite Hd in Hwf.
  destruct (s_values s) as [|v vs]; [done|].
  assert (List.filter Pandas.notna_value (v :: vs) = v :: vs) as ->.
  { clear Hne. induction (v :: vs) as [|x l IH]; [done|].
    simpl in Hwf. apply andb_true_iff in Hwf as [Hx Hl].
    destruct x; try done. simpl. by rewrite IH. }
  simpl. lia.
Qed.

Lemma infer_bool_column_numeric_witness :
  @_infer_semantic_type Sample.integer_cells
    (Series bool_ [VBool true; VBool false]) = Numeric.
Proof.
  apply (@infer_bool_column_numeric Sample.integer_cells
           (Series bool_ [VBool true; VBool false])); [reflexivity|reflexivity|].
  discriminate.
Defined.

(** ** The profile of a column *)

Section ColumnProfile.
Context `{Coercions}.

(** Decides that a literal list is a subsequence of another. *)
Ltac literal_sublist :=
  cbn; repeat first [apply sublist_nil | apply sublist_skip | apply sublist_cons].

Lemma numeric_checks_issues (s : series) (l : list issue) :
  exists extra,
    (numeric_checks s l).2 = l ++ extra
    /\ sublist (type <$> extra) [outliers; negative_values].
Proof.
  unfold numeric_checks.
  destruct (0 <? Pandas.len _)%nat;
    [|exists []; split; [by rewrite app_nil_r|literal_sublist]].
  destruct (_ && _ && _); cbn [snd];
    destruct (match Pandas.smin _ with Some _ => _ | None => _ end);
    rewrite <- ?app_assoc;
    first [eexists; split; [reflexivity|literal_sublist]
          |exists []; split; [by rewrite app_nil_r|literal_sublist]].
Qed.

Lemma categorical_checks_issues (s : series) (n : nat) (pct : Qc)
    (l : list issue) :
  exists extra,
    (categorical_checks s n pct l).2 = l ++ extra
    /\ sublist (type <$> extra)
         [high_cardinality; whitespace; case_inconsistency].
Proof.
  unfold categorical_checks. cbn [snd].
  destruct (Pandas.nunique _ <? Pandas.nunique _)%nat;
    destruct (0 <? Pandas.count_changed _ _)%nat;
    destruct (_ && _);
    rewrite <- ?app_assoc;
    first [eexists; split; [reflexivity|literal_sublist]
          |exists []; split; [by rewrite app_nil_r|literal_sublist]].
Qed.

(** The rounded percentage of missing cells, NaN on the column without
    rows. *)
Lemma profile_column_fields (s : series) :
  let info := _profile_column s in
  dtype_name info = s_dtype s
  /\ non_null info = Pandas.count s
  /\ null_count info = Pandas.sum_mask (Pandas.isnull s)
  /\ null_pct info
     = ((fun m => PyFmt.round 2 (m * hundred))
          <$> Pandas.mean_mask (Pandas.isnull s))
  /\ unique_count info = Pandas.nunique s
  /\ sample_values info = Pandas.head 5 (Pandas.dropna s)
  /\ inferred_type info = _infer_semantic_type s.
Proof.
  unfold _profile_column.
  destruct (bool_decide (_infer_semantic_type s = Numeric));
    [destruct (numeric_checks _ _)
    |destruct (bool_decide (_infer_semantic_type s = Categorical));
       [destruct (categorical_checks _ _ _ _)|]];
    cbn; done.
Qed.

(** The issues of a column: the missing-values issue, then the issues of
    the block of the inferred type, then the constant issue. *)
Lemma profile_column_issues (s : series) :
  exists sev d f middle d' f',
    issues (_profile_column s)
    = (if Pandas.gt_nan
            ((fun m => PyFmt.round 2 (m * hundred))
               <$> Pandas.mean_mask (Pandas.isnull s)) 0
       then [Issue missing_values sev d f] else [])
      ++ middle
      ++ (if (Pandas.nunique s <=? 1)%nat && (0 <? Pandas.count s)%nat
          then [Issue constant medium d' f'] else [])
    /\ sublist (type <$> middle)
         (match _infer_semantic_type s with
          | Numeric => [outliers; negative_values]
          | Categorical => [high_cardinality; whitespace; case_inconsistency]
          | _ => []
          end).
Proof.
  unfold _profile_column.
  set (pct := (fun m => PyFmt.round 2 (m * hundred))
                <$> Pandas.mean_mask (Pandas.isnull s)).
  set (l0 := if Pandas.gt_nan pct 0 then _ else _).
  assert (Hl0 : exists sev d f,
            l0 = if Pandas.gt_nan pct 0 then [Issue missing_values sev d f] else []).
  { unfold l0. destruct (Pandas.gt_nan pct 0); [|by exists low, "", ""].
    by eexists _, _, _. }
  destruct Hl0 as (sev & d & f & Hl0). clearbody l0.
  exists sev, d, f. rewrite <- Hl0.
  case_bool_decide as Hnum.
  - rewrite Hnum.
    destruct (numeric_checks_issues s l0) as (extra & Hx & Hsub).
    destruct (numeric_checks s l0) as [st l1]. cbn [snd] in Hx. subst l1.
    cbn [issues]. exists extra. eexists _, _.
    split; [|exact Hsub].
    destruct (_ && _); rewrite <- ?app_assoc; [reflexivity|].
    by rewrite !app_nil_r.
  - case_bool_decide as Hcat.
    + rewrite Hcat.
      match goal with
      | |- context [categorical_checks s ?n ?p l0] =>
          destruct (categorical_checks_issues s n p l0) as (extra & Hx & Hsub);
          destruct (categorical_checks s n p l0) as [top l1]
      end.
      cbn [snd] in Hx. subst l1.
      cbn [issues]. exists extra. eexists _, _.
      split; [|exact Hsub].
      destruct (_ && _); rewrite <- ?app_assoc; [reflexivity|].
      by rewrite !app_nil_r.
    + cbn [issues]. exists []. eexists _, _.
      split; [|destruct (_infer_semantic_type s); done || apply sublist_nil_l].
      destruct (_ && _); [reflexivity|]. by rewrite !app_nil_r.
Qed.

End ColumnProfile.

(** The issue types of a column come in the order in which the profiler
    tests them, each at most once, and only those of the block of the
    inferred type: a numeric column gets no text issue, a categorical
    column no outlier or negative-values issue, and a date or boolean
    column none but the missing-values and the constant issue. *)
Theorem profile_issue_types `{Coercions} (s : series) :
  let info := _profile_column s in
  sublist (type <$> issues info) (Shape.possible_issues (inferred_type info)).
Proof.
  intros info. subst info.
  destruct (profile_column_fields s) as (_ & _ & _ & _ & _ & _ & ->).
  destruct (profile_column_issues s) as (sev & d & f & middle & d' & f' & -> & Hsub).
  rewrite !fmap_app.
  assert (Shape.possible_issues (_infer_semantic_type s)
          = [missing_values]
            ++ (match _infer_semantic_type s with
                | Numeric => [outliers; negative_values]
                | Categorical =>
                    [high_cardinality; whitespace; case_inconsistency]
                | _ => []
                end)
            ++ [constant]) as ->.
  { by destruct (_infer_semantic_type s). }
  apply sublist_app; [|apply sublist_app; [exact Hsub|]].
  - destruct (Pandas.gt_nan _ 0); cbn;
      repeat first [apply sublist_nil | apply sublist_skip | apply sublist_cons].
  - destruct (_ && _); cbn;
      repeat first [apply sublist_nil | apply sublist_skip | apply sublist_cons].
Qed.

Section MissingIssue.
Context `{Coercions}.

Lemma sum_mask_le (m : list bool) : (Pandas.sum_mask m <= length m)%nat.
Proof. unfold Pandas.sum_mask. apply filter_length_le. Qed.

Lemma Qc_of_nat_nonneg (n : nat) : 0 ≤ Pandas.Qc_of_nat n.
Proof.
  unfold Pandas.Qc_of_nat. rewrite <- Z2Qc_inj_0, <- Z2Qc_inj_le. lia.
Qed.

Lemma ratio_nonneg (k n : nat) :
  (0 < n)%nat -> 0 ≤ Pandas.Qc_of_nat k / Pandas.Qc_of_nat n.
Proof.
  intros Hn. unfold Qcdiv. apply Qcmult_nonneg_nonneg; [apply Qc_of_nat_nonneg|].
  apply Qclt_le_weak, Qcinv_pos. by apply Qc_of_nat_pos.
Qed.

(** In exact arithmetic, the rounded percentage of a mask is positive
    when more than one cell in 20000 is set. *)
Lemma rounded_pct_pos (m : list bool) :
  Pandas.gt_nan
    ((fun x => PyFmt.round 2 (x * hundred)) <$> Pandas.mean_mask m) 0 = true
  <-> (Z.of_nat (length m) < 20000 * Z.of_nat (Pandas.sum_mask m))%Z.
Proof.
  destruct m as [|b m].
  - cbn. split; [done|]. unfold Pandas.sum_mask. cbn. lia.
  - unfold Pandas.mean_mask. cbn [fmap option_fmap option_map Pandas.gt_nan].
    set (k := Pandas.sum_mask (b :: m)). set (n := length (b :: m)).
    assert (0 < n)%nat as Hn by (unfold n; simpl; lia).
    pose proof (ratio_nonneg k n Hn) as Hr.
    rewrite bool_decide_eq_true, round2_pos.
    + transitivity (Q2Qc (1 # 20000) < Pandas.Qc_of_nat k / Pandas.Qc_of_nat n);
        [|rewrite (const_lt_ratio (Q2Qc (1 # 20000)) 1 20000 k n);
            [lia|lia|by_compute|done]].
      revert Hr. generalize (Pandas.Qc_of_nat k / Pandas.Qc_of_nat n).
      intros r Hr. unfold hundred. replace (Qc_of_Z 100) with (Q2Qc 100) by by_compute.
      split; intros; qc_to_q; lra.
    + revert Hr. generalize (Pandas.Qc_of_nat k / Pandas.Qc_of_nat n).
      intros r Hr. unfold hundred. replace (Qc_of_Z 100) with (Q2Qc 100) by by_compute.
      qc_to_q. lra.
Qed.

Lemma sublist_not_elem {A} (x : A) (l k : list A) :
  sublist l k -> x ∉ k -> x ∉ l.
Proof. intros Hs Hk Hl. apply Hk. by eapply elem_of_sublist. Qed.

End MissingIssue.

(** A missing-values issue is reported when more than one cell in 20000
    is missing, and none is reported when fewer are, or when the column
    has no missing cell: the test is made on the percentage rounded to two
    decimals, and a smaller share of missing cells rounds to 0.0.  At
    exactly one cell in 20000 the percentage is the tie 0.005, and which
    way it rounds depends on the floating-point quotient, which the exact
    arithmetic of the embedding does not follow: nothing is stated of that
    case. *)
Theorem missing_issue_threshold `{Coercions} (s : series) :
  let info := _profile_column s in
  let reported := exists i, i ∈ issues info /\ type i = missing_values in
  ((Z.of_nat (Pandas.len s) < 20000 * Z.of_nat (null_count info))%Z ->
   reported)
  /\ ((20000 * Z.of_nat (null_count info) < Z.of_nat (Pandas.len s))%Z ->
      ¬ reported)
  /\ (null_count info = 0%nat -> ¬ reported).
Proof.
  intros info reported. subst info reported.
  destruct (profile_column_fields s) as (_ & _ & -> & _).
  destruct (profile_column_issues s) as (sev & d & f & middle & d' & f' & -> & Hsub).
  pose proof (rounded_pct_pos (Pandas.isnull s)) as Hpct.
  assert (length (Pandas.isnull s) = Pandas.len s) as Hlen
    by apply length_fmap.
  rewrite Hlen in Hpct.
  assert (missing_values ∉ type <$> middle) as Hmid.
  { eapply sublist_not_elem; [exact Hsub|].
    destruct (_infer_semantic_type s);
      rewrite ?not_elem_of_cons; repeat split; try done; apply not_elem_of_nil. }
  assert (Hno : (Z.of_nat (Pandas.len s)
                 >= 20000 * Z.of_nat (Pandas.sum_mask (Pandas.isnull s)))%Z ->
                ¬ exists i,
                    i ∈ ((if Pandas.gt_nan
                               ((fun m => PyFmt.round 2 (m * hundred))
                                  <$> Pandas.mean_mask (Pandas.isnull s)) 0
                          then [Issue missing_values sev d f] else [])
                         ++ middle
                         ++ (if (Pandas.nunique s <=? 1)%nat
                                && (0 <? Pandas.count s)%nat
                             then [Issue constant medium d' f'] else []))
                    /\ type i = missing_values).
  { intros Hge (i & Hi & Hty).
    destruct (Pandas.gt_nan _ 0);
      [destruct Hpct as [Hp _]; specialize (Hp eq_refl); lia|].
    rewrite app_nil_l in Hi. apply elem_of_app in Hi as [Hi|Hi].
    - apply Hmid. rewrite <- Hty. apply list_elem_of_fmap. by exists i.
    - destruct (_ && _); [|by apply elem_of_nil in Hi].
      apply list_elem_of_singleton in Hi. by subst i. }
  split; [|split].
  - intros Hlt.
    assert (Pandas.gt_nan
              ((fun m => PyFmt.round 2 (m * hundred))
                 <$> Pandas.mean_mask (Pandas.isnull s)) 0 = true) as ->
      by (apply Hpct; lia).
    eexists. split; [apply elem_of_app; left; by apply list_elem_of_singleton|].
    done.
  - intros Hgt. apply Hno. lia.
  - intros Hz. apply Hno. lia.
Qed.

Section Counts.
Context `{Coercions}.

Lemma filter_split_length {A} (f : A -> bool) (l : list A) :
  (length (List.filter f l) + length (List.filter (fun x => negb (f x)) l)
   = length l)%nat.
Proof.
  induction l as [|x l IH]; [done|]. simpl. destruct (f x); simpl; lia.
Qed.

Lemma count_plus_nulls (s : series) :
  (Pandas.count s + Pandas.sum_mask (Pandas.isnull s) = Pandas.len s)%nat.
Proof.
  unfold Pandas.count, Pandas.dropna, Pandas.isnull, Pandas.len, Pandas.sum_mask.
  cbn [s_values].
  rewrite <- (filter_split_length Pandas.notna_value (s_values s)).
  f_equal. induction (s_values s) as [|v l IH]; [done|].
  csimpl. unfold Pandas.notna_value at 1. destruct (Pandas.is_null v); csimpl; by rewrite IH.
Qed.

Lemma unique_go_length_le {A} `{EqDecision A} (seen l : list A) :
  (length (Pandas.unique_go seen l) <= length l)%nat.
Proof.
  revert seen. induction l as [|x l IH]; intros seen; [done|]. simpl.
  case_bool_decide; simpl; [etrans; [apply IH|lia]|].
  specialize (IH (x :: seen)). lia.
Qed.

Lemma unique_go_nonempty {A} `{EqDecision A} (l : list A) :
  (0 < length l)%nat -> (0 < length (Pandas.unique_go [] l))%nat.
Proof.
  destruct l as [|x l]; [simpl; lia|]. intros _. cbn [Pandas.unique_go].
  rewrite bool_decide_eq_false_2 by apply not_elem_of_nil. simpl. lia.
Qed.

End Counts.

(** The counts of a column profile fit together: the cells that are not
    missing and the missing cells add up to the rows of the column, and
    the distinct values are at most the cells that are not missing, and at
    least one when there is such a cell. *)
Theorem profile_column_counts `{Coercions} (s : series) :
  let info := _profile_column s in
  (non_null info + null_count info = Pandas.len s)%nat
  /\ (unique_count info <= non_null info)%nat
  /\ ((0 < non_null info)%nat -> (0 < unique_count info)%nat)
  /\ (length (sample_values info) <= 5)%nat.
Proof.
  intros info. subst info.
  destruct (profile_column_fields s) as (_ & -> & -> & _ & -> & -> & _).
  split; [apply count_plus_nulls|].
  unfold Pandas.nunique, Pandas.count, Pandas.unique, Pandas.len, Pandas.head.
  split; [apply unique_go_length_le|].
  split; [apply unique_go_nonempty|].
  rewrite length_take. lia.
Qed.

(** ** Order statistics *)

Section Sorting.

Lemma Qcle_flip (x y : Qc) : ¬ x ≤ y -> y ≤ x.
Proof. intros Hxy. apply Qclt_le_weak. by apply Qcnot_le_lt. Qed.

Lemma insert_sorted_perm (x : Qc) (l : list Qc) :
  Pandas.insert_sorted x l ≡ₚ x :: l.
Proof.
  induction l as [|y l IH]; simpl; [done|].
  case_bool_decide; [done|]. rewrite IH. apply perm_swap.
Qed.

Lemma sort_perm (l : list Qc) : Pandas.sort l ≡ₚ l.
Proof.
  induction l as [|x l IH]; simpl; [done|].
  by rewrite insert_sorted_perm, IH.
Qed.

Lemma insert_sorted_sorted (x : Qc) (l : list Qc) :
  StronglySorted Qcle l -> StronglySorted Qcle (Pandas.insert_sorted x l).
Proof.
  induction 1 as [|y l Hl IH Hy]; simpl.
  - repeat constructor.
  - case_bool_decide as Hxy.
    + constructor; [by constructor|]. constructor; [done|].
      eapply Forall_impl; [exact Hy|]. intros z Hz. by etrans.
    + constructor; [done|].
      rewrite insert_sorted_perm. constructor; [|done]. by apply Qcle_flip.
Qed.

Lemma sort_sorted (l : list Qc) : StronglySorted Qcle (Pandas.sort l).
Proof.
  induction l as [|x l IH]; simpl; [constructor|].
  by apply insert_sorted_sorted.
Qed.

Lemma sorted_nth (l : list Qc) (d : Qc) (i j : nat) :
  StronglySorted Qcle l -> (i <= j)%nat -> (j < length l)%nat ->
  nth i l d ≤ nth j l d.
Proof.
  intros Hs. revert i j. induction Hs as [|x l Hl IH Hx]; intros i j Hij Hj.
  - simpl in Hj. lia.
  - destruct i as [|i], j as [|j]; simpl in *; try lia.
    + apply Qcle_refl.
    + rewrite Forall_forall in Hx. apply Hx.
      apply list_elem_of_In, nth_In. lia.
    + apply IH; lia.
Qed.

End Sorting.

Section Quantiles.

Lemma floor_position (p : Qc) (n : nat) :
  0 ≤ p -> p ≤ Pandas.Qc_of_nat n -> (0 ≤ Qfloor p ≤ Z.of_nat n)%Z.
Proof.
  intros H0 Hn. pose proof (floor_le p) as Hlo. pose proof (lt_floor p) as Hhi.
  split.
  - assert (Qc_of_Z (-1) < Qc_of_Z (Qfloor p)) as Hc.
    { replace (Qc_of_Z (-1)) with (0 - 1) by by_compute.
      revert H0 Hhi. generalize (Qc_of_Z (Qfloor p)). intros f. intros.
      qc_to_q. lra. }
    rewrite <- Z2Qc_inj_lt in Hc. lia.
  - unfold Pandas.Qc_of_nat in Hn. rewrite Z2Qc_inj_le. by etrans.
Qed.

Lemma quantile_interpolate (q : Qc) (s : series) :
  Pandas.quantile q s
  = match Pandas.sort (Pandas.numbers s) with
    | [] => None
    | (x0 :: _) as xs =>
        Some (Shape.interpolate xs x0 (q * Pandas.Qc_of_nat (length xs - 1)))
    end.
Proof. reflexivity. Qed.

(** The interpolated value lies between the two elements around the
    position. *)
Lemma interpolate_between (xs : list Qc) (x0 p : Qc) (n : nat) :
  StronglySorted Qcle xs -> length xs = S n ->
  0 ≤ p -> p ≤ Pandas.Qc_of_nat n ->
  let i := Z.to_nat (Qfloor p) in
  (i <= n)%nat
  /\ nth i xs x0 ≤ Shape.interpolate xs x0 p
  /\ Shape.interpolate xs x0 p ≤ nth (Nat.min (S i) n) xs x0.
Proof.
  intros Hs Hlen H0 Hn i.
  pose proof (floor_position p n H0 Hn) as Hfl.
  assert (i <= n)%nat as Hi by (unfold i; lia).
  split; [done|].
  unfold Shape.interpolate. fold i.
  pose proof (floor_le p) as Hlo. pose proof (lt_floor p) as Hhi.
  set (a := nth i xs x0).
  assert (nth (S i) xs a = nth (Nat.min (S i) n) xs x0 /\ a ≤ nth (S i) xs a)
    as [Hb Hab].
  { destruct (decide (i = n)) as [->|Hne].
    - rewrite Nat.min_r by lia.
      rewrite (nth_overflow xs a) by lia. split; [done|apply Qcle_refl].
    - rewrite Nat.min_l by lia.
      rewrite (nth_indep xs a x0) by lia. split; [done|].
      unfold a. apply sorted_nth; [done|lia|lia]. }
  rewrite <- Hb. revert Hab. generalize (nth (S i) xs a). intros b Hab.
  revert Hlo Hhi. generalize (Qc_of_Z (Qfloor p)). intros f Hlo Hhi.
  assert (0 ≤ (p - f) * (b - a)) as H1.
  { apply Qcmult_nonneg_nonneg; qc_to_q; lra. }
  assert (0 ≤ (1 - (p - f)) * (b - a)) as H2.
  { apply Qcmult_nonneg_nonneg; qc_to_q; lra. }
  clearbody a. split; qc_to_q; lra.
Qed.

(** The interpolated value grows with the position. *)
Lemma interpolate_mono (xs : list Qc) (x0 p p' : Qc) (n : nat) :
  StronglySorted Qcle xs -> length xs = S n ->
  0 ≤ p -> p ≤ p' -> p' ≤ Pandas.Qc_of_nat n ->
  Shape.interpolate xs x0 p ≤ Shape.interpolate xs x0 p'.
Proof.
  intros Hs Hlen H0 Hpp Hn.
  assert (p ≤ Pandas.Qc_of_nat n) as Hn0 by by etrans.
  assert (0 ≤ p') as H0' by by etrans.
  destruct (interpolate_between xs x0 p n Hs Hlen H0 Hn0) as (Hi & Ha & Hb).
  destruct (interpolate_between xs x0 p' n Hs Hlen H0' Hn) as (Hi' & Ha' & Hb').
  pose proof (floor_mono p p' Hpp) as Hfl.
  pose proof (floor_position p n H0 Hn0) as Hf.
  pose proof (floor_position p' n H0' Hn) as Hf'.
  destruct (decide (Qfloor p = Qfloor p')) as [Heq|Hne].
  - unfold Shape.interpolate in *. rewrite <- Heq in *.
    set (i := Z.to_nat (Qfloor p)) in *.
    set (a := nth i xs x0) in *.
    assert (a ≤ nth (S i) xs a) as Hab.
    { destruct (decide (i = n)) as [->|Hni].
      - rewrite (nth_overflow xs a) by lia. apply Qcle_refl.
      - rewrite (nth_indep xs a x0) by lia.
        unfold a. apply sorted_nth; [done|lia|lia]. }
    revert Hab. generalize (nth (S i) xs a). intros b Hab.
    generalize (Qc_of_Z (Qfloor p)). intros f.
    assert (0 ≤ (p' - p) * (b - a)) as H1.
    { apply Qcmult_nonneg_nonneg; qc_to_q; lra. }
    clearbody a. clear Ha Hb Ha' Hb'. qc_to_q. lra.
  - etrans; [exact Hb|]. etrans; [|exact Ha'].
    apply sorted_nth; [done|lia|lia].
Qed.

End Quantiles.

Section Statistics.
Context `{Coercions}.

Lemma Qc_min_le (x y : Qc) : Pandas.Qc_min x y ≤ x /\ Pandas.Qc_min x y ≤ y.
Proof.
  unfold Pandas.Qc_min. case_bool_decide as Hxy.
  - split; [apply Qcle_refl|done].
  - split; [by apply Qcle_flip|apply Qcle_refl].
Qed.

Lemma Qc_max_ge (x y : Qc) : x ≤ Pandas.Qc_max x y /\ y ≤ Pandas.Qc_max x y.
Proof.
  unfold Pandas.Qc_max. case_bool_decide as Hxy.
  - split; [done|apply Qcle_refl].
  - split; [apply Qcle_refl|by apply Qcle_flip].
Qed.

Lemma foldr_min_le (x : Qc) (xs : list Qc) (y : Qc) :
  y ∈ x :: xs -> foldr Pandas.Qc_min x xs ≤ y.
Proof.
  induction xs as [|z xs IH]; simpl.
  - intros ->%list_elem_of_singleton. apply Qcle_refl.
  - destruct (Qc_min_le z (foldr Pandas.Qc_min x xs)) as [Hz Hrest].
    rewrite !elem_of_cons. intros [->|[->|Hy]].
    + etrans; [exact Hrest|]. apply IH. by left.
    + done.
    + etrans; [exact Hrest|]. apply IH. by right.
Qed.

Lemma foldr_max_ge (x : Qc) (xs : list Qc) (y : Qc) :
  y ∈ x :: xs -> y ≤ foldr Pandas.Qc_max x xs.
Proof.
  induction xs as [|z xs IH]; simpl.
  - intros ->%list_elem_of_singleton. apply Qcle_refl.
  - destruct (Qc_max_ge z (foldr Pandas.Qc_max x xs)) as [Hz Hrest].
    rewrite !elem_of_cons. intros [->|[->|Hy]].
    + etrans; [|exact Hrest]. apply IH. by left.
    + done.
    + etrans; [|exact Hrest]. apply IH. by right.
Qed.

Lemma smin_le (s : series) (m y : Qc) :
  Pandas.smin s = Some m -> y ∈ Pandas.numbers s -> m ≤ y.
Proof.
  unfold Pandas.smin. destruct (Pandas.numbers s) as [|x xs]; [done|].
  intros [= <-]. apply foldr_min_le.
Qed.

Lemma smax_ge (s : series) (m y : Qc) :
  Pandas.smax s = Some m -> y ∈ Pandas.numbers s -> y ≤ m.
Proof.
  unfold Pandas.smax. destruct (Pandas.numbers s) as [|x xs]; [done|].
  intros [= <-]. apply foldr_max_ge.
Qed.

Lemma Qc_of_nat_S (n : nat) : Pandas.Qc_of_nat (S n) = Pandas.Qc_of_nat n + 1.
Proof.
  unfold Pandas.Qc_of_nat. rewrite Nat2Z.inj_succ, <- Z.add_1_r.
  by rewrite Z2Qc_inj_add.
Qed.

Lemma Qc_sum_bounds (l : list Qc) (m M : Qc) :
  Forall (fun x => m ≤ x /\ x ≤ M) l ->
  Pandas.Qc_of_nat (length l) * m ≤ Pandas.Qc_sum l
  /\ Pandas.Qc_sum l ≤ Pandas.Qc_of_nat (length l) * M.
Proof.
  induction 1 as [|x l [Hm HM] _ [IHm IHM]].
  - cbn [length Pandas.Qc_sum foldr].
    assert (Pandas.Qc_of_nat 0 = 0) as -> by (by apply Qc_is_canon).
    rewrite !Qcmult_0_l. split; apply Qcle_refl.
  - cbn [length Pandas.Qc_sum foldr]. fold (Pandas.Qc_sum l).
    rewrite Qc_of_nat_S. revert IHm IHM.
    generalize (Pandas.Qc_sum l) (Pandas.Qc_of_nat (length l)).
    intros sm n IHm IHM. split; qc_to_q; lra.
Qed.

Lemma mean_between (s : series) (m M mu : Qc) :
  Pandas.smin s = Some m -> Pandas.smax s = Some M ->
  Pandas.mean s = Some mu -> m ≤ mu /\ mu ≤ M.
Proof.
  intros Hm HM Hmu.
  assert (Forall (fun x => m ≤ x /\ x ≤ M) (Pandas.numbers s)) as Hall.
  { apply Forall_forall. intros x Hx. split; [by eapply smin_le|by eapply smax_ge]. }
  apply Qc_sum_bounds in Hall as [Hlo Hhi].
  unfold Pandas.mean in Hmu.
  destruct (Pandas.numbers s) as [|x xs] eqn:Hxs; [done|].
  injection Hmu as <-.
  assert (0 < Pandas.Qc_of_nat (length (x :: xs))) as Hn
    by (apply Qc_of_nat_pos; simpl; lia).
  split.
  - apply (Qcmult_le_mono_pos_r _ _ _ Hn). rewrite Qc_div_mul_cancel by done.
    by rewrite Qcmult_comm.
  - apply (Qcmult_le_mono_pos_r _ _ _ Hn). rewrite Qc_div_mul_cancel by done.
    by rewrite (Qcmult_comm M).
Qed.

Lemma quantile_position (q : Qc) (n : nat) :
  0 ≤ q -> q ≤ 1 ->
  0 ≤ q * Pandas.Qc_of_nat n /\ q * Pandas.Qc_of_nat n ≤ Pandas.Qc_of_nat n.
Proof.
  intros H0 H1. pose proof (Qc_of_nat_nonneg n) as Hn.
  split; [by apply Qcmult_nonneg_nonneg|].
  rewrite <- (Qcmult_1_l (Pandas.Qc_of_nat n)) at 2.
  by apply Qcmult_le_compat_r.
Qed.

Lemma sort_length (l : list Qc) : length (Pandas.sort l) = length l.
Proof. apply Permutation_length, sort_perm. Qed.

Lemma quantile_between (q : Qc) (s : series) (m M v : Qc) :
  0 ≤ q -> q ≤ 1 ->
  Pandas.smin s = Some m -> Pandas.smax s = Some M ->
  Pandas.quantile q s = Some v -> m ≤ v /\ v ≤ M.
Proof.
  intros H0 H1 Hm HM. rewrite quantile_interpolate.
  pose proof (sort_sorted (Pandas.numbers s)) as Hs.
  pose proof (sort_perm (Pandas.numbers s)) as Hp.
  destruct (Pandas.sort (Pandas.numbers s)) as [|x0 xs] eqn:Hxs; [done|].
  intros [= <-]. cbn [length]. rewrite Nat.sub_0_r.
  destruct (quantile_position q (length xs) H0 H1) as [Hp0 Hp1].
  destruct (interpolate_between (x0 :: xs) x0 _ (length xs) Hs eq_refl Hp0 Hp1)
    as (Hi & Ha & Hb).
  cbn zeta in Hi, Ha, Hb. split.
  - etrans; [|exact Ha]. eapply smin_le; [done|].
    rewrite <- Hp. apply list_elem_of_In, nth_In. cbn [length]. lia.
  - etrans; [exact Hb|]. eapply smax_ge; [done|].
    rewrite <- Hp. apply list_elem_of_In, nth_In. cbn [length]. lia.
Qed.

Lemma quantile_mono (q q' : Qc) (s : series) (v v' : Qc) :
  0 ≤ q -> q ≤ q' -> q' ≤ 1 ->
  Pandas.quantile q s = Some v -> Pandas.quantile q' s = Some v' -> v ≤ v'.
Proof.
  intros H0 Hqq H1. rewrite !quantile_interpolate.
  pose proof (sort_sorted (Pandas.numbers s)) as Hs.
  destruct (Pandas.sort (Pandas.numbers s)) as [|x0 xs] eqn:Hxs; [done|].
  intros [= <-] [= <-]. cbn [length]. rewrite Nat.sub_0_r.
  assert (0 ≤ q') as H0' by by etrans.
  destruct (quantile_position q' (length xs) H0' H1) as [_ Hp1].
  pose proof (Qc_of_nat_nonneg (length xs)) as Hn.
  apply (interpolate_mono (x0 :: xs) x0 _ _ (length xs) Hs eq_refl).
  - by apply Qcmult_nonneg_nonneg.
  - by apply Qcmult_le_compat_r.
  - done.
Qed.

Lemma numbers_no_text (l : list value) :
  Forall (fun v => forall t, v <> VStr t) l ->
  length (omap Pandas.as_number (List.filter Pandas.notna_value l))
  = length (List.filter Pandas.notna_value l).
Proof.
  induction 1 as [|v l Hv _ IH]; [done|].
  destruct v as [|q|b|t]; cbn; try by rewrite IH.
  by destruct (Hv t).
Qed.

(** In a column whose cells fit its storage type, every cell the numeric
    coercion leaves is a number. *)
Lemma wf_numbers (s : series) :
  wf_series s = true ->
  length (Pandas.numbers (Pandas.dropna (Pandas.to_numeric s)))
  = Pandas.len (Pandas.dropna (Pandas.to_numeric s)).
Proof.
  unfold wf_series, Pandas.numbers, Pandas.dropna, Pandas.len, Pandas.to_numeric.
  destruct s as [d vs]. cbn [s_dtype s_values].
  intros Hwf. apply Is_true_true, forallb_True in Hwf.
  destruct d; cbn [s_values]; apply numbers_no_text.
  all: try (eapply Forall_impl; [exact Hwf|]; intros [] Hv t; done).
  clear Hwf.
  apply Forall_fmap, Forall_true. intros [| | |t] t'; cbn; try done.
  by destruct (parse_number t).
Qed.

Lemma numeric_checks_stats (s : series) (l : list issue) (st : stats_info) :
  (numeric_checks s l).1 = Some st ->
  let ns := Pandas.dropna (Pandas.to_numeric s) in
  (0 < Pandas.len ns)%nat
  /\ st_mean st = PyFmt.round 2 <$> Pandas.mean ns
  /\ st_median st = PyFmt.round 2 <$> Pandas.median ns
  /\ st_min st = PyFmt.round 2 <$> Pandas.smin ns
  /\ st_max st = PyFmt.round 2 <$> Pandas.smax ns
  /\ st_q1 st = PyFmt.round 2 <$> Pandas.quantile Pandas.quarter ns
  /\ st_q3 st = PyFmt.round 2 <$> Pandas.quantile Pandas.three_quarters ns.
Proof.
  unfold numeric_checks.
  destruct (0 <? Pandas.len _)%nat eqn:Hlen; [|done].
  apply Nat.ltb_lt in Hlen.
  destruct (_ && _ && _); cbn [fst]; intros [= <-]; cbn; done.
Qed.

Lemma profile_column_stats (s : series) (st : stats_info) :
  stats (_profile_column s) = Some st ->
  exists l, (numeric_checks s l).1 = Some st.
Proof.
  unfold _profile_column.
  set (l0 := if Pandas.gt_nan _ 0 then _ else _). clearbody l0.
  destruct (bool_decide (_infer_semantic_type s = Numeric)).
  - destruct (numeric_checks s l0) as [st' l1] eqn:Hnc. cbn [stats].
    intros ->. exists l0. by rewrite Hnc.
  - destruct (bool_decide (_infer_semantic_type s = Categorical));
      [destruct (categorical_checks _ _ _ _)|]; done.
Qed.

End Statistics.

(** The statistics of a numeric column come out in order: the minimum is
    at most the first quartile, which is at most the median, which is at
    most the third quartile, which is at most the maximum.  All six
    statistics are numbers.  The rounding to two decimals keeps the order.
    The column is one whose cells fit its storage type, and not a column
    of booleans (of storage type [bool], or of booleans only), on which
    the profiler stops with the [TypeError] of [quantile].  Nothing is
    stated of the place of the mean: the mean of
    floating-point numbers can leave the range of the numbers by a
    rounding error, which the exact arithmetic of the embedding does not
    follow. *)
Theorem profile_stats_ordered `{Coercions} (s : series) (st : stats_info) :
  wf_series s = true -> s_dtype s ≠ bool_ -> Spec.booleans_only s = false ->
  stats (_profile_column s) = Some st ->
  exists mn q1 md q3 mx mu : Qc,
    st_min st = Some mn /\ st_q1 st = Some q1 /\ st_median st = Some md
    /\ st_q3 st = Some q3 /\ st_max st = Some mx /\ st_mean st = Some mu
    /\ mn ≤ q1 /\ q1 ≤ md /\ md ≤ q3 /\ q3 ≤ mx.
Proof.
  intros Hwf _ _ Hst. apply profile_column_stats in Hst as [l Hst].
  apply numeric_checks_stats in Hst
    as (Hlen & -> & -> & -> & -> & -> & ->).
  rewrite <- (wf_numbers s Hwf) in Hlen.
  set (ns := Pandas.dropna (Pandas.to_numeric s)) in *.
  assert (exists m M mu a b c,
            Pandas.smin ns = Some m /\ Pandas.smax ns = Some M
            /\ Pandas.mean ns = Some mu
            /\ Pandas.quantile Pandas.quarter ns = Some a
            /\ Pandas.median ns = Some b
            /\ Pandas.quantile Pandas.three_quarters ns = Some c)
    as (m & M & mu & a & b & c & Hm & HM & Hmu & Ha & Hb & Hc).
  { unfold Pandas.smin, Pandas.smax, Pandas.mean, Pandas.median.
    rewrite !quantile_interpolate.
    pose proof (sort_length (Pandas.numbers ns)) as Hsl.
    destruct (Pandas.numbers ns) as [|x xs]; [simpl in Hlen; lia|].
    destruct (Pandas.sort (x :: xs)) as [|y ys]; [done|].
    by eexists _, _, _, _, _, _. }
  rewrite Hm, HM, Hmu, Ha, Hb, Hc. cbn [fmap option_fmap option_map].
  eexists _, _, _, _, _, _. repeat (split; [reflexivity|]).
  assert (0 ≤ Pandas.quarter) as Hq0 by by_compute.
  assert (Pandas.quarter ≤ Pandas.half) as Hq1 by by_compute.
  assert (Pandas.half ≤ Pandas.three_quarters) as Hq2 by by_compute.
  assert (Pandas.three_quarters ≤ 1) as Hq3 by by_compute.
  assert (Pandas.quarter ≤ 1) as Hq4 by by_compute.
  assert (0 ≤ Pandas.three_quarters) as Hq5 by by_compute.
  assert (0 ≤ Pandas.half) as Hq6 by by_compute.
  destruct (quantile_between _ ns m M a Hq0 Hq4 Hm HM Ha) as [Hma _].
  destruct (quantile_between _ ns m M c Hq5 Hq3 Hm HM Hc) as [_ HcM].
  pose proof (quantile_mono _ _ ns a b Hq0 Hq1 (Qcle_trans _ _ _ Hq2 Hq3) Ha Hb) as Hab.
  pose proof (quantile_mono _ _ ns b c Hq6 Hq2 Hq3 Hb Hc) as Hbc.
  repeat split; by apply round_mono.
Qed.

Lemma profile_stats_ordered_witness :
  let st := Stats (Some (Qc_of_Z 22)) (Some (Qc_of_Z 3)) (Some (Qc_of_Z 1))
              (Some (Qc_of_Z 100)) (Some (Qc_of_Z 2)) (Some (Qc_of_Z 4))
              (Some 1%nat) in
  exists mn q1 md q3 mx mu : Qc,
    st_min st = Some mn /\ st_q1 st = Some q1 /\ st_median st = Some md
    /\ st_q3 st = Some q3 /\ st_max st = Some mx /\ st_mean st = Some mu
    /\ mn ≤ q1 /\ q1 ≤ md /\ md ≤ q3 /\ q3 ≤ mx.
Proof.
  intros st.
  apply (@profile_stats_ordered Sample.integer_cells Sample.one_far_out st);
    [reflexivity|discriminate|reflexivity|].
  pose (stats_eq_dec := ltac:(solve_decision) : EqDecision stats_info).
  by_compute.
Defined.

(** ** The profile of a table *)

Section DatasetProfile.
Context `{Coercions}.

Lemma tag_issues (col : string) (l : list issue) (acc : list (string * issue)) :
  foldl (fun acc issue => acc ++ [(col, issue)]) acc l
  = acc ++ ((fun i => (col, i)) <$> l).
Proof.
  revert acc. induction l as [|i l IH]; intros acc; simpl.
  - by rewrite app_nil_r.
  - by rewrite IH, <- app_assoc.
Qed.

Lemma profile_fold (data : list (string * series))
    (cols : list (string * column_info)) (iss : list (string * issue)) :
  foldl (fun '(cols, all_issues) '(col, s) =>
           let col_info := _profile_column s in
           (cols ++ [(col, col_info)],
            foldl (fun acc issue => acc ++ [(col, issue)])
                  all_issues (issues col_info)))
        (cols, iss) data
  = (cols ++ ((fun p => (p.1, _profile_column p.2)) <$> data),
     iss ++ (p ← data;
             (fun i => (p.1, i)) <$> issues (_profile_column p.2))).
Proof.
  revert cols iss. induction data as [|[col s] data IH]; intros cols iss.
  - simpl. by rewrite !app_nil_r.
  - cbn [foldl]. rewrite IH, tag_issues. cbn [fmap list_fmap mbind list_bind].
    by rewrite <- !app_assoc.
Qed.

Lemma profile_dataset_fields (df : DataFrame) :
  let p := profile_dataset df in
  shape_rows p = df_len df
  /\ shape_columns p = length (df_data df)
  /\ total_cells p = (df_len df * length (df_data df))%nat
  /\ total_missing p
     = foldr Nat.add 0%nat
         ((fun p => Pandas.sum_mask (Pandas.isnull p.2)) <$> df_data df)
  /\ duplicate_rows p = Pandas.sum_mask (Frames.duplicated df)
  /\ p_columns p = (fun p => (p.1, _profile_column p.2)) <$> df_data df
  /\ p_issues p
     = (p ← df_data df; (fun i => (p.1, i)) <$> issues (_profile_column p.2)).
Proof.
  unfold profile_dataset. rewrite profile_fold. cbn.
  unfold Frames.columns. rewrite length_fmap. done.
Qed.

Lemma profile_dataset_pcts (df : DataFrame) :
  let p := profile_dataset df in
  missing_pct p
  = (if (0 <? total_cells p)%nat then
       PyFmt.round 2
         (Pandas.Qc_of_nat (total_missing p) / Pandas.Qc_of_nat (total_cells p)
            * hundred)
     else 0)
  /\ duplicate_pct p
     = (if (0 <? shape_rows p)%nat then
          PyFmt.round 2
            (Pandas.Qc_of_nat (duplicate_rows p) / Pandas.Qc_of_nat (shape_rows p)
               * hundred)
        else 0).
Proof. unfold profile_dataset. rewrite profile_fold. cbn. done. Qed.

Lemma null_counts_sum (data : list (string * series)) :
  foldr Nat.add 0%nat
    ((fun p => Pandas.sum_mask (Pandas.isnull p.2)) <$> data)
  = foldr Nat.add 0%nat
      ((fun p => null_count p.2)
         <$> ((fun p => (p.1, _profile_column p.2)) <$> data)).
Proof.
  rewrite <- list_fmap_compose. f_equal. apply list_fmap_ext.
  intros _ [col s] _. cbn.
  by destruct (profile_column_fields s) as (_ & _ & -> & _).
Qed.

Lemma null_counts_le (n : nat) (data : list (string * series)) :
  Forall (fun p => length (s_values p.2) = n) data ->
  (foldr Nat.add 0%nat
     ((fun p => Pandas.sum_mask (Pandas.isnull p.2)) <$> data)
   <= n * length data)%nat.
Proof.
  induction 1 as [|[col s] data Hs _ IH]; cbn [fmap list_fmap foldr length].
  - lia.
  - pose proof (sum_mask_le (Pandas.isnull s)) as Hle.
    unfold Pandas.isnull in Hle at 2. rewrite length_fmap in Hle.
    cbn in Hs. cbn [snd]. lia.
Qed.

(** The first of equal elements is never marked. *)
Lemma duplicated_go_count {A} `{EqDecision A} (seen l : list A) :
  (Pandas.sum_mask (Frames.duplicated_go seen l)
   + length (Pandas.unique_go seen l) = length l)%nat.
Proof.
  revert seen. induction l as [|x l IH]; intros seen; [done|].
  cbn [Frames.duplicated_go Pandas.unique_go]. case_bool_decide.
  - specialize (IH seen). unfold Pandas.sum_mask in *. cbn. lia.
  - specialize (IH (x :: seen)). unfold Pandas.sum_mask in *. cbn. lia.
Qed.

Lemma duplicated_count (df : DataFrame) :
  (0 < df_len df)%nat ->
  (Pandas.sum_mask (Frames.duplicated df) < df_len df)%nat.
Proof.
  intros Hlen. unfold Frames.duplicated.
  destruct (Frames.empty df); [done|].
  pose proof (duplicated_go_count [] (Frames.rows df)) as Hc.
  assert (length (Frames.rows df) = df_len df) as Hl
    by (unfold Frames.rows; by rewrite length_fmap, length_seq).
  pose proof (unique_go_nonempty (Frames.rows df)) as Hu. lia.
Qed.

Lemma duplicated_none (df : DataFrame) :
  df_len df = 0%nat -> Pandas.sum_mask (Frames.duplicated df) = 0%nat.
Proof.
  intros Hlen. unfold Frames.duplicated, Frames.empty. rewrite Hlen.
  by rewrite bool_decide_eq_true_2.
Qed.

Lemma round2_0 : PyFmt.round 2 0 = 0.
Proof. by_compute. Qed.

Lemma round2_100 : PyFmt.round 2 hundred = hundred.
Proof. by_compute. Qed.

(** A share of a whole, as a rounded percentage, lies between 0 and 100. *)
Lemma rounded_share (k n : nat) :
  (k <= n)%nat -> (0 < n)%nat ->
  let pct :=
    PyFmt.round 2 (Pandas.Qc_of_nat k / Pandas.Qc_of_nat n * hundred) in
  0 ≤ pct /\ pct ≤ hundred.
Proof.
  intros Hkn Hn pct.
  pose proof (Qc_of_nat_pos n Hn) as Hpos.
  pose proof (Qc_of_nat_nonneg k) as Hk.
  assert (Pandas.Qc_of_nat k ≤ Pandas.Qc_of_nat n) as Hle.
  { unfold Pandas.Qc_of_nat. rewrite <- Z2Qc_inj_le. lia. }
  assert (0 ≤ hundred) as Hh by by_compute.
  assert (0 ≤ Pandas.Qc_of_nat k / Pandas.Qc_of_nat n) as H0
    by by apply ratio_nonneg.
  assert (Pandas.Qc_of_nat k / Pandas.Qc_of_nat n ≤ 1) as H1.
  { apply (Qcmult_le_mono_pos_r _ _ _ Hpos).
    rewrite Qc_div_mul_cancel by done. by rewrite Qcmult_1_l. }
  split.
  - rewrite <- round2_0. apply round_mono. by apply Qcmult_nonneg_nonneg.
  - rewrite <- round2_100. apply round_mono.
    rewrite <- (Qcmult_1_l hundred) at 2. by apply Qcmult_le_compat_r.
Qed.

End DatasetProfile.

(** The profile of a table is put together from the profiles of its
    columns: it lists the columns in the order of the table, each with the
    profile of its cells; the flat list of issues holds the issues of the
    columns, column after column, each under the name of its column; and
    the total of missing cells is the sum of the missing cells the column
    profiles count. *)
Theorem profile_dataset_columns `{Coercions} (df : DataFrame) :
  let p := profile_dataset df in
  p_columns p = (fun c => (c.1, _profile_column c.2)) <$> df_data df
  /\ p_issues p = (c ← p_columns p; (fun i => (c.1, i)) <$> issues c.2)
  /\ total_missing p
     = foldr Nat.add 0%nat ((fun c => null_count c.2) <$> p_columns p)
  /\ shape_columns p = length (p_columns p).
Proof.
  destruct (profile_dataset_fields df)
    as (_ & Hcols & _ & Hmiss & _ & Hpc & Hpi).
  cbn zeta. rewrite Hpc, Hpi, Hmiss, Hcols, length_fmap.
  repeat split; [|apply null_counts_sum].
  clear. induction (df_data df) as [|[col s] data IH]; [done|].
  cbn. cbn in IH. by rewrite IH.
Qed.

(** The totals of the profile of a table in which every column has one
    cell per row are bounded: no more missing cells than cells, fewer
    duplicate rows than rows (the first of equal rows is not one, and a
    table without rows has none), and both percentages between 0 and
    100. *)
Theorem profile_dataset_bounds `{Coercions} (df : DataFrame) :
  Frames.wf df = true ->
  let p := profile_dataset df in
  (total_missing p <= total_cells p)%nat
  /\ (duplicate_rows p <= shape_rows p - 1)%nat
  /\ (0 ≤ missing_pct p /\ missing_pct p ≤ Qc_of_Z 100)
  /\ (0 ≤ duplicate_pct p /\ duplicate_pct p ≤ Qc_of_Z 100).
Proof.
  intros Hwf p.
  destruct (profile_dataset_pcts df) as (Hmp & Hdp). fold p in Hmp, Hdp.
  destruct (profile_dataset_fields df)
    as (Hrows & _ & Hcells & Hmiss & Hdup & _ & _). fold p in Hrows, Hcells, Hmiss, Hdup.
  assert (total_missing p <= total_cells p)%nat as Hm.
  { rewrite Hmiss, Hcells. apply null_counts_le. by apply wf_lengths. }
  assert (duplicate_rows p <= shape_rows p - 1)%nat as Hd.
  { rewrite Hdup, Hrows. destruct (decide (df_len df = 0%nat)) as [H0|H0].
    - rewrite (duplicated_none df H0). lia.
    - pose proof (duplicated_count df). lia. }
  split; [done|]. split; [done|].
  rewrite Hmp, Hdp. change (Qc_of_Z 100) with hundred. split.
  - destruct (0 <? total_cells p)%nat eqn:Hc.
    + apply Nat.ltb_lt in Hc. by apply rounded_share.
    + split; by_compute.
  - destruct (0 <? shape_rows p)%nat eqn:Hc.
    + apply Nat.ltb_lt in Hc. apply rounded_share; lia.
    + split; by_compute.
Qed.

Lemma profile_dataset_bounds_witness :
  let p := @profile_dataset Sample.integer_cells Sample.repeated in
  (total_missing p <= total_cells p)%nat
  /\ (duplicate_rows p <= shape_rows p - 1)%nat
  /\ (0 ≤ missing_pct p /\ missing_pct p ≤ Qc_of_Z 100)
  /\ (0 ≤ duplicate_pct p /\ duplicate_pct p ≤ Qc_of_Z 100).
Proof.
  apply (@profile_dataset_bounds Sample.integer_cells Sample.repeated).
  reflexivity.
Defined.

(** ** The roles of the columns *)

Section Roles.
Context `{Coercions}.

Lemma suggest_step_roles (seen : list string) (sug : suggestions)
    (col : string) (s : series) :
  col ∉ seen -> roles_within seen sug ->
  roles_within (seen ++ [col]) (suggest_step sug col s).
Proof.
  intros Hnew (Hid & Htg & Hdt). unfold suggest_step, roles_within.
  assert (forall c, c ∈ seen -> c ∈ seen ++ [col]) as Hin
    by (intros c Hc; apply elem_of_app; by left).
  assert (col ∈ seen ++ [col]) as Hcol
    by (apply elem_of_app; right; by apply list_elem_of_singleton).
  assert (forall c, c ∈ seen -> c ≠ col) as Hne by (intros c Hc ->; done).
  destruct (_ && bool_decide (id_column sug = None)) eqn:Hbranch.
  - cbn [id_column target_column date_column]. split; [|split].
    + intros c [= <-]. split; [done|]. split.
      * intros Ht. by apply (Hne _ (Htg _ Ht)).
      * intros Hd. by apply (Hne _ (Hdt _ Hd)).
    + intros c Hc. by apply Hin, Htg.
    + intros c Hc. by apply Hin, Hdt.
  - repeat match goal with
           | |- context [if ?b then _ else _] => destruct b
           end;
      cbn [id_column target_column date_column];
      (split;
       [intros c Hc; destruct (Hid c Hc) as (Hs & Ht & Hd);
        split; [by apply Hin|];
        split; intros Heq;
        first [by apply Ht|by apply Hd
              |injection Heq as <-; by apply (Hne col)]
       |split;
        [intros c Hc; first [by apply Hin, Htg|by injection Hc as <-]
        |intros c Hc; first [by apply Hin, Hdt|by injection Hc as <-]]]).
Qed.

Lemma suggest_fold_roles (data : list (string * series)) (seen : list string)
    (sug : suggestions) :
  NoDup (seen ++ data.*1) -> roles_within seen sug ->
  roles_within (seen ++ data.*1)
    (foldl (fun sug '(col, s) => suggest_step sug col s) sug data).
Proof.
  revert seen sug. induction data as [|[col s] data IH]; intros seen sug Hnd Hinv.
  - simpl. by rewrite app_nil_r.
  - cbn [foldl fmap list_fmap fst]. cbn [fmap list_fmap fst] in Hnd.
    rewrite (cons_middle col), app_assoc. apply IH.
    + by rewrite <- app_assoc.
    + apply suggest_step_roles; [|done].
      apply NoDup_app in Hnd as (_ & Hnd & _). intros Hc.
      apply (Hnd col Hc). by left.
Qed.

End Roles.

(** Every role the column mapping gives goes to a column of the table, and
    the column taken as the identifier has no other role: it is neither
    the target nor the date column. *)
Theorem mapping_roles `{Coercions} (df : DataFrame) :
  NoDup (Frames.columns df) ->
  let sug := suggest_column_mapping df in
  (forall c, id_column sug = Some c ->
     c ∈ Frames.columns df
     /\ target_column sug ≠ Some c /\ date_column sug ≠ Some c)
  /\ (forall c, target_column sug = Some c -> c ∈ Frames.columns df)
  /\ (forall c, date_column sug = Some c -> c ∈ Frames.columns df).
Proof.
  intros Hnd. unfold suggest_column_mapping, Frames.columns.
  apply (suggest_fold_roles (df_data df) []); [done|].
  repeat split; done.
Qed.

Lemma mapping_roles_witness :
  let sug := @suggest_column_mapping Sample.integer_cells Sample.students in
  (forall c, id_column sug = Some c ->
     c ∈ Frames.columns Sample.students
     /\ target_column sug ≠ Some c /\ date_column sug ≠ Some c)
  /\ (forall c, target_column sug = Some c -> c ∈ Frames.columns Sample.students)
  /\ (forall c, date_column sug = Some c -> c ∈ Frames.columns Sample.students).
Proof.
  apply (@mapping_roles Sample.integer_cells Sample.students).
  by_compute.
Defined.

(** ** The plan *)

Section PlannedActions.
Context `{Coercions}.

Lemma plan_issue_for (col : string) (info : column_info)
    (actions : list action) (i : issue) :
  exists extra,
    plan_issue col info actions i = actions ++ extra
    /\ Forall (planned_for col) extra.
Proof.
  unfold plan_issue.
  destruct (type i);
    first
      [exists []; split; [by rewrite app_nil_r|by apply Forall_nil]
      |eexists [_]; split; [reflexivity|];
       apply Forall_singleton; unfold planned_for;
       cbn [column act method auto_];
       split; [reflexivity|]; split;
       [try case_bool_decide; rewrite !elem_of_cons; tauto
       |rewrite !elem_of_cons, elem_of_nil; split; [try done; tauto|]; intros ?; try done; intuition discriminate]].
Qed.

Lemma plan_issues_for (col : string) (info : column_info) (l : list issue)
    (actions : list action) :
  exists extra,
    foldl (plan_issue col info) actions l = actions ++ extra
    /\ Forall (planned_for col) extra.
Proof.
  revert actions. induction l as [|i l IH]; intros actions.
  - exists []. split; [by rewrite app_nil_r|constructor].
  - cbn [foldl]. destruct (plan_issue_for col info actions i) as (e1 & -> & H1).
    destruct (IH (actions ++ e1)) as (e2 & -> & H2).
    exists (e1 ++ e2). split; [by rewrite app_assoc|by apply Forall_app].
Qed.

Lemma plan_columns_for (cols : list (string * column_info))
    (actions : list action) :
  exists extra,
    foldl (fun actions '(col, info) =>
             foldl (plan_issue col info) actions (issues info)) actions cols
    = actions ++ extra
    /\ Forall (fun a => exists col, col ∈ cols.*1 /\ planned_for col a) extra.
Proof.
  revert actions. induction cols as [|[col info] cols IH]; intros actions.
  - exists []. split; [by rewrite app_nil_r|constructor].
  - cbn [foldl].
    destruct (plan_issues_for col info (issues info) actions) as (e1 & -> & H1).
    destruct (IH (actions ++ e1)) as (e2 & -> & H2).
    exists (e1 ++ e2). split; [by rewrite app_assoc|]. apply Forall_app. split.
    + eapply Forall_impl; [exact H1|]. intros a Ha. exists col.
      split; [by left|done].
    + eapply Forall_impl; [exact H2|]. intros a (c & Hc & Ha). exists c.
      split; [by right|done].
Qed.

End PlannedActions.

(** The plan made from the profile of a table starts with the removal of
    duplicate rows exactly when the table has a duplicate row, and every
    other entry names a column of the table and is one of: strip
    whitespace, standardize case, impute by median or by mode, clip
    outliers, drop the column.  The planner never plans a conversion to
    numbers, nor an imputation by mean, by a custom value or by dropping
    rows; clipping and dropping a column are the entries that are not
    automatic. *)
Theorem plan_of_profile `{Coercions} (df : DataFrame) :
  let p := profile_dataset df in
  exists first rest,
    generate_cleaning_plan p = first ++ rest
    /\ (if (0 <? Pandas.sum_mask (Frames.duplicated df))%nat
        then exists d i, first = [Action "remove_duplicates" None None d i true]
        else first = [])
    /\ Forall (fun a => exists col,
                 col ∈ Frames.columns df /\ planned_for col a) rest.
Proof.
  intros p. unfold generate_cleaning_plan.
  destruct (profile_dataset_fields df) as (_ & _ & _ & _ & Hdup & Hpc & _).
  fold p in Hdup, Hpc. rewrite Hdup.
  set (first := if (0 <? _)%nat then _ else _).
  destruct (plan_columns_for (p_columns p) first) as (rest & -> & Hrest).
  exists first, rest. split; [done|]. split.
  - subst first. destruct (0 <? _)%nat; [|done]. by eexists _, _.
  - eapply Forall_impl; [exact Hrest|]. intros a (c & Hc & Ha). exists c.
    split; [|done]. rewrite Hpc in Hc. unfold Frames.columns.
    by rewrite <- list_fmap_compose in Hc.
Qed.

(** ** Lists of actions *)

Section Batches.
Context `{Coercions}.

(** The log an action is given is kept, and what the action appends does
    not depend on it. *)
Lemma apply_action_log (df : DataFrame) (log : list string) (a : action) :
  apply_action (df, log) a
  = ((apply_action (df, []) a).1, log ++ (apply_action (df, []) a).2).
Proof.
  unfold apply_action.
  case_bool_decide; [done|].
  destruct (column_of df a) as [[col s]|]; [|by rewrite app_nil_r].
  unfold impute_missing, clip_outliers.
  repeat (case_bool_decide; try done; try by rewrite app_nil_r).
  all: destruct (0 <? _)%nat; try by rewrite app_nil_r.
  all: repeat (case_bool_decide; try reflexivity).
  all: reflexivity.
Qed.

Lemma foldl_apply_log (l : list action) (df : DataFrame) (log : list string) :
  foldl apply_action (df, log) l
  = ((foldl apply_action (df, []) l).1,
     log ++ (foldl apply_action (df, []) l).2).
Proof.
  revert df log. induction l as [|a l IH]; intros df log.
  - simpl. by rewrite app_nil_r.
  - cbn [foldl]. rewrite (apply_action_log df log a).
    destruct (apply_action (df, []) a) as [df1 log1]. cbn [fst snd].
    rewrite (IH df1 (log ++ log1)), (IH df1 log1). cbn [fst snd].
    by rewrite app_assoc.
Qed.

Lemma apply_action_unknown (df : DataFrame) (log : list string) (a : action) :
  act a ∉ ["remove_duplicates"; "strip_whitespace"; "standardize_case";
           "impute_missing"; "clip_outliers"; "drop_column"; "convert_numeric"] ->
  apply_action (df, log) a = (df, log).
Proof.
  intros Hact.
  assert (Hne : forall name,
            name ∈ ["remove_duplicates"; "strip_whitespace"; "standardize_case";
                    "impute_missing"; "clip_outliers"; "drop_column";
                    "convert_numeric"] -> bool_decide (act a = name) = false).
  { intros name Hname. apply bool_decide_eq_false_2. intros Heq.
    apply Hact. by rewrite Heq. }
  unfold apply_action.
  rewrite !Hne by by_compute.
  by destruct (column_of df a) as [[col s]|].
Qed.

Lemma apply_action_no_column (df : DataFrame) (log : list string) (a : action) :
  act a ≠ "remove_duplicates" -> column a = None ->
  apply_action (df, log) a = (df, log).
Proof.
  intros Hact Hcol. unfold apply_action, column_of. rewrite Hcol.
  by rewrite bool_decide_eq_false_2.
Qed.

End Batches.

(** Running a list of actions that is two lists put together is running
    the first list, then the second list on the table the first leaves;
    the log is the log of the first run followed by the log of the
    second. *)
Theorem apply_cleaning_actions_app `{Coercions} (df : DataFrame)
    (actions1 actions2 : list action) :
  let r1 := apply_cleaning_actions df actions1 in
  let r2 := apply_cleaning_actions r1.1 actions2 in
  apply_cleaning_actions df (actions1 ++ actions2) = (r2.1, r1.2 ++ r2.2).
Proof.
  intros r1 r2. unfold apply_cleaning_actions. rewrite foldl_app.
  fold (apply_cleaning_actions df actions1). fold r1.
  destruct r1 as [df1 log1] eqn:Hr1. rewrite foldl_apply_log. done.
Qed.

(** An action that the table cannot take is passed over without a word in
    the log: an action of a type the executor does not know, an action
    other than the removal of duplicates that names no column, and an
    action that names a column the table does not have.  A list of such
    actions returns the table as it is, with an empty log. *)
Theorem stale_actions_skipped `{Coercions} (df : DataFrame)
    (actions : list action) :
  Forall (fun a =>
            act a ∉ ["remove_duplicates"; "strip_whitespace";
                     "standardize_case"; "impute_missing"; "clip_outliers";
                     "drop_column"; "convert_numeric"]
            \/ (act a ≠ "remove_duplicates"
                /\ forall col, column a = Some col -> col ∉ Frames.columns df))
         actions ->
  apply_cleaning_actions df actions = (df, []).
Proof.
  unfold apply_cleaning_actions. induction 1 as [|a l Ha _ IH]; [done|].
  cbn [foldl].
  assert (apply_action (df, []) a = (df, [])) as ->; [|done].
  destruct Ha as [Hunknown|[Hact Hcol]].
  - by apply apply_action_unknown.
  - destruct (column a) as [col|] eqn:Hc.
    + by apply (apply_action_stale_column df [] a col); [| |apply Hcol].
    + by apply apply_action_no_column.
Qed.

Lemma stale_actions_skipped_witness :
  @apply_cleaning_actions Sample.integer_cells Sample.one_column
    [Sample.strip_c; Sample.convert_age] = (Sample.one_column, []).
Proof.
  apply (@stale_actions_skipped Sample.integer_cells Sample.one_column).
  apply Forall_cons_2; [|apply Forall_cons_2; [|apply Forall_nil_2]];
    right; (split; [done|]); cbn; intros col [= <-]; by_compute.
Defined.

Section OwnColumn.
Context `{Coercions}.

Lemma len_set (df : DataFrame) (col : string) (s : series) :
  df_len (Frames.set df col s) = df_len df.
Proof. done. Qed.

Lemma impute_other_column (df : DataFrame) (log : list string)
    (col col' : string) (s : series) (a : action) :
  default "median" (method a) ≠ "drop" ->
  Frames.get df col = Some s -> col ≠ col' ->
  Frames.get (impute_missing df log col s a).1 col' = Frames.get df col'
  /\ df_len (impute_missing df log col s a).1 = df_len df.
Proof.
  intros Hm Hget Hne. unfold impute_missing.
  destruct (0 <? _)%nat; [|done].
  repeat (case_bool_decide; try done);
    cbn [fst]; (split; [by apply get_set_ne|done]).
Qed.

End OwnColumn.

(** An action touches the column it names and no other: every action but
    the removal of duplicates and the imputation that drops rows leaves
    the number of rows and every other column of the table as they
    were. *)
Theorem action_touches_own_column `{Coercions} (df : DataFrame)
    (log : list string) (a : action) (col col' : string) :
  act a ≠ "remove_duplicates" ->
  ¬ (act a = "impute_missing" /\ default "median" (method a) = "drop") ->
  column a = Some col -> col' ≠ col ->
  Frames.get (apply_action (df, log) a).1 col' = Frames.get df col'
  /\ df_len (apply_action (df, log) a).1 = df_len df.
Proof.
  intros Hact Hdrop Hcol Hne. unfold apply_action, column_of. rewrite Hcol.
  rewrite bool_decide_eq_false_2 by done.
  destruct (Frames.get df col) as [s|] eqn:Hget; [|done].
  cbn [fmap option_fmap option_map].
  assert (is_Some (Frames.get df col)) as Hsome by (by rewrite Hget).
  assert (col ≠ col') as Hne' by done.
  repeat match goal with
         | |- context [bool_decide (act a = ?n)] =>
             let Hc := fresh "Hc" in
             destruct (decide (act a = n)) as [Hc|Hc];
             [rewrite (bool_decide_eq_true_2 _ Hc)
             |rewrite (bool_decide_eq_false_2 _ Hc)]
         end;
    try case_bool_decide; unfold clip_outliers; cbn [fst];
    try done; try (split; [by apply get_set_ne|done]).
  - apply impute_other_column; [|done|done]. intros Hm. by apply Hdrop.
  - split; [by apply get_drop_ne|done].
Qed.

Lemma action_touches_own_column_witness :
  Frames.get
    (@apply_action Sample.integer_cells (Sample.people, []) Sample.convert_age).1
    "name"
  = Frames.get Sample.people "name"
  /\ df_len (@apply_action Sample.integer_cells (Sample.people, [])
               Sample.convert_age).1
     = df_len Sample.people.
Proof.
  apply (@action_touches_own_column Sample.integer_cells Sample.people []
           Sample.convert_age "age" "name"); try done.
  intros [? _]. done.
Defined.

(** An imputation by the mode, by a custom value or by dropping rows leaves
    no missing cell in its column. *)
Theorem impute_leaves_no_null `{Coercions} (df : DataFrame) (log : list string)
    (a : action) (col : string) (s : series) :
  act a = "impute_missing" -> column a = Some col ->
  default "median" (method a) ∉ ["median"; "mean"] ->
  Frames.get df col = Some s ->
  exists s', Frames.get (apply_action (df, log) a).1 col = Some s'
             /\ Pandas.sum_mask (Pandas.isnull s') = 0%nat.
Proof.
  intros Hact Hcol Hm Hget. unfold apply_action, column_of.
  rewrite Hact, Hcol, Hget. decide_names. cbn [fmap option_fmap option_map].
  unfold impute_missing.
  destruct (0 <? _)%nat eqn:Hnull.
  - rewrite !elem_of_cons, elem_of_nil in Hm.
    rewrite (bool_decide_eq_false_2 (_ = "median")) by tauto.
    rewrite (bool_decide_eq_false_2 (_ = "mean")) by tauto.
    repeat case_bool_decide; cbn [fst].
    + rewrite get_set. eexists. split; [done|]. apply fillna_no_null.
      destruct (Pandas.mode_first s) as [v|] eqn:Hmode; [|done].
      by apply mode_first_notna in Hmode.
    + unfold Frames.dropna_subset. rewrite Hget, get_select, Hget.
      eexists. split; [done|]. apply select_notna_no_null.
    + rewrite get_set. eexists. split; [done|]. by apply fillna_no_null.
  - exists s. split; [done|]. apply Nat.ltb_ge in Hnull. lia.
Qed.

Lemma impute_leaves_no_null_witness :
  exists s',
    Frames.get
      (@apply_action Sample.integer_cells (Sample.ages, [])
         (Action "impute_missing" (Some "age") (Some "mode") "" "" true)).1
      "age" = Some s'
    /\ Pandas.sum_mask (Pandas.isnull s') = 0%nat.
Proof.
  apply (@impute_leaves_no_null Sample.integer_cells Sample.ages []
           (Action "impute_missing" (Some "age") (Some "mode") "" "" true)
           "age" (Series object [VStr "10"; VNull; VStr "x"; VStr "30"]));
    try reflexivity.
  by_compute.
Defined.

(** ** What an action can do to a table *)

Section Shapes.
Context `{Coercions}.

Lemma len_clip (lower upper : option Qc) (s : series) :
  Pandas.len (Pandas.clip lower upper s) = Pandas.len s.
Proof. unfold Pandas.len, Pandas.clip. cbn. by rewrite length_fmap. Qed.

Lemma wf_clip (lower upper : option Qc) (s : series) :
  wf_series s = true -> wf_series (Pandas.clip lower upper s) = true.
Proof.
  unfold wf_series, Pandas.clip. cbn [s_dtype s_values].
  generalize (negb (forallb is_integral
    (omap (fun '(v, v') =>
             if bool_decide (v = v') then None else Pandas.as_number v')
       (zip (s_values s)
          ((fun v => match v with
                     | VNum x => VNum (Pandas.clip_number lower upper x)
                     | _ => v
                     end) <$> s_values s))))).
  intros widened.
  rewrite !forallb_forall. intros Hwf v [v0 [<- Hv0]]%in_map_iff.
  specialize (Hwf v0 Hv0). by destruct v0, (s_dtype s), widened.
Qed.

Lemma rewrites_to_numeric (s : series) : rewrites s (Pandas.to_numeric s).
Proof. split; [apply len_to_numeric|apply wf_to_numeric]. Qed.

Lemma rewrites_fillna (fill : value) (s s' : series) :
  rewrites s s' -> rewrites s (fillna fill s').
Proof.
  intros [Hlen Hwf]. split.
  - by rewrite len_fillna.
  - intros Hs. by apply wf_fillna, Hwf.
Qed.

Lemma rewrites_refl (s : series) : rewrites s s.
Proof. by split. Qed.

Lemma rewrites_str_map (f : string -> string) (s s' : series) :
  Pandas.len s' = Pandas.len s -> rewrites s (Pandas.str_map f s').
Proof.
  intros Hlen. split.
  - by rewrite len_str_map.
  - intros _. apply wf_str_map.
Qed.

Lemma impute_outcome (df : DataFrame) (log : list string) (col : string)
    (s : series) (a : action) :
  Frames.get df col = Some s ->
  outcome df (impute_missing df log col s a).1
  /\ (length (impute_missing df log col s a).2 <= S (length log))%nat.
Proof.
  intros Hget. unfold impute_missing.
  destruct (0 <? _)%nat; [|split; [constructor|cbn; lia]].
  repeat case_bool_decide; cbn [fst snd];
    (split; [|rewrite length_app; cbn; lia]).
  - eapply Rewritten; [done|]. apply rewrites_fillna, rewrites_to_numeric.
  - eapply Rewritten; [done|]. apply rewrites_fillna, rewrites_to_numeric.
  - eapply Rewritten; [done|]. apply rewrites_fillna, rewrites_refl.
  - unfold Frames.dropna_subset. rewrite Hget. by eapply Selected.
  - eapply Rewritten; [done|]. apply rewrites_fillna, rewrites_refl.
Qed.

Lemma apply_action_outcome (df : DataFrame) (log : list string) (a : action) :
  outcome df (apply_action (df, log) a).1
  /\ (length (apply_action (df, log) a).2 <= S (length log))%nat.
Proof.
  unfold apply_action.
  destruct (decide (act a = "remove_duplicates")) as [Hd|Hd].
  { rewrite (bool_decide_eq_true_2 _ Hd). cbn [fst snd].
    split; [constructor|rewrite length_app; cbn; lia]. }
  rewrite (bool_decide_eq_false_2 _ Hd).
  destruct (column_of df a) as [[col s]|] eqn:Hcolumn;
    [|split; [constructor|cbn; lia]].
  apply column_of_spec in Hcolumn as [Hcol Hget].
  repeat match goal with
         | |- context [bool_decide (act a = ?n)] =>
             let Hc := fresh "Hc" in
             destruct (decide (act a = n)) as [Hc|Hc];
             [rewrite (bool_decide_eq_true_2 _ Hc)
             |rewrite (bool_decide_eq_false_2 _ Hc)]
         end;
    try case_bool_decide; unfold clip_outliers; cbn [fst snd];
    try (by apply impute_outcome);
    (split; [|rewrite ?length_app; cbn; lia]);
    try constructor.
  - eapply Rewritten; [done|]. apply rewrites_str_map, len_astype_str.
  - eapply Rewritten; [done|].
    apply rewrites_str_map. unfold Pandas.str_strip.
    by rewrite len_str_map, len_astype_str.
  - eapply Rewritten; [done|]. split.
    + by rewrite len_clip, len_to_numeric.
    + intros Hs. by apply wf_clip, wf_to_numeric.
  - eapply Rewritten; [done|]. apply rewrites_to_numeric.
Qed.

Lemma columns_set (df : DataFrame) (col : string) (s : series) :
  is_Some (Frames.get df col) ->
  Frames.columns (Frames.set df col s) = Frames.columns df.
Proof.
  destruct df as [n data]. unfold Frames.columns, Frames.set. cbn [df_data].
  induction data as [|[c x] data IH]; intros Hsome.
  - by destruct Hsome.
  - rewrite get_cons in Hsome. cbn [Frames.replace_column fst].
    case_bool_decide; [done|]. cbn [fmap list_fmap]. f_equal. by apply IH.
Qed.

Lemma columns_drop (df : DataFrame) (col : string) :
  sublist (Frames.columns (Frames.drop df col)) (Frames.columns df).
Proof.
  unfold Frames.columns, Frames.drop. cbn [df_data].
  apply fmap_sublist. induction (df_data df) as [|p data IH]; [done|].
  cbn [List.filter]. destruct (negb _); [by apply sublist_skip|by apply sublist_cons].
Qed.

Lemma columns_select (mask : list bool) (df : DataFrame) :
  Frames.columns (Frames.select mask df) = Frames.columns df.
Proof.
  unfold Frames.columns, Frames.select. cbn [df_data].
  rewrite <- list_fmap_compose. by apply list_fmap_ext.
Qed.

Lemma mask_filter_length_le {A} (mask : list bool) (l : list A) :
  (length (Frames.mask_filter mask l) <= length l)%nat.
Proof.
  unfold Frames.mask_filter. rewrite length_fmap.
  etrans; [apply filter_length_le|]. rewrite length_zip. lia.
Qed.

Lemma len_select (mask : list bool) (df : DataFrame) :
  (df_len (Frames.select mask df) <= df_len df)%nat.
Proof.
  unfold Frames.select. cbn [df_len].
  etrans; [apply mask_filter_length_le|]. by rewrite length_seq.
Qed.

Lemma rows_length (df : DataFrame) : length (Frames.rows df) = df_len df.
Proof. unfold Frames.rows. by rewrite length_fmap, length_seq. Qed.

Lemma duplicated_mask_length (df : DataFrame) :
  Frames.empty df = false ->
  length (negb <$> Frames.duplicated df) = df_len df.
Proof.
  intros He. unfold Frames.duplicated. rewrite He.
  by rewrite length_fmap, duplicated_length, rows_length.
Qed.

Lemma outcome_shape (df df' : DataFrame) :
  outcome df df' ->
  (Frames.wf df = true -> Frames.wf df' = true)
  /\ (df_len df' <= df_len df)%nat
  /\ sublist (Frames.columns df') (Frames.columns df).
Proof.
  destruct 1 as [| |col s s' Hget [Hlen Hwfs]|col|col s Hget].
  - done.
  - unfold Frames.drop_duplicates.
    destruct (Frames.empty df) eqn:He; [done|].
    split; [|split].
    + intros Hwf. apply wf_select; [done|]. by apply duplicated_mask_length.
    + apply len_select.
    + by rewrite columns_select.
  - split; [|split].
    + intros Hwf. destruct (wf_get df col s Hwf Hget) as [Hl Hs].
      apply wf_set; [done|by rewrite Hget|by rewrite Hlen|by apply Hwfs].
    + done.
    + rewrite columns_set; [done|by rewrite Hget].
  - split; [|split].
    + apply wf_drop.
    + done.
    + apply columns_drop.
  - split; [|split].
    + intros Hwf. destruct (wf_get df col s Hwf Hget) as [Hl Hs].
      apply wf_select; [done|]. unfold Pandas.notna. by rewrite length_fmap.
    + apply len_select.
    + by rewrite columns_select.
Qed.

End Shapes.

(** Cleaning never adds to a table: whatever the actions, the table that
    comes out has no more rows than the table that went in, its columns
    are columns of that table in their order, it still has one cell per
    row in every column when the table that went in had, and the log has
    at most one line per action. *)
Theorem cleaning_shrinks `{Coercions} (df : DataFrame) (actions : list action) :
  let r := apply_cleaning_actions df actions in
  (Frames.wf df = true -> Frames.wf r.1 = true)
  /\ (df_len r.1 <= df_len df)%nat
  /\ sublist (Frames.columns r.1) (Frames.columns df)
  /\ (length r.2 <= length actions)%nat.
Proof.
  induction actions as [|a actions IH] using rev_ind.
  - cbn. repeat split; done.
  - unfold apply_cleaning_actions in *. rewrite foldl_app. cbn [foldl].
    cbn zeta in IH. destruct (foldl apply_action (df, []) actions) as [df1 log1].
    cbn [fst snd] in IH. destruct IH as (Hwf & Hlen & Hcols & Hlog).
    destruct (apply_action_outcome df1 log1 a) as [Hout Hl].
    destruct (outcome_shape _ _ Hout) as (Hwf' & Hlen' & Hcols').
    rewrite length_app. cbn [length]. repeat split.
    + intros Hdf. by apply Hwf', Hwf.
    + lia.
    + by etrans.
    + lia.
Qed.

Section RemoveDuplicates.
Context `{Coercions}.

Lemma drop_duplicates_rows (df : DataFrame) :
  Frames.wf df = true -> Frames.empty df = false ->
  Frames.rows (Frames.drop_duplicates df) = Pandas.unique_go [] (Frames.rows df)
  /\ df_len (Frames.drop_duplicates df)
     = length (Pandas.unique_go [] (Frames.rows df)).
Proof.
  intros Hwf He. unfold Frames.drop_duplicates. rewrite He.
  pose proof (duplicated_mask_length df He) as Hlen.
  split.
  - rewrite rows_select by done. unfold Frames.duplicated. rewrite He.
    apply mask_filter_duplicated.
  - unfold Frames.select. cbn [df_len].
    rewrite (mask_filter_length _ _ (Frames.rows df))
      by (by rewrite length_seq, rows_length).
    unfold Frames.duplicated. rewrite He. by rewrite mask_filter_duplicated.
Qed.

Lemma sum_mask_repeat_false (n : nat) :
  Pandas.sum_mask (repeat false n) = 0%nat.
Proof. unfold Pandas.sum_mask. by induction n. Qed.

Lemma drop_duplicates_none_left (df : DataFrame) :
  Frames.wf df = true ->
  Pandas.sum_mask (Frames.duplicated (Frames.drop_duplicates df)) = 0%nat.
Proof.
  intros Hwf. destruct (Frames.empty df) eqn:He.
  - unfold Frames.drop_duplicates. rewrite He.
    unfold Frames.duplicated. by rewrite He.
  - destruct (drop_duplicates_rows df Hwf He) as [Hrows _].
    unfold Frames.duplicated at 1.
    destruct (Frames.empty (Frames.drop_duplicates df)); [done|].
    rewrite Hrows, duplicated_unique. apply sum_mask_repeat_false.
Qed.

Lemma drop_duplicates_removed (df : DataFrame) :
  Frames.wf df = true ->
  (df_len (Frames.drop_duplicates df)
   + Pandas.sum_mask (Frames.duplicated df) = df_len df)%nat.
Proof.
  intros Hwf. destruct (Frames.empty df) eqn:He.
  - unfold Frames.drop_duplicates, Frames.duplicated. rewrite He. cbn. lia.
  - destruct (drop_duplicates_rows df Hwf He) as [_ ->].
    unfold Frames.duplicated. rewrite He.
    pose proof (duplicated_go_count [] (Frames.rows df)) as Hc.
    rewrite rows_length in Hc. lia.
Qed.

End RemoveDuplicates.

(** The removal of duplicates removes the rows the profile counts as
    duplicates: on a table with one cell per row in every column, it
    leaves as many rows as the profile has rows less duplicate rows, it
    logs the number of duplicate rows of the profile, and the profile of
    the table it leaves has no duplicate row. *)
Theorem remove_duplicates_matches_profile `{Coercions} (df : DataFrame)
    (log : list string) (a : action) :
  Frames.wf df = true -> act a = "remove_duplicates" ->
  let p := profile_dataset df in
  let r := apply_action (df, log) a in
  df_len r.1 = (shape_rows p - duplicate_rows p)%nat
  /\ r.2 = log ++ ["Removed " +:+ PyFmt.format_nat (duplicate_rows p)
                     +:+ " duplicate rows"]
  /\ duplicate_rows (profile_dataset r.1) = 0%nat.
Proof.
  intros Hwf Hact p r.
  destruct (profile_dataset_fields df) as (Hrows & _ & _ & _ & Hdup & _).
  fold p in Hrows, Hdup.
  assert (r = (Frames.drop_duplicates df,
               log ++ ["Removed "
                         +:+ PyFmt.format_nat
                               (df_len df - df_len (Frames.drop_duplicates df))
                         +:+ " duplicate rows"])) as ->.
  { unfold r, apply_action. by rewrite Hact. }
  cbn [fst snd]. pose proof (drop_duplicates_removed df Hwf) as Hrem.
  rewrite Hrows, Hdup.
  replace (df_len df - df_len (Frames.drop_duplicates df))%nat
    with (Pandas.sum_mask (Frames.duplicated df)) by lia.
  repeat split; [lia|].
  destruct (profile_dataset_fields (Frames.drop_duplicates df))
    as (_ & _ & _ & _ & -> & _).
  by apply drop_duplicates_none_left.
Qed.

Lemma remove_duplicates_matches_profile_witness :
  let p := @profile_dataset Sample.integer_cells Sample.repeated in
  let r := @apply_action Sample.integer_cells (Sample.repeated, []) Sample.dedup in
  df_len r.1 = (shape_rows p - duplicate_rows p)%nat
  /\ r.2 = [] ++ ["Removed " +:+ PyFmt.format_nat (duplicate_rows p)
                    +:+ " duplicate rows"]
  /\ duplicate_rows (@profile_dataset Sample.integer_cells r.1) = 0%nat.
Proof.
  apply (@remove_duplicates_matches_profile Sample.integer_cells
           Sample.repeated [] Sample.dedup); reflexivity.
Defined.

(** ** Clipping *)

Section Clipping.
Context `{Coercions}.











End Clipping.





(** ** The filter options *)

Section FilterOptions.
Context `{Coercions}.

Lemma insert_value_perm (x : value) (l : list value) :
  insert_value x l ≡ₚ x :: l.
Proof.
  induction l as [|y l IH]; [done|]. cbn [insert_value].
  destruct (Pandas.value_leb x y) as [[]|]; try done;
    rewrite IH; apply perm_swap.
Qed.

Lemma sorted_perm (l k : list value) : sorted l = Ok k -> k ≡ₚ l.
Proof.
  unfold sorted. destruct (Pandas.comparable l); [|done]. intros [= <-].
  induction l as [|x l IH]; [done|]. cbn [foldr].
  by rewrite insert_value_perm, IH.
Qed.

Lemma sorted_raises (l : list value) (e : exception) :
  sorted l = Raise e -> e = TypeError.
Proof. unfold sorted. destruct (Pandas.comparable l); congruence. Qed.

Lemma get_some_column (df : DataFrame) (col : string) (s : series) :
  Frames.get df col = Some s -> col ∈ Frames.columns df.
Proof.
  intros Hget. destruct (decide (col ∈ Frames.columns df)) as [|Hn]; [done|].
  apply get_none in Hn. congruence.
Qed.

Lemma smin_smax (s : series) :
  (0 < length (Pandas.numbers s))%nat ->
  exists a b, Pandas.smin s = Some a /\ Pandas.smax s = Some b /\ a ≤ b.
Proof.
  intros Hlen. unfold Pandas.smin, Pandas.smax.
  destruct (Pandas.numbers s) as [|x xs] eqn:Hn; [simpl in Hlen; lia|].
  eexists _, _. split; [done|]. split; [done|].
  etrans; [apply (foldr_min_le x xs x); by left|].
  apply (foldr_max_ge x xs x). by left.
Qed.

Lemma option_fits_weaken (df : DataFrame) (cats cats' nums nums' : list string)
    (col : string) (o : filter_option) :
  cats ⊆ cats' -> nums ⊆ nums' ->
  option_fits df cats nums col o -> option_fits df cats' nums' col o.
Proof.
  intros Hc Hn [Hcol Ho]. split; [done|].
  destruct o as [l|lo hi]; destruct Ho as [Hin Ho]; split; auto.
Qed.

Lemma categorical_loop (df : DataFrame) (todo seen nums : list string)
    (r : result (gmap string filter_option)) :
  options_fit df seen nums r ->
  options_fit df (seen ++ todo) nums
    (foldl (fun options col =>
              bind options (fun options =>
                match Frames.get df col with
                | Some s =>
                    bind (sorted (Pandas.unique (Pandas.dropna s)))
                      (fun unique_vals =>
                         Ok (<[col := Choices unique_vals]> options))
                | None => Ok options
                end)) r todo).
Proof.
  revert seen r. induction todo as [|col todo IH]; intros seen r Hr.
  - cbn [foldl]. by rewrite app_nil_r.
  - cbn [foldl]. rewrite (cons_middle col), app_assoc. apply IH.
    destruct r as [opts|e]; [|done]. cbn [bind].
    assert (forall c o, opts !! c = Some o ->
              option_fits df (seen ++ [col]) nums c o) as Hold.
    { intros c o Hc. eapply option_fits_weaken; [| |by apply Hr]; set_solver. }
    destruct (Frames.get df col) as [s|] eqn:Hget; [|done].
    destruct (sorted _) as [vals|e] eqn:Hsorted; cbn [bind options_fit].
    + intros c o. rewrite lookup_insert_Some.
      intros [[<- <-]|[_ Hc]]; [|by apply Hold].
      split; [by eapply get_some_column|]. split; [set_solver|].
      apply sorted_perm in Hsorted. rewrite Hsorted.
      apply unique_go_Forall, dropna_notna.
    + by eapply sorted_raises.
Qed.

Lemma numeric_loop (df : DataFrame) (todo cats seen : list string)
    (r : result (gmap string filter_option)) :
  Frames.wf df = true ->
  options_fit df cats seen r ->
  options_fit df cats (seen ++ todo)
    (foldl (fun options col =>
              bind options (fun options =>
                match Frames.get df col with
                | Some s =>
                    let numeric_series := Pandas.dropna (Pandas.to_numeric s) in
                    if (0 <? Pandas.len numeric_series)%nat then
                      Ok (<[col := MinMax (Pandas.smin numeric_series)
                                          (Pandas.smax numeric_series)]> options)
                    else Ok options
                | None => Ok options
                end)) r todo).
Proof.
  intros Hwf. revert seen r. induction todo as [|col todo IH]; intros seen r Hr.
  - cbn [foldl]. by rewrite app_nil_r.
  - cbn [foldl]. rewrite (cons_middle col), app_assoc. apply IH.
    destruct r as [opts|e]; [|done]. cbn [bind].
    assert (forall c o, opts !! c = Some o ->
              option_fits df cats (seen ++ [col]) c o) as Hold.
    { intros c o Hc. eapply option_fits_weaken; [| |by apply Hr]; set_solver. }
    destruct (Frames.get df col) as [s|] eqn:Hget; [|done].
    cbn zeta. destruct (0 <? _)%nat eqn:Hlen; [|done].
    apply Nat.ltb_lt in Hlen. cbn [options_fit].
    intros c o. rewrite lookup_insert_Some.
    intros [[<- <-]|[_ Hc]]; [|by apply Hold].
    split; [by eapply get_some_column|]. split; [set_solver|].
    apply smin_smax. destruct (wf_get df col s Hwf Hget) as [_ Hs].
    by rewrite wf_numbers.
Qed.

End FilterOptions.

(** The filter options never fail on a column the table does not have: the
    only exception the function can raise is the [TypeError] of sorting
    values that do not compare.  In the dictionary it returns for a table
    as pandas builds it, every key is a column of the table; a list of
    choices stands under a column of the categorical list and holds no
    missing value; a range stands under a column of the numeric list and
    has two numbers, the least not above the greatest. *)
Theorem filter_options_sound `{Coercions} (df : DataFrame)
    (categorical_columns numeric_columns : list string) :
  Frames.wf df = true ->
  match get_dynamic_filter_options df categorical_columns numeric_columns with
  | Ok options =>
      forall col o, options !! col = Some o ->
        option_fits df categorical_columns numeric_columns col o
  | Raise e => e = TypeError
  end.
Proof.
  intros Hwf. unfold get_dynamic_filter_options.
  apply (numeric_loop df numeric_columns categorical_columns [] _ Hwf).
  apply (categorical_loop df categorical_columns [] []).
  intros col o. by rewrite lookup_empty.
Qed.

Lemma filter_options_sound_witness :
  match @get_dynamic_filter_options Sample.integer_cells Sample.students
          ["passed"] ["student_id"] with
  | Ok options =>
      forall col o, options !! col = Some o ->
        option_fits Sample.students ["passed"] ["student_id"] col o
  | Raise e => e = TypeError
  end.
Proof.
  apply (@filter_options_sound Sample.integer_cells Sample.students
           ["passed"] ["student_id"]).
  reflexivity.
Defined.

(** ** The filters *)

Section Filters.
Context `{Coercions}.

Lemma mask_filter_sublist {A} (mask : list bool) (l : list A) :
  sublist (Frames.mask_filter mask l) l.
Proof.
  revert mask. induction l as [|x l IH]; intros mask.
  - unfold Frames.mask_filter. by destruct mask.
  - destruct mask as [|b mask].
    + rewrite mask_filter_nil_l. apply sublist_nil_l.
    + rewrite mask_filter_cons. destruct b; cbn [app].
      * by apply sublist_skip.
      * by apply sublist_cons.
Qed.

Lemma narrowed_refl (df : DataFrame) : narrowed df df.
Proof.
  repeat split; try done. intros col s Hs. by exists s.
Qed.

Lemma narrowed_trans (df1 df2 df3 : DataFrame) :
  narrowed df1 df2 -> narrowed df2 df3 -> narrowed df1 df3.
Proof.
  intros (Hc1 & Hl1 & Hw1 & Hs1) (Hc2 & Hl2 & Hw2 & Hs2).
  split; [by rewrite Hc2|]. split; [lia|]. split; [auto|].
  intros col s3 H3. destruct (Hs2 col s3 H3) as (s2 & H2 & Hsub2).
  destruct (Hs1 col s2 H2) as (s1 & H1 & Hsub1).
  exists s1. split; [done|]. by etrans.
Qed.

Lemma narrowed_select (df : DataFrame) (mask : list bool) :
  (Frames.wf df = true -> length mask = df_len df) ->
  narrowed df (Frames.select mask df).
Proof.
  intros Hmask. split; [apply columns_select|]. split; [apply len_select|].
  split.
  - intros Hwf. apply wf_select; [done|by apply Hmask].
  - intros col s'. rewrite get_select.
    destruct (Frames.get df col) as [s|]; [|done].
    cbn. intros [= <-]. exists s. split; [done|]. apply mask_filter_sublist.
Qed.

Lemma isin_selected (selected vs : list value) :
  Forall (fun v => v ∈ selected)
    (Frames.mask_filter ((fun v => bool_decide (v ∈ selected)) <$> vs) vs).
Proof.
  induction vs as [|v vs IH]; [done|].
  cbn [fmap list_fmap]. rewrite mask_filter_cons.
  case_bool_decide; cbn [app]; [by constructor|done].
Qed.

Lemma selection_narrowed (filters : gmap string (list value))
    (cols : list string) (df df' : DataFrame) :
  narrowed df df' -> selection_holds filters cols df ->
  selection_holds filters cols df'.
Proof.
  intros (_ & _ & _ & Hsub) Hsel col v selected s' Hcol Hf Hget.
  destruct (Hsub col s' Hget) as (s & Hs & Hss).
  specialize (Hsel col v selected s Hcol Hf Hs).
  rewrite Forall_forall in Hsel |- *. intros x Hx. apply Hsel.
  by eapply elem_of_sublist.
Qed.

Lemma categorical_filters (filters : gmap string (list value))
    (df : DataFrame) (todo seen : list string) (r : result DataFrame) :
  filtered_from filters seen df r ->
  filtered_from filters (seen ++ todo) df
    (foldl (fun filtered col =>
              bind filtered (fun filtered =>
                match filters !! col with
                | Some ((_ :: _) as selected) =>
                    match Frames.get filtered col with
                    | Some s => Ok (Frames.select (isin selected s) filtered)
                    | None => Raise (KeyError col)
                    end
                | _ => Ok filtered
                end)) r todo).
Proof.
  revert seen r. induction todo as [|col todo IH]; intros seen r Hr.
  - cbn [foldl]. by rewrite app_nil_r.
  - cbn [foldl]. rewrite (cons_middle col), app_assoc. apply IH.
    destruct r as [cur|e]; [|done]. cbn [bind]. destruct Hr as [Hn Hsel].
    destruct (filters !! col) as [[|v selected]|] eqn:Hf.
    + split; [done|]. intros c v' sel s [Hc|Hc]%elem_of_app; [by apply Hsel|].
      apply list_elem_of_singleton in Hc as ->. congruence.
    + destruct (Frames.get cur col) as [s|] eqn:Hget; [|done].
      assert (narrowed cur (Frames.select (isin (v :: selected) s) cur)) as Hstep.
      { apply narrowed_select. intros Hwf.
        destruct (wf_get cur col s Hwf Hget) as [Hl _].
        unfold isin. by rewrite length_fmap. }
      split; [by eapply narrowed_trans|].
      intros c v' sel s' [Hc|Hc]%elem_of_app Hfc Hgc.
      * by apply (selection_narrowed filters seen cur _ Hstep Hsel c v' sel s').
      * apply list_elem_of_singleton in Hc as ->.
        rewrite Hf in Hfc. injection Hfc as <- <-.
        rewrite get_select, Hget in Hgc. injection Hgc as <-.
        cbn [s_values]. apply isin_selected.
    + split; [done|]. intros c v' sel s [Hc|Hc]%elem_of_app; [by apply Hsel|].
      apply list_elem_of_singleton in Hc as ->. congruence.
Qed.

Lemma numeric_filters (filters : gmap string (list value))
    (df : DataFrame) (cats todo : list string) (r : result DataFrame) :
  filtered_from filters cats df r ->
  filtered_from filters cats df
    (foldl (fun filtered col =>
              bind filtered (fun filtered =>
                let key := col +:+ "_range" in
                match filters !! key with
                | Some bounds =>
                    match bounds with
                    | [lo; hi] =>
                        match Frames.get filtered col with
                        | Some s =>
                            match lo, hi with
                            | VNum lo, VNum hi =>
                                Ok (Frames.select
                                      (between lo hi (Pandas.to_numeric s))
                                      filtered)
                            | _, _ => Raise TypeError
                            end
                        | None => Raise (KeyError col)
                        end
                    | _ => Raise ValueError
                    end
                | None => Ok filtered
                end)) r todo).
Proof.
  revert r. induction todo as [|col todo IH]; intros r Hr; [done|].
  cbn [foldl]. apply IH.
  destruct r as [cur|e]; [|done]. cbn [bind]. destruct Hr as [Hn Hsel].
  cbn zeta. destruct (filters !! (col +:+ "_range")) as [bounds|]; [|done].
  destruct bounds as [|lo [|hi [|]]]; try done.
  destruct (Frames.get cur col) as [s|] eqn:Hget; [|done].
  destruct lo as [|lo| |]; try done. destruct hi as [|hi| |]; try done.
  assert (narrowed cur
            (Frames.select (between lo hi (Pandas.to_numeric s)) cur)) as Hstep.
  { apply narrowed_select. intros Hwf.
    destruct (wf_get cur col s Hwf Hget) as [Hl _].
    unfold between. rewrite length_fmap.
    change (length (s_values (Pandas.to_numeric s)))
      with (Pandas.len (Pandas.to_numeric s)).
    by rewrite len_to_numeric. }
  split; [by eapply narrowed_trans|].
  by eapply selection_narrowed.
Qed.

Lemma no_filter_loop {A} (df : DataFrame) (l : list A)
    (f : DataFrame -> A -> result DataFrame) :
  Forall (fun x => forall cur, f cur x = Ok cur) l ->
  foldl (fun filtered x => bind filtered (fun filtered => f filtered x))
    (Ok df) l = Ok df.
Proof.
  induction 1 as [|x l Hx _ IH]; [done|].
  cbn [foldl bind]. by rewrite Hx.
Qed.

End Filters.

(** Filtering only takes rows away.  When the filters return a table, it
    has the columns of the table that went in, no more rows, in every
    column cells of that column in their order, and one cell per row in
    every column when the table that went in had; and every cell of a
    categorical column for which categories are selected is one of the
    selected categories. *)
Theorem filters_narrow `{Coercions} (df df' : DataFrame)
    (filters : gmap string (list value))
    (categorical_columns numeric_columns : list string) :
  apply_dynamic_filters df filters categorical_columns numeric_columns = Ok df' ->
  narrowed df df'
  /\ forall col v selected s',
       col ∈ categorical_columns -> filters !! col = Some (v :: selected) ->
       Frames.get df' col = Some s' ->
       Forall (fun x => x ∈ v :: selected) (s_values s').
Proof.
  intros Hok.
  pose proof (numeric_filters filters df categorical_columns numeric_columns _
                (categorical_filters filters df categorical_columns [] (Ok df)
                   (conj (narrowed_refl df)
                      (fun col v sel s Hc => False_ind _
                         (proj1 (elem_of_nil col) Hc))))) as Hr.
  cbn [app] in Hr. unfold apply_dynamic_filters in Hok.
  rewrite Hok in Hr. exact Hr.
Qed.

Lemma filters_narrow_witness :
  let filters : gmap string (list value) := {[ "k" := [VStr "u"] ]} in
  let df' := Frame 2 [("k", Series object [VStr "u"; VStr "u"]);
                      ("n", Series int64 [Sample.num 1; Sample.num 1])] in
  narrowed Sample.repeated df'
  /\ forall col v selected s',
       col ∈ ["k"] -> filters !! col = Some (v :: selected) ->
       Frames.get df' col = Some s' ->
       Forall (fun x => x ∈ v :: selected) (s_values s').
Proof.
  intros filters df'.
  apply (@filters_narrow Sample.integer_cells Sample.repeated df' filters
           ["k"] []).
  vm_compute. reflexivity.
Defined.

(** Without a selection the filters return the table as it is, whatever
    the column lists name: a categorical column is filtered only when the
    dictionary holds a list of categories for it that is not empty, and a
    numeric column only when the dictionary holds a range for it. *)
Theorem filters_without_selection `{Coercions} (df : DataFrame)
    (filters : gmap string (list value))
    (categorical_columns numeric_columns : list string) :
  (forall col, col ∈ categorical_columns ->
     filters !! col = None \/ filters !! col = Some []) ->
  (forall col, col ∈ numeric_columns -> filters !! (col +:+ "_range") = None) ->
  apply_dynamic_filters df filters categorical_columns numeric_columns = Ok df.
Proof.
  intros Hcats Hnums. unfold apply_dynamic_filters.
  rewrite (no_filter_loop df categorical_columns
             (fun filtered col =>
                match filters !! col with
                | Some ((_ :: _) as selected) =>
                    match Frames.get filtered col with
                    | Some s => Ok (Frames.select (isin selected s) filtered)
                    | None => Raise (KeyError col)
                    end
                | _ => Ok filtered
                end)).
  - apply (no_filter_loop df numeric_columns
             (fun filtered col =>
                let key := col +:+ "_range" in
                match filters !! key with
                | Some bounds =>
                    match bounds with
                    | [lo; hi] =>
                        match Frames.get filtered col with
                        | Some s =>
                            match lo, hi with
                            | VNum lo, VNum hi =>
                                Ok (Frames.select
                                      (between lo hi (Pandas.to_numeric s))
                                      filtered)
                            | _, _ => Raise TypeError
                            end
                        | None => Raise (KeyError col)
                        end
                    | _ => Raise ValueError
                    end
                | None => Ok filtered
                end)).
    apply Forall_forall. intros col Hcol cur. cbn zeta.
    by rewrite (Hnums col Hcol).
  - apply Forall_forall. intros col Hcol cur.
    by destruct (Hcats col Hcol) as [-> | ->].
Qed.

Lemma filters_without_selection_witness :
  @apply_dynamic_filters Sample.integer_cells Sample.one_column
    {[ "b" := [] ]} ["b"] ["c"]
  = Ok Sample.one_column.
Proof.
  apply (@filters_without_selection Sample.integer_cells Sample.one_column
           {[ "b" := [] ]} ["b"] ["c"]).
  - intros col ->%list_elem_of_singleton. by right.
  - intros col ->%list_elem_of_singleton. reflexivity.
Defined.
